(** * Saliva hormone tracker: the hormone status modelling pipeline

    A shallow embedding of [model.py]: the rule-based reference model
    ([classify_status], [analyze_hormones]), the synthetic data generator
    ([generate_realistic_dataset] and its three samplers), the feature
    encodings of [train_model] and [predict_status], and the artifact
    loading of [load_model].

    Conventions of the embedding.
    - A Python float is a rational ([Q]); the comparisons of the source
      against decimal literals are order comparisons on [Q].
    - [gender], [time_of_day] and the status labels are Python strings and
      stay strings, so the [else] branches of the source keep their meaning
      on unrecognised text.
    - The seeded generators of numpy and of the [random] module are streams
      of raw variates read through a cursor; the wall clock is a stream of
      calendar days; scikit-learn's estimators are records of functions. *)

From Stdlib Require Import QArith Qround Qabs ZArith List String Bool Lia Lqa.
From Stdlib Require Import Permutation Sorted.
Import ListNotations.

Local Open Scope string_scope.
Local Open Scope Q_scope.

(** ** Comparisons on floats *)

Module PyFloat.

Definition ltb (x y : Q) : bool := negb (Qle_bool y x).
Definition gtb (x y : Q) : bool := ltb y x.

(** [max(a, b)] of Python: [b] when [b > a], otherwise [a]. *)
Definition max (a b : Q) : Q := if gtb b a then b else a.

(** Nearest integer, ties to the even neighbour. *)
Definition round_half_even (y : Q) : Z :=
  let f := Qfloor y in
  let r := y - inject_Z f in
  if ltb r (1 # 2) then f
  else if ltb (1 # 2) r then (f + 1)%Z
  else if Z.even f then f else (f + 1)%Z.

(** [round(x, ndigits)]. *)
Definition round (x : Q) (ndigits : nat) : Q :=
  let s := inject_Z (10 ^ Z.of_nat ndigits) in
  inject_Z (round_half_even (x * s)) / s.

(** [int(x)] and numpy's [astype(int)]: truncation towards zero. *)
Definition trunc (x : Q) : Z := Z.quot (Qnum x) (Zpos (Qden x)).

Definition clip (lo hi x : Q) : Q :=
  if ltb x lo then lo else if gtb x hi then hi else x.

End PyFloat.

Notation "x <? y" := (PyFloat.ltb x y) : Q_scope.
Notation "x >? y" := (PyFloat.gtb x y) : Q_scope.

(** ** Reference model *)

Definition STATUS_LEVELS : list string :=
  ["Normal"; "Mild Imbalance"; "Moderate Imbalance"; "Severe Imbalance"].

(** The three blocks of [classify_status] that add to [score]. Each takes
    the score so far and returns the updated score. *)

Definition cortisol_evaluation (time_of_day : string) (cortisol : Q) (score : Z) : Z :=
  if time_of_day =? "Morning" then
    if (cortisol <? 3.0) || (cortisol >? 12.0) then (score + 2)%Z
    else if (cortisol <? 4.0) || (cortisol >? 10.0) then (score + 1)%Z
    else score
  else if time_of_day =? "Afternoon" then
    if (cortisol <? 0.5) || (cortisol >? 6.0) then (score + 2)%Z
    else if (cortisol <? 1.0) || (cortisol >? 4.0) then (score + 1)%Z
    else score
  else
    if (cortisol <? 0.2) || (cortisol >? 4.0) then (score + 2)%Z
    else if (cortisol <? 0.3) || (cortisol >? 2.0) then (score + 1)%Z
    else score.

Definition estrogen_evaluation (gender : string) (estrogen : Q) (score : Z) : Z :=
  if gender =? "Male" then
    if (estrogen <? 0.5) || (estrogen >? 6.0) then (score + 2)%Z
    else if (estrogen <? 1.0) || (estrogen >? 4.0) then (score + 1)%Z
    else score
  else
    if (estrogen <? 0.5) || (estrogen >? 12.0) then (score + 2)%Z
    else if (estrogen <? 1.0) || (estrogen >? 8.0) then (score + 1)%Z
    else score.

Definition testosterone_evaluation (gender : string) (testosterone : Q) (score : Z) : Z :=
  if gender =? "Male" then
    if (testosterone <? 30.0) || (testosterone >? 250.0) then (score + 2)%Z
    else if (testosterone <? 50.0) || (testosterone >? 200.0) then (score + 1)%Z
    else score
  else
    if (testosterone <? 5.0) || (testosterone >? 80.0) then (score + 2)%Z
    else if (testosterone <? 10.0) || (testosterone >? 55.0) then (score + 1)%Z
    else score.

(** The value of the local variable [score] when [classify_status] reaches
    its final conversion. *)
Definition severity_score (cortisol estrogen testosterone : Q)
           (gender time_of_day : string) : Z :=
  let score := 0%Z in
  let score := cortisol_evaluation time_of_day cortisol score in
  let score := estrogen_evaluation gender estrogen score in
  let score := testosterone_evaluation gender testosterone score in
  score.

Definition status_of_score (score : Z) : string :=
  if (5 <=? score)%Z then "Severe Imbalance"
  else if (3 <=? score)%Z then "Moderate Imbalance"
  else if (1 <=? score)%Z then "Mild Imbalance"
  else "Normal".

Definition classify_status (cortisol estrogen testosterone : Q)
           (gender time_of_day : string) : string :=
  status_of_score (severity_score cortisol estrogen testosterone gender time_of_day).

(** ** Per-hormone analysis *)

Record HormoneEntry := mkEntry {
  entry_status : string;
  entry_level : Q;
  entry_note : option string
}.

Record Analysis := mkAnalysis {
  an_cortisol : HormoneEntry;
  an_estrogen : HormoneEntry;
  an_testosterone : HormoneEntry
}.

(** [time_of_day.lower()] on the values the note is built from. *)
Definition lower_ascii (c : Ascii.ascii) : Ascii.ascii :=
  let n := Ascii.nat_of_ascii c in
  if (65 <=? n)%nat && (n <=? 90)%nat then Ascii.ascii_of_nat (n + 32) else c.

Fixpoint lower (s : string) : string :=
  match s with
  | EmptyString => EmptyString
  | String c r => String (lower_ascii c) (lower r)
  end.

Definition analyze_cortisol (cortisol : Q) (time_of_day : string) : HormoneEntry :=
  if time_of_day =? "Morning" then
    if cortisol <? 3.0 then mkEntry "Low" cortisol (Some "Below morning reference")
    else if cortisol >? 10.0 then mkEntry "High" cortisol (Some "Elevated stress response")
    else mkEntry "Normal" cortisol (Some "Within morning range")
  else
    let threshold_high := if time_of_day =? "Afternoon" then 4.0 else 2.0 in
    if cortisol >? threshold_high then
      mkEntry "High" cortisol (Some ("Elevated for " ++ lower time_of_day))
    else mkEntry "Normal" cortisol (Some "Appropriate diurnal level").

Definition analyze_estrogen (estrogen : Q) (gender : string) : HormoneEntry :=
  if gender =? "Male" then
    if estrogen <? 1.0 then mkEntry "Low" estrogen None
    else if estrogen >? 4.0 then mkEntry "High" estrogen None
    else mkEntry "Normal" estrogen None
  else
    if estrogen <? 1.0 then mkEntry "Low" estrogen None
    else if estrogen >? 8.0 then mkEntry "High" estrogen None
    else mkEntry "Normal" estrogen None.

Definition analyze_testosterone (testosterone : Q) (gender : string) : HormoneEntry :=
  if gender =? "Male" then
    if testosterone <? 50.0 then mkEntry "Low" testosterone (Some "Below male reference")
    else if testosterone >? 200.0 then mkEntry "High" testosterone None
    else mkEntry "Normal" testosterone None
  else
    if testosterone <? 10.0 then mkEntry "Low" testosterone None
    else if testosterone >? 55.0 then mkEntry "High" testosterone (Some "Elevated for female")
    else mkEntry "Normal" testosterone None.

Definition analyze_hormones (cortisol estrogen testosterone : Q)
           (gender time_of_day : string) : Analysis :=
  mkAnalysis (analyze_cortisol cortisol time_of_day)
             (analyze_estrogen estrogen gender)
             (analyze_testosterone testosterone gender).


(** ** Recommendations keyed by label *)

Record Insights := mkInsights {
  title : string;
  description : string;
  recommendations : list string;
  color : string;
  urgency : string
}.

(** The four entries of the [insights] table (titles without their leading
    pictograph). *)
Definition insights_table : list (string * Insights) :=
  [ ("Normal",
     mkInsights "Healthy Hormonal Balance"
       "Your hormone levels are within optimal ranges, indicating good endocrine health."
       [ "Maintain your current healthy lifestyle";
         "Continue regular exercise (30-45 min, 4-5 times/week)";
         "Ensure 7-9 hours of quality sleep";
         "Schedule routine check-ups every 6-12 months" ]
       "success" "low");
    ("Mild Imbalance",
     mkInsights "Mild Hormonal Variation"
       "Some hormone levels show minor deviations. This is often manageable with lifestyle adjustments."
       [ "Focus on stress management techniques (meditation, yoga)";
         "Optimize sleep schedule and quality";
         "Review diet for nutrient deficiencies";
         "Consider retesting in 4-6 weeks";
         "Track symptoms and energy levels" ]
       "warning" "moderate");
    ("Moderate Imbalance",
     mkInsights "Moderate Hormonal Imbalance"
       "Your hormone levels show noticeable deviations that warrant attention and monitoring."
       [ "Schedule a consultation with your healthcare provider";
         "Consider comprehensive hormone panel testing";
         "Document current symptoms and health changes";
         "Avoid high-stress activities temporarily";
         "Review medications for hormonal interactions" ]
       "orange" "high");
    ("Severe Imbalance",
     mkInsights "Significant Hormonal Imbalance"
       "Your hormone levels show significant deviation from normal ranges. Medical consultation is recommended."
       [ "Consult an endocrinologist promptly";
         "Get comprehensive blood work and imaging if advised";
         "Do not self-medicate or take hormone supplements";
         "Keep a detailed symptom diary";
         "Follow up with your primary care physician" ]
       "danger" "urgent") ].

(** ** Python dictionaries with string keys, in insertion order *)

Module dict.

Definition t (V : Type) : Type := list (string * V).

Fixpoint lookup {V} (d : t V) (k : string) : option V :=
  match d with
  | [] => None
  | (k', v) :: d' => if k' =? k then Some v else lookup d' k
  end.

(** [d.get(k, dflt)]. *)
Definition get {V} (d : t V) (k : string) (dflt : V) : V :=
  match lookup d k with Some v => v | None => dflt end.

(** [d[k] = v]: overwrite in place, or append a new key. *)
Fixpoint set {V} (k : string) (v : V) (d : t V) : t V :=
  match d with
  | [] => [(k, v)]
  | (k', v') :: d' =>
      if k' =? k then (k', v) :: d' else (k', v') :: set k v d'
  end.

(** [{k: v for k, v in items}]. *)
Definition of_items {V} (items : list (string * V)) : t V :=
  fold_left (fun d kv => set (fst kv) (snd kv) d) items [].

Definition values {V} (d : t V) : list V := map snd d.

End dict.

Definition get_health_insights (status : string) (cortisol estrogen testosterone : Q)
           (gender : string) : Insights :=
  dict.get insights_table status
           (dict.get insights_table "Normal" (mkInsights "" "" [] "" "")).

(** ** Exceptions *)

Inductive PyError := ValueError | IndexError | AttributeError.

Inductive Result (A : Type) : Type :=
| Ok (a : A)
| Raise (e : PyError).
Arguments Ok {A} a.
Arguments Raise {A} e.

Definition bindR {A B} (m : Result A) (k : A -> Result B) : Result B :=
  match m with
  | Ok a => k a
  | Raise e => Raise e
  end.

Notation "x <-? m ;; k" := (bindR m (fun x => k))
  (at level 61, m at next level, right associativity).

(** [l[i]] on a sequence. *)
Definition getitem {A} (l : list A) (i : nat) : Result A :=
  match nth_error l i with
  | Some a => Ok a
  | None => Raise IndexError
  end.

(** [max(iterable)]: the first element, replaced by each later element that
    is greater. *)
Definition py_max (l : list Q) : Result Q :=
  match l with
  | [] => Raise ValueError
  | x :: r => Ok (fold_left PyFloat.max r x)
  end.

(** ** The data frame and the fitted objects *)

(** One row of the data frame. [row_sample_date] is the calendar day whose
    [%Y-%m-%d] text the source stores. *)
Record Row := mkRow {
  row_age : Z;
  row_gender : string;
  row_cortisol : Q;
  row_estrogen : Q;
  row_testosterone : Q;
  row_time_of_day : string;
  row_sample_date : Z;
  row_health_condition : string;
  row_status : string
}.

(** An entry of a numeric matrix: a number, or the NaN pandas puts where a
    mapping has no key. *)
Inductive npfloat := Num (q : Q) | NaN.

(** A fitted classifier as [predict_status] uses it. The last two fields
    are the attributes [train_model] attaches; [None] is an estimator
    without the attribute. *)
Record Classifier := mkClassifier {
  predict : list Q -> nat;
  predict_proba : list Q -> list Q;
  classes_labels_ : option (list string);
  feature_names_ : option (list string)
}.

Record StandardScaler := mkScaler {
  mean_ : list Q;
  scale_ : list Q
}.

(** [scaler.transform] on one sample: scikit-learn rejects a sample whose
    number of features differs from the number seen at fit time. *)
Definition transform (scaler : StandardScaler) (x : list Q) : Result (list Q) :=
  if Nat.eqb (List.length x) (List.length (mean_ scaler)) then
    Ok (map (fun xms => (fst xms - fst (snd xms)) / snd (snd xms))
            (combine x (combine (mean_ scaler) (scale_ scaler))))
  else Raise ValueError.

Record LabelEncoder := mkLabelEncoder { classes_ : list string }.

(** The artifact files next to the module. *)
Record Disk := mkDisk {
  DATASET_PATH : option (list Row);
  MODEL_PATH : option Classifier;
  SCALER_PATH : option StandardScaler;
  label_encoder_pkl : option LabelEncoder
}.

(** ** The world the pipeline runs in

    [np_stream] is the sequence of raw variates numpy's global generator
    yields after its last seeding (a uniform variate of [[0,1)] or a
    standard normal one, in call order); [py_stream] is the same for the
    [random] module; [clock] gives the calendar day (as an ordinal) that
    successive [datetime.now()] calls observe. *)

Record World := mkWorld {
  np_stream : nat -> Q;
  np_pos : nat;
  py_stream : nat -> Z;
  py_pos : nat;
  clock : nat -> Z;
  clock_pos : nat;
  disk : Disk
}.

Definition Gen (A : Type) : Type := World -> A * World.

Definition ret {A} (a : A) : Gen A := fun w => (a, w).

Definition bind {A B} (m : Gen A) (k : A -> Gen B) : Gen B :=
  fun w => let (a, w') := m w in k a w'.

Notation "x <- m ;; k" := (bind m (fun x => k))
  (at level 61, m at next level, right associativity).

Fixpoint replicateM {A} (n : nat) (m : Gen A) : Gen (list A) :=
  match n with
  | O => ret []
  | S n' => x <- m ;; xs <- replicateM n' m ;; ret (x :: xs)
  end.

Fixpoint forM {A B} (l : list A) (body : A -> Gen B) : Gen (list B) :=
  match l with
  | [] => ret []
  | a :: l' => b <- body a ;; bs <- forM l' body ;; ret (b :: bs)
  end.

Class Default (A : Type) := default : A.
#[global] Instance Default_string : Default string := "".
#[global] Instance Default_Q : Default Q := 0.
#[global] Instance Default_Z : Default Z := 0%Z.
#[global] Instance Default_Row : Default Row := mkRow 0 "" 0 0 0 "" 0 "" "".

Module np_random.

Definition next : Gen Q := fun w =>
  (np_stream w (np_pos w),
   mkWorld (np_stream w) (S (np_pos w)) (py_stream w) (py_pos w)
           (clock w) (clock_pos w) (disk w)).

(** [np.random.seed(seed)]: the stream restarts at the one the seed
    determines. *)
Definition seed (mt19937 : Z -> nat -> Q) (s : Z) : Gen unit := fun w =>
  (tt, mkWorld (mt19937 s) 0 (py_stream w) (py_pos w)
               (clock w) (clock_pos w) (disk w)).

Definition uniform (low high : Q) : Gen Q :=
  u <- next ;; ret (low + (high - low) * u).

Definition normal (loc scale : Q) : Gen Q :=
  z <- next ;; ret (loc + scale * z).

(** Inverse-CDF selection: the first entry whose cumulative weight
    exceeds the variate. *)
Fixpoint searchsorted {A} (u acc : Q) (a : list A) (p : list Q) (last : A) : A :=
  match a, p with
  | x :: a', q :: p' =>
      if u <? acc + q then x else searchsorted u (acc + q) a' p' x
  | _, _ => last
  end.

Definition choice_p {A} `{Default A} (a : list A) (p : list Q) : Gen A :=
  u <- next ;; ret (searchsorted u 0 a p default).

Definition choice {A} `{Default A} (a : list A) : Gen A :=
  let n := List.length a in
  choice_p a (repeat (1 / inject_Z (Z.of_nat n)) n).

End np_random.

Module random.

Definition next : Gen Z := fun w =>
  (py_stream w (py_pos w),
   mkWorld (np_stream w) (np_pos w) (py_stream w) (S (py_pos w))
           (clock w) (clock_pos w) (disk w)).

Definition seed (mt19937 : Z -> nat -> Z) (s : Z) : Gen unit := fun w =>
  (tt, mkWorld (np_stream w) (np_pos w) (mt19937 s) 0
               (clock w) (clock_pos w) (disk w)).

(** [random.randint(a, b)]: an integer of [[a, b]]. *)
Definition randint (a b : Z) : Gen Z :=
  r <- next ;; ret (a + r mod (b - a + 1))%Z.

End random.

Module datetime.

(** The day on which [datetime.now()] is evaluated. *)
Definition now : Gen Z := fun w =>
  (clock w (clock_pos w),
   mkWorld (np_stream w) (np_pos w) (py_stream w) (py_pos w)
           (clock w) (S (clock_pos w)) (disk w)).

End datetime.

Module joblib.

Definition get_disk : Gen Disk := fun w => (disk w, w).

Definition put_disk (d : Disk) : Gen unit := fun w =>
  (tt, mkWorld (np_stream w) (np_pos w) (py_stream w) (py_pos w)
               (clock w) (clock_pos w) d).

End joblib.

(** ** Hormone samplers *)

Definition generate_cortisol (time_of_day condition : string) (age : Z) : Gen Q :=
  let '(base_low, base_high) :=
    if time_of_day =? "Morning" then (4.0, 10.0)
    else if time_of_day =? "Afternoon" then (1.0, 4.0)
    else (0.3, 2.0) in
  cortisol <- np_random.uniform base_low base_high ;;
  cortisol <-
    (if condition =? "Stressed" then
       f <- np_random.uniform 1.3 2.0 ;; ret (cortisol * f)
     else if condition =? "Adrenal" then
       f <- np_random.choice [0.3; 2.5] ;; ret (cortisol * f)
     else if condition =? "Thyroid" then
       f <- np_random.uniform 0.7 1.4 ;; ret (cortisol * f)
     else ret cortisol) ;;
  ret (cortisol * (1 + inject_Z (age - 35) * 0.005)).

Definition generate_estrogen (gender : string) (age : Z) (condition : string) : Gen Q :=
  estrogen <-
    (if gender =? "Male" then np_random.uniform 1.0 3.5
     else
       phase <- np_random.choice_p ["follicular"; "ovulation"; "luteal"] [0.4; 0.2; 0.4] ;;
       if phase =? "follicular" then np_random.uniform 1.0 5.0
       else if phase =? "ovulation" then np_random.uniform 3.0 8.0
       else np_random.uniform 2.0 6.0) ;;
  estrogen <-
    (if condition =? "PCOS" then
       f <- np_random.uniform 0.5 0.8 ;; ret (estrogen * f)
     else if condition =? "Menopause" then
       f <- np_random.uniform 0.2 0.5 ;; ret (estrogen * f)
     else if condition =? "Thyroid" then
       f <- np_random.uniform 0.7 1.5 ;; ret (estrogen * f)
     else ret estrogen) ;;
  ret (if (gender =? "Female") && (45 <? age)%Z
       then estrogen * PyFloat.max 0.3 (1 - inject_Z (age - 45) * 0.03)
       else estrogen).

Definition generate_testosterone (gender : string) (age : Z) (condition : string) : Gen Q :=
  testosterone <-
    (if gender =? "Male" then
       testosterone <- np_random.uniform 60.0 180.0 ;;
       ret (if (30 <? age)%Z
            then testosterone * PyFloat.max 0.5 (1 - inject_Z (age - 30) * 0.01)
            else testosterone)
     else np_random.uniform 15.0 50.0) ;;
  if (condition =? "PCOS") && (gender =? "Female") then
    f <- np_random.uniform 1.5 2.5 ;; ret (testosterone * f)
  else if condition =? "Low_T" then
    f <- np_random.uniform 0.3 0.6 ;; ret (testosterone * f)
  else if (condition =? "Menopause") && (gender =? "Female") then
    f <- np_random.uniform 0.5 0.8 ;; ret (testosterone * f)
  else ret testosterone.

(** ** Dataset generation *)

(** The body of the [for i in range(n_samples)] loop. *)
Definition sample_row (ages : list Z) (genders times_of_day health_conditions : list string)
           (i : nat) : Gen Row :=
  let age := nth i ages default in
  let gender := nth i genders default in
  let time_of_day := nth i times_of_day default in
  let condition := nth i health_conditions default in
  cortisol <- generate_cortisol time_of_day condition age ;;
  estrogen <- generate_estrogen gender age condition ;;
  testosterone <- generate_testosterone gender age condition ;;
  let status := classify_status cortisol estrogen testosterone gender time_of_day in
  today <- datetime.now ;;
  days <- random.randint 0 730 ;;
  let sample_date := (today - days)%Z in
  noise <- np_random.normal 0 (cortisol * 0.05) ;;
  let cortisol := cortisol + noise in
  noise <- np_random.normal 0 (estrogen * 0.08) ;;
  let estrogen := estrogen + noise in
  noise <- np_random.normal 0 (testosterone * 0.05) ;;
  let testosterone := testosterone + noise in
  ret (mkRow age gender
             (PyFloat.round (PyFloat.max 0.1 cortisol) 2)
             (PyFloat.round (PyFloat.max 0.1 estrogen) 2)
             (PyFloat.round (PyFloat.max 0.1 testosterone) 2)
             time_of_day sample_date condition status).

(** What the fitting of the forest returns: the two prediction functions
    of the estimator. *)
Record Forest := mkForest {
  forest_predict : list Q -> nat;
  forest_predict_proba : list Q -> list Q
}.

(** The behaviour of the libraries the module calls and does not define:
    the variate streams a seed determines for numpy and for [random], the
    row order [df.sample(frac=1, random_state=seed)] draws for a frame of a
    given length, the fitting of the scaler, and the learner (train/test
    split, optional grid search and forest fitting on the scaled matrix)
    as a function of [optimize], [use_stratify], the scaler, the feature
    matrix and the encoded labels. *)
Class External := {
  numpy_mt19937 : Z -> nat -> Q;
  python_mt19937 : Z -> nat -> Z;
  sample_order : Z -> nat -> list nat;
  StandardScaler_fit : list (list npfloat) -> StandardScaler;
  RandomForest_fit :
    bool -> bool -> StandardScaler -> list (list npfloat) -> list nat -> Forest
}.

Definition default_seed : Z := 42.

Section Pipeline.

Context {ext : External}.

(** [df.sample(frac=1, random_state=seed).reset_index(drop=True)]. *)
Definition df_shuffle (seed : Z) (data : list Row) : list Row :=
  map (fun j => nth j data default) (sample_order seed (List.length data)).

Definition generate_realistic_dataset (n_samples : nat) (seed : Z) : Gen (list Row) :=
  _ <- np_random.seed numpy_mt19937 seed ;;
  _ <- random.seed python_mt19937 seed ;;
  ages <- replicateM n_samples (np_random.normal 35 12) ;;
  let ages := map (fun a => PyFloat.trunc (PyFloat.clip 18 70 a)) ages in
  genders <- replicateM n_samples
               (np_random.choice_p ["Male"; "Female"] [0.48; 0.52]) ;;
  times_of_day <- replicateM n_samples
               (np_random.choice_p ["Morning"; "Afternoon"; "Evening"] [0.5; 0.3; 0.2]) ;;
  health_conditions <- replicateM n_samples
               (np_random.choice_p
                  ["Healthy"; "Stressed"; "PCOS"; "Thyroid"; "Adrenal"; "Menopause"; "Low_T"]
                  [0.45; 0.20; 0.08; 0.07; 0.05; 0.08; 0.07]) ;;
  data <- forM (seq 0 n_samples)
               (sample_row ages genders times_of_day health_conditions) ;;
  ret (df_shuffle seed data).

(** *** Training *)

Definition time_mapping : dict.t Z :=
  [("Morning", 0%Z); ("Afternoon", 1%Z); ("Evening", 2%Z)].

(** [df['gender_encoded'] = (df['gender'] == 'Male').astype(int)]. *)
Definition train_gender_encoded (r : Row) : npfloat :=
  Num (if row_gender r =? "Male" then 1 else 0).

(** [df['time_encoded'] = df['time_of_day'].map(time_mapping)]. *)
Definition train_time_encoded (r : Row) : npfloat :=
  match dict.lookup time_mapping (row_time_of_day r) with
  | Some v => Num (inject_Z v)
  | None => NaN
  end.

(** The numeric columns of the frame once [train_model] has added its
    two, by name. *)
Definition frame_columns : dict.t (Row -> npfloat) :=
  [ ("age", fun r => Num (inject_Z (row_age r)));
    ("cortisol", fun r => Num (row_cortisol r));
    ("estrogen", fun r => Num (row_estrogen r));
    ("testosterone", fun r => Num (row_testosterone r));
    ("gender_encoded", train_gender_encoded);
    ("time_encoded", train_time_encoded) ].

Definition feature_cols : list string :=
  (["age"; "cortisol"; "estrogen"; "testosterone"] ++ ["gender_encoded"])
    ++ ["time_encoded"].

(** One line of [df[feature_cols].values]. *)
Definition train_features (r : Row) : list npfloat :=
  map (fun c => dict.get frame_columns c (fun _ => NaN) r) feature_cols.

(** [np.unique] on labels: the distinct values in increasing order. *)
Fixpoint insert_sorted (s : string) (l : list string) : list string :=
  match l with
  | [] => [s]
  | x :: r => if String.leb s x then s :: l else x :: insert_sorted s r
  end.

Definition np_unique (y : list string) : list string :=
  fold_right insert_sorted [] (nodup string_dec y).

Fixpoint index_of (s : string) (l : list string) : nat :=
  match l with
  | [] => O
  | x :: r => if x =? s then O else S (index_of s r)
  end.

Definition LabelEncoder_fit (y : list string) : LabelEncoder :=
  mkLabelEncoder (np_unique y).

Definition LabelEncoder_transform (le : LabelEncoder) (y : list string) : list nat :=
  map (fun s => index_of s (classes_ le)) y.

(** [df['status'].value_counts().min()]; [0] stands for the NaN of an
    empty frame, which fails the [>= 5] test just the same. *)
Definition min_class_count (y : list string) : nat :=
  match np_unique y with
  | [] => O
  | c :: cs =>
      fold_left Nat.min (map (count_occ string_dec y) cs) (count_occ string_dec y c)
  end.

(** [train_model]. The evaluation it prints (accuracy, cross-validation,
    report, importances) does not reach the returned objects and is left
    out. *)
Definition train_model (df : list Row) (optimize : bool)
  : Gen (Classifier * StandardScaler * LabelEncoder) :=
  let X := map train_features df in
  let y := map row_status df in
  let scaler := StandardScaler_fit X in
  let label_encoder := LabelEncoder_fit y in
  let y_encoded := LabelEncoder_transform label_encoder y in
  let use_stratify := (5 <=? min_class_count y)%nat in
  let forest := RandomForest_fit optimize use_stratify scaler X y_encoded in
  let model := mkClassifier (forest_predict forest) (forest_predict_proba forest)
                            (Some (classes_ label_encoder)) (Some feature_cols) in
  d <- joblib.get_disk ;;
  _ <- joblib.put_disk (mkDisk (DATASET_PATH d) (Some model) (Some scaler)
                               (Some label_encoder)) ;;
  ret (model, scaler, label_encoder).

Definition to_csv (df : list Row) : Gen unit :=
  d <- joblib.get_disk ;;
  joblib.put_disk (mkDisk (Some df) (MODEL_PATH d) (SCALER_PATH d)
                          (label_encoder_pkl d)).

Definition load_model : Gen (Classifier * option StandardScaler) :=
  d <- joblib.get_disk ;;
  match MODEL_PATH d with
  | None =>
      df <- generate_realistic_dataset 2000 default_seed ;;
      _ <- to_csv df ;;
      trained <- train_model df true ;;
      let '(model, scaler, _) := trained in
      ret (model, Some scaler)
  | Some model => ret (model, SCALER_PATH d)
  end.

(** *** Prediction *)

Record PredictionResult := mkPredictionResult {
  status : string;
  confidence : Q;
  insights : Insights;
  hormone_analysis : Analysis;
  probabilities : dict.t Q
}.

(** The feature vector [predict_status] builds. *)
Definition predict_features (age : Z) (cortisol estrogen testosterone : Q)
           (gender time_of_day : string) : list Q :=
  let gender_encoded := if gender =? "Male" then 1 else 0 in
  let time_encoded := inject_Z (dict.get time_mapping time_of_day 0%Z) in
  [inject_Z age; cortisol; estrogen; testosterone; gender_encoded; time_encoded].

(** [predict_status] once a model is at hand. *)
Definition predict_with (model : Classifier) (scaler : option StandardScaler)
           (cortisol estrogen testosterone : Q) (age : Z)
           (gender time_of_day : string) : Result PredictionResult :=
  let features := predict_features age cortisol estrogen testosterone gender time_of_day in
  features <-? (match scaler with
                | Some s => transform s features
                | None => Ok features
                end) ;;
  let prediction_idx := predict model features in
  let probs := predict_proba model features in
  top <-? py_max probs ;;
  let confidence := top * 100 in
  prediction <-? (match classes_labels_ model with
                  | Some labels => getitem labels prediction_idx
                  | None => getitem STATUS_LEVELS prediction_idx
                  end) ;;
  let insights := get_health_insights prediction cortisol estrogen testosterone gender in
  let analysis := analyze_hormones cortisol estrogen testosterone gender time_of_day in
  labels <-? (match classes_labels_ model with
              | Some labels => Ok labels
              | None => Raise AttributeError
              end) ;;
  Ok (mkPredictionResult prediction (PyFloat.round confidence 1) insights analysis
        (dict.of_items
           (map (fun lp => (fst lp, PyFloat.round (snd lp * 100) 1))
                (combine labels probs)))).

Definition predict_status (cortisol estrogen testosterone : Q)
           (model : option Classifier) (scaler : option StandardScaler)
           (age : Z) (gender time_of_day : string) : Gen (Result PredictionResult) :=
  loaded <- (match model with
             | None => load_model
             | Some m => ret (m, scaler)
             end) ;;
  ret (predict_with (fst loaded) (snd loaded)
                    cortisol estrogen testosterone age gender time_of_day).

End Pipeline.

(** ** The band table behind the three scoring blocks

    Each block of [classify_status] tests a value against four cut points:
    below [severe_low] or above [severe_high] adds 2, otherwise below
    [mild_low] or above [mild_high] adds 1. The normal band of a hormone is
    the interval [[mild_low, mild_high]], where nothing is added. *)

Record Bands := mkBands {
  severe_low : Q;
  mild_low : Q;
  mild_high : Q;
  severe_high : Q
}.

Definition band_points (b : Bands) (x : Q) : Z :=
  if (x <? severe_low b) || (x >? severe_high b) then 2%Z
  else if (x <? mild_low b) || (x >? mild_high b) then 1%Z
  else 0%Z.

Definition cortisol_bands (time_of_day : string) : Bands :=
  if time_of_day =? "Morning" then mkBands 3.0 4.0 10.0 12.0
  else if time_of_day =? "Afternoon" then mkBands 0.5 1.0 4.0 6.0
  else mkBands 0.2 0.3 2.0 4.0.

Definition estrogen_bands (gender : string) : Bands :=
  if gender =? "Male" then mkBands 0.5 1.0 4.0 6.0
  else mkBands 0.5 1.0 8.0 12.0.

Definition testosterone_bands (gender : string) : Bands :=
  if gender =? "Male" then mkBands 30.0 50.0 200.0 250.0
  else mkBands 5.0 10.0 55.0 80.0.

Definition bands_ordered (b : Bands) : Prop :=
  severe_low b <= mild_low b /\ mild_low b <= mild_high b /\ mild_high b <= severe_high b.

(** [x'] lies strictly further outside the band [[lo, hi]] than [x], on
    the same side. *)
Definition further_outside (lo hi x x' : Q) : Prop :=
  (x' < x /\ x < lo) \/ (hi < x /\ x < x').

(** A reading (cortisol, estrogen, testosterone) and the same reading with
    one hormone moved further outside its normal band. *)
Definition Reading : Type := (Q * Q * Q)%type.

Inductive moved_further_out (gender time_of_day : string) : Reading -> Reading -> Prop :=
| move_cortisol c c' e t :
    further_outside (mild_low (cortisol_bands time_of_day))
                    (mild_high (cortisol_bands time_of_day)) c c' ->
    moved_further_out gender time_of_day (c, e, t) (c', e, t)
| move_estrogen c e e' t :
    further_outside (mild_low (estrogen_bands gender))
                    (mild_high (estrogen_bands gender)) e e' ->
    moved_further_out gender time_of_day (c, e, t) (c, e', t)
| move_testosterone c e t t' :
    further_outside (mild_low (testosterone_bands gender))
                    (mild_high (testosterone_bands gender)) t t' ->
    moved_further_out gender time_of_day (c, e, t) (c, e, t').

Definition score_of (gender time_of_day : string) (r : Reading) : Z :=
  let '(c, e, t) := r in severity_score c e t gender time_of_day.

(** ** Concrete libraries, to run the pipeline on *)

Module Tabulated.

(** A stream tabulated by a finite list, constant past its end. *)
Definition stream {A} (d : A) (l : list A) : nat -> A := fun i => nth i l d.

Definition no_files : Disk := mkDisk None None None None.

(** A world before any seeding, on calendar day [today]. *)
Definition world (today : Z) (d : Disk) : World :=
  mkWorld (fun _ => 0) 0 (fun _ => 0%Z) 0 (fun _ => today) 0 d.

(** A learner that always answers the first class, with certainty. *)
Definition first_class (y : list nat) : Forest :=
  mkForest (fun _ => O)
           (fun _ => match List.length (nodup Nat.eq_dec y) with
                     | O => []
                     | S k => 1 :: repeat 0 k
                     end).

(** A fitted classifier over the four status labels that answers every
    sample with the same class index and the same probabilities. *)
Definition constant_model (idx : nat) (probs : list Q) : Classifier :=
  mkClassifier (fun _ => idx) (fun _ => probs) (Some STATUS_LEVELS)
               (Some feature_cols).

(** Libraries whose streams are given by two tables, that keep the row
    order, scale by nothing and learn [first_class]. *)
Definition libraries (np : list Q) (py : list Z) : External :=
  {| numpy_mt19937 := fun _ => stream 0 np;
     python_mt19937 := fun _ => stream 0%Z py;
     sample_order := fun _ n => seq 0 n;
     StandardScaler_fit := fun X =>
       let n := List.length (hd [] X) in mkScaler (repeat 0 n) (repeat 1 n);
     RandomForest_fit := fun _ _ _ _ y => first_class y |}.

End Tabulated.

(** ** What the libraries guarantee *)

Definition Qsum (l : list Q) : Q := fold_right Qplus 0 l.

(** The number of classes a classifier fitted on the encoded labels [y]
    knows. *)
Definition n_classes (y : list nat) : nat := List.length (nodup Nat.eq_dec y).

(** [df.sample(frac=1)] reorders the rows; a scaler fitted on a matrix
    expects samples as wide as its lines; a fitted forest answers, for any
    sample, with the index of one of its classes and with one probability
    per class, the probabilities being non-negative and adding up to one. *)
Class ExternalLaws (ext : External) : Prop := {
  sample_order_permutation :
    forall seed n, Permutation (sample_order seed n) (seq 0 n);
  scaler_fit_features :
    forall X n,
      X <> [] -> Forall (fun x => List.length x = n) X ->
      List.length (mean_ (StandardScaler_fit X)) = n;
  forest_proba_length :
    forall opt strat sc X y x,
      List.length (forest_predict_proba (RandomForest_fit opt strat sc X y) x)
      = n_classes y;
  forest_predict_range :
    forall opt strat sc X y x,
      y <> [] ->
      (forest_predict (RandomForest_fit opt strat sc X y) x < n_classes y)%nat;
  forest_proba_nonneg :
    forall opt strat sc X y x,
      Forall (Qle 0) (forest_predict_proba (RandomForest_fit opt strat sc X y) x);
  forest_proba_total :
    forall opt strat sc X y x,
      y <> [] ->
      Qsum (forest_predict_proba (RandomForest_fit opt strat sc X y) x) == 1
}.

(** ** Provenance of a generated row *)

(** The run of [generate_realistic_dataset] up to its loop: the seeding of
    both generators and the four arrays the loop indexes. *)
Definition sample_context {ext : External} (n_samples : nat) (seed : Z)
  : Gen (list Z * list string * list string * list string) :=
  _ <- np_random.seed numpy_mt19937 seed ;;
  _ <- random.seed python_mt19937 seed ;;
  ages <- replicateM n_samples (np_random.normal 35 12) ;;
  let ages := map (fun a => PyFloat.trunc (PyFloat.clip 18 70 a)) ages in
  genders <- replicateM n_samples
               (np_random.choice_p ["Male"; "Female"] [0.48; 0.52]) ;;
  times_of_day <- replicateM n_samples
               (np_random.choice_p ["Morning"; "Afternoon"; "Evening"] [0.5; 0.3; 0.2]) ;;
  health_conditions <- replicateM n_samples
               (np_random.choice_p
                  ["Healthy"; "Stressed"; "PCOS"; "Thyroid"; "Adrenal"; "Menopause"; "Low_T"]
                  [0.45; 0.20; 0.08; 0.07; 0.05; 0.08; 0.07]) ;;
  ret (ages, genders, times_of_day, health_conditions).

(** The hormone values the loop body draws for sample [i] before any noise:
    the outputs of the three samplers, called one after the other. *)
Definition pre_noise (ages : list Z) (genders times_of_day health_conditions : list string)
           (i : nat) : Gen (Q * Q * Q) :=
  let age := nth i ages default in
  let gender := nth i genders default in
  let time_of_day := nth i times_of_day default in
  let condition := nth i health_conditions default in
  cortisol <- generate_cortisol time_of_day condition age ;;
  estrogen <- generate_estrogen gender age condition ;;
  testosterone <- generate_testosterone gender age condition ;;
  ret (cortisol, estrogen, testosterone).

(** What the loop body draws after the three samplers: the date, then one
    noise term per hormone, each with a deviation proportional to the
    pre-noise value. *)
Definition measurement_noise (cortisol estrogen testosterone : Q) : Gen (Q * Q * Q) :=
  _ <- datetime.now ;;
  _ <- random.randint 0 730 ;;
  noise_c <- np_random.normal 0 (cortisol * 0.05) ;;
  noise_e <- np_random.normal 0 (estrogen * 0.08) ;;
  noise_t <- np_random.normal 0 (testosterone * 0.05) ;;
  ret (noise_c, noise_e, noise_t).

(** Row [r] is sample [i] drawn in world [w] and labelled before noise: its
    label is [classify_status] of the values the three samplers return
    when run from [w], for the gender and the time of day of the sample,
    and its stored features are those values with the noise drawn next
    added, floored at 0.1 and rounded to two decimals. *)
Definition labelled_before_noise
           (ages : list Z) (genders times_of_day health_conditions : list string)
           (i : nat) (w : World) (r : Row) : Prop :=
  let gender := nth i genders default in
  let time_of_day := nth i times_of_day default in
  let drawn := pre_noise ages genders times_of_day health_conditions i w in
  let '(c, e, t) := fst drawn in
  let '(noise_c, noise_e, noise_t) := fst (measurement_noise c e t (snd drawn)) in
  row_gender r = gender /\
  row_time_of_day r = time_of_day /\
  row_status r = classify_status c e t gender time_of_day /\
  row_cortisol r = PyFloat.round (PyFloat.max 0.1 (c + noise_c)) 2 /\
  row_estrogen r = PyFloat.round (PyFloat.max 0.1 (e + noise_e)) 2 /\
  row_testosterone r = PyFloat.round (PyFloat.max 0.1 (t + noise_t)) 2.

(** The scaler [train_model] would fit had it taken the columns of the
    frame in the order [cols] instead of [feature_cols]. *)
Definition scaler_fitted_in_order {ext : External} (cols : list string)
           (df : list Row) : StandardScaler :=
  StandardScaler_fit
    (map (fun r => map (fun c => dict.get frame_columns c (fun _ => NaN) r) cols) df).

(** The label [classify_status] gives to the features a row stores. *)
Definition label_of_stored_features (r : Row) : string :=
  classify_status (row_cortisol r) (row_estrogen r) (row_testosterone r)
                  (row_gender r) (row_time_of_day r).

(** Two rows that agree on every column but [sample_date]. *)
Definition same_but_date (r1 r2 : Row) : Prop :=
  r1 = mkRow (row_age r2) (row_gender r2) (row_cortisol r2) (row_estrogen r2)
             (row_testosterone r2) (row_time_of_day r2) (row_sample_date r1)
             (row_health_condition r2) (row_status r2).

(** Two worlds whose generators are in the same state; their clocks and
    disks may differ. *)
Definition same_generators (w1 w2 : World) : Prop :=
  np_stream w1 = np_stream w2 /\ np_pos w1 = np_pos w2 /\
  py_stream w1 = py_stream w2 /\ py_pos w1 = py_pos w2.

(** Two computations that, run from worlds with the same generator state,
    return [R]-related values and leave the generators in the same state. *)
Definition related {A B} (R : A -> B -> Prop) (m1 : Gen A) (m2 : Gen B) : Prop :=
  forall w1 w2, same_generators w1 w2 ->
    R (fst (m1 w1)) (fst (m2 w2)) /\ same_generators (snd (m1 w1)) (snd (m2 w2)).



(** What [load_model] returns, and the world it leaves, once the frame
    [fst p] has been generated in world [snd p] and no model file exists:
    the frame is written out and a model is trained on it. *)
Definition train_on_generated {ext : External} (p : list Row * World)
  : (Classifier * option StandardScaler) * World :=
  let df := fst p in
  let t := train_model df true (snd (to_csv df (snd p))) in
  ((fst (fst (fst t)), Some (snd (fst (fst t)))), snd t).

(** The order of Python strings, as a relation. *)
Definition string_le (a b : string) : Prop := String.leb a b = true.

(** ** Footprint and agreement of runs *)

(** A computation that reads the clock [cp] times and the [random] module
    [pp] times, and otherwise leaves the clock, both variate streams and the
    disk as they were. *)
Definition steps {A} (cp pp : nat) (m : Gen A) : Prop :=
  forall w,
    clock (snd (m w)) = clock w /\
    clock_pos (snd (m w)) = (clock_pos w + cp)%nat /\
    py_stream (snd (m w)) = py_stream w /\
    py_pos (snd (m w)) = (py_pos w + pp)%nat /\
    np_stream (snd (m w)) = np_stream w /\
    disk (snd (m w)) = disk w.

(** Two worlds whose generators are in the same state and whose clocks will
    read the same days; their disks may differ. *)
Definition same_inputs (w1 w2 : World) : Prop :=
  same_generators w1 w2 /\ clock w1 = clock w2 /\ clock_pos w1 = clock_pos w2.

(** Two computations that, run from worlds with the same inputs, return
    the same value and leave the inputs the same. *)
Definition agree {A} (m1 m2 : Gen A) : Prop :=
  forall w1 w2, same_inputs w1 w2 ->
    fst (m1 w1) = fst (m2 w2) /\ same_inputs (snd (m1 w1)) (snd (m2 w2)).

(** The ranges the generator draws its columns from. *)
Definition row_in_range (r : Row) : Prop :=
  (18 <= row_age r <= 70)%Z /\
  In (row_gender r) ["Male"; "Female"] /\
  In (row_time_of_day r) ["Morning"; "Afternoon"; "Evening"] /\
  In (row_health_condition r)
     ["Healthy"; "Stressed"; "PCOS"; "Thyroid"; "Adrenal"; "Menopause"; "Low_T"] /\
  In (row_status r) STATUS_LEVELS.

(** A value floored at 0.1 and with at most two decimals. *)
Definition floored_two_decimals (x : Q) : Prop :=
  0.1 <= x /\ exists k : Z, x = inject_Z k / inject_Z 100.

(** ** The web application around the pipeline ([app.py])

    Request handlers as functions of the submitted form, the session and
    the tables, returning the response, the flashed messages and the new
    session or tables. Text is ASCII: [strip] and [lower] act on ASCII
    whitespace and letters, and [len] counts characters. *)

Module App.

(** *** Text *)

Definition is_space (c : Ascii.ascii) : bool :=
  let n := Ascii.nat_of_ascii c in
  (n =? 32)%nat || ((9 <=? n)%nat && (n <=? 13)%nat) ||
  ((28 <=? n)%nat && (n <=? 31)%nat).

Fixpoint lstrip (s : string) : string :=
  match s with
  | EmptyString => EmptyString
  | String c r => if is_space c then lstrip r else s
  end.

Fixpoint rstrip (s : string) : string :=
  match s with
  | EmptyString => EmptyString
  | String c r =>
      match rstrip r with
      | EmptyString => if is_space c then EmptyString else String c EmptyString
      | r' => String c r'
      end
  end.

Definition strip (s : string) : string := rstrip (lstrip s).

(** [needle in hay] on strings. *)
Fixpoint str_in (needle hay : string) : bool :=
  String.prefix needle hay ||
  match hay with
  | EmptyString => false
  | String _ r => str_in needle r
  end.

(** Truthiness of a string: [not s] holds of the empty string only. *)
Definition nonempty (s : string) : bool := negb (s =? "").

(** *** Responses, flashes, session, tables *)

Inductive Method := GET | POST.

Inductive Response :=
| redirect (endpoint : string)
| render_template (template : string)
| internal_server_error.

Definition Flash : Type := (string * string)%type.

Record Session := mkSession {
  user_id : option Z;
  user_name : option string;
  user_age : option Z;
  user_gender : option string;
  reset_email : option string;
  reset_user_id : option Z;
  reset_verified : bool
}.

(** [session.clear()]. *)
Definition empty_session : Session :=
  mkSession None None None None None None false.

Record User := mkUser {
  u_id : Z;
  u_name : string;
  u_email : string;
  u_password : string;
  u_age : Z;
  u_gender : string
}.

Record HormoneRecord := mkHormoneRecord {
  r_id : Z;
  r_user_id : Z;
  r_cortisol : Q;
  r_estrogen : Q;
  r_testosterone : Q;
  r_date : string;
  r_time : string;
  r_time_of_day : string;
  r_prediction : string;
  r_confidence : Q;
  r_insights : string
}.

(** A table with an AUTOINCREMENT key: its rows and the last key given
    out. *)
Record Table (A : Type) := mkTable {
  rows : list A;
  last_id : Z
}.
Arguments mkTable {A} rows last_id.
Arguments rows {A} t.
Arguments last_id {A} t.

(** [SELECT ... FROM users WHERE email = ?], first row. *)
Definition user_by_email (users : Table User) (email : string) : option User :=
  find (fun u => u_email u =? email) (rows users).

(** [SELECT ... FROM hormone_records WHERE id = ?], first row. *)
Definition record_by_id (records : Table HormoneRecord) (id : Z) : option HormoneRecord :=
  find (fun r => (r_id r =? id)%Z) (rows records).

(** werkzeug's password hashing. *)
Class Hashing := {
  generate_password_hash : string -> string;
  check_password_hash : string -> string -> bool
}.

(** A hash checks against the password it was made from. *)
Class HashingLaws (H : Hashing) : Prop := {
  check_generated : forall p, check_password_hash (generate_password_hash p) p = true
}.

(** A hashing that keeps the password readable, to run the handlers on
    examples. *)
Definition plain_hashing : Hashing := {|
  generate_password_hash p := "plain$" ++ p;
  check_password_hash h p := h =? "plain$" ++ p
|}.

(** *** Registration *)

Record RegisterForm := mkRegisterForm {
  f_name : string;
  f_email : string;
  f_password : string;
  f_confirm_password : string;
  f_age : option Z;
  f_gender : string
}.

(** The [# Validation] block of [register], on the fields as extracted. *)
Definition registration_errors (name email password confirm_password : string)
           (age : option Z) (gender : string) : list string :=
  let errors := [] in
  let errors := if nonempty name then errors else (errors ++ ["Name is required."])%list in
  let errors := if nonempty email then errors else (errors ++ ["Email is required."])%list in
  let errors := if nonempty password then errors
                else (errors ++ ["Password is required."])%list in
  let errors := if password =? confirm_password then errors
                else (errors ++ ["Passwords do not match."])%list in
  let errors := if (String.length password <? 6)%nat
                then (errors ++ ["Password must be at least 6 characters."])%list
                else errors in
  let errors := match age with
                | Some a =>
                    if (a =? 0)%Z || (a <? 18)%Z || (100 <? a)%Z
                    then (errors ++ ["Valid age (18-100) is required."])%list
                    else errors
                | None => (errors ++ ["Valid age (18-100) is required."])%list
                end in
  let errors := if nonempty gender then errors
                else (errors ++ ["Gender is required."])%list in
  errors.

Section Handlers.

Context {hashing : Hashing}.

(** [register]. The INSERT cannot violate the UNIQUE constraint on the email
    once the lookup before it has found no row, so the [except] branch of the
    source is not reached. *)
Definition register (method : Method) (form : RegisterForm) (users : Table User)
  : Response * list Flash * Table User :=
  match method with
  | GET => (render_template "register.html", [], users)
  | POST =>
      let name := strip (f_name form) in
      let email := lower (strip (f_email form)) in
      let password := f_password form in
      let confirm_password := f_confirm_password form in
      let age := f_age form in
      let gender := f_gender form in
      match registration_errors name email password confirm_password age gender with
      | (_ :: _) as errors =>
          (render_template "register.html",
           map (fun e => (e, "danger")) errors, users)
      | [] =>
          match user_by_email users email with
          | Some _ =>
              (redirect "login", [("Email already registered.", "warning")], users)
          | None =>
              let hashed_password := generate_password_hash password in
              let id := (last_id users + 1)%Z in
              (redirect "login",
               [("Registration successful! Please log in.", "success")],
               mkTable (rows users ++
                        [mkUser id name email hashed_password
                                (match age with Some a => a | None => 0%Z end) gender])%list
                       id)
          end
      end
  end.

(** The row a successful registration adds to the table. *)
Definition new_account (form : RegisterForm) (users : Table User) : User :=
  mkUser (last_id users + 1) (strip (f_name form)) (lower (strip (f_email form)))
         (generate_password_hash (f_password form))
         (match f_age form with Some a => a | None => 0%Z end) (f_gender form).

(** *** Login and logout *)

Definition login (method : Method) (email_field password : string)
           (users : Table User) (session : Session)
  : Response * list Flash * Session :=
  match method with
  | GET => (render_template "login.html", [], session)
  | POST =>
      let email := lower (strip email_field) in
      if negb (nonempty email) || negb (nonempty password) then
        (render_template "login.html",
         [("Please enter both email and password.", "warning")], session)
      else
        match user_by_email users email with
        | Some user =>
            if check_password_hash (u_password user) password then
              (redirect "dashboard",
               [("Welcome back, " ++ u_name user ++ "!", "success")],
               mkSession (Some (u_id user)) (Some (u_name user)) (Some (u_age user))
                         (Some (u_gender user))
                         (reset_email session) (reset_user_id session)
                         (reset_verified session))
            else
              (render_template "login.html",
               [("Invalid email or password.", "danger")], session)
        | None =>
            (render_template "login.html",
             [("Invalid email or password.", "danger")], session)
        end
  end.

Definition logout : Response * list Flash * Session :=
  (redirect "login", [("You have been logged out.", "info")], empty_session).

(** *** Password reset *)

Definition forgot_password (method : Method) (email_field : string)
           (users : Table User) (session : Session)
  : Response * list Flash * Session :=
  match method with
  | GET => (render_template "forgot_password.html", [], session)
  | POST =>
      let email := lower (strip email_field) in
      match user_by_email users email with
      | Some user =>
          (redirect "reset_password",
           [("Email verified! Please set your new password.", "success")],
           mkSession (user_id session) (user_name session) (user_age session)
                     (user_gender session)
                     (Some email) (Some (u_id user)) true)
      | None =>
          (render_template "forgot_password.html",
           [("No account found with that email address.", "danger")], session)
      end
  end.

(** [UPDATE users SET password = ? WHERE id = ?]. *)
Definition set_password (users : Table User) (id : Z) (hashed : string) : Table User :=
  mkTable (map (fun u => if (u_id u =? id)%Z
                         then mkUser (u_id u) (u_name u) (u_email u) hashed
                                     (u_age u) (u_gender u)
                         else u) (rows users))
          (last_id users).

Definition reset_password (method : Method) (password confirm_password : string)
           (users : Table User) (session : Session)
  : Response * list Flash * Table User * Session :=
  if negb (reset_verified session) then
    (redirect "forgot_password",
     [("Please enter your email first.", "warning")], users, session)
  else
    match method with
    | GET => (render_template "reset_password.html", [], users, session)
    | POST =>
        if (String.length password <? 6)%nat then
          (render_template "reset_password.html",
           [("Password must be at least 6 characters.", "danger")], users, session)
        else if negb (password =? confirm_password) then
          (render_template "reset_password.html",
           [("Passwords do not match.", "danger")], users, session)
        else
          let hashed_password := generate_password_hash password in
          match reset_user_id session with
          | Some id =>
              (redirect "login",
               [("Password updated successfully! Please log in.", "success")],
               set_password users id hashed_password,
               mkSession (user_id session) (user_name session) (user_age session)
                         (user_gender session) None None false)
          | None =>
              (* session['reset_user_id'] raises KeyError *)
              (internal_server_error, [], users, session)
          end
    end.

End Handlers.

(** *** Protected routes *)

(** The [login_required] decorator. *)
Definition login_required {S : Type} (session : Session) (state : S)
           (f : Z -> Response * list Flash * S) : Response * list Flash * S :=
  match user_id session with
  | None => (redirect "login", [("Please log in to access this page.", "warning")], state)
  | Some uid => f uid
  end.

Definition delete_record (record_id : Z) (session : Session)
           (records : Table HormoneRecord)
  : Response * list Flash * Table HormoneRecord :=
  login_required session records (fun uid =>
    match record_by_id records record_id with
    | Some record =>
        if (r_user_id record =? uid)%Z then
          (redirect "dashboard", [("Record deleted.", "info")],
           mkTable (filter (fun r => negb (r_id r =? record_id)%Z) (rows records))
                   (last_id records))
        else (redirect "dashboard", [("Access denied.", "danger")], records)
    | None => (redirect "dashboard", [("Access denied.", "danger")], records)
    end).

(** *** Statistics *)

Record DashboardStats := mkDashboardStats {
  total_records : nat;
  normal_count : nat;
  imbalance_count : nat
}.

(** The [stats] dictionary of [dashboard]. *)
Definition dashboard_stats (records : list HormoneRecord) : DashboardStats :=
  mkDashboardStats
    (List.length records)
    (List.length (filter (fun r => r_prediction r =? "Normal") records))
    (List.length (filter (fun r => str_in "Imbalance" (r_prediction r)) records)).

Record ApiStats := mkApiStats {
  api_total_records : nat;
  status_distribution : dict.t Z;
  avg_cortisol : Q;
  avg_estrogen : Q;
  avg_testosterone : Q
}.

(** The loop of [api_stats] that counts the records by prediction. *)
Definition count_statuses (records : list HormoneRecord) : dict.t Z :=
  fold_left (fun d r =>
               let status := r_prediction r in
               dict.set status (dict.get d status 0 + 1)%Z d)
            records [].

Definition average (values : list Q) : Q :=
  PyFloat.round (Qsum values / inject_Z (Z.of_nat (List.length values))) 2.

Definition api_stats (records : list HormoneRecord) : ApiStats :=
  match records with
  | [] => mkApiStats O [] 0 0 0
  | _ =>
      mkApiStats (List.length records) (count_statuses records)
                 (average (map r_cortisol records))
                 (average (map r_estrogen records))
                 (average (map r_testosterone records))
  end.

(** *** Adding a reading *)

(** The time of day [add_data] proposes for the hour on the clock. *)
Definition default_time_of_day (hour : Z) : string :=
  if (hour <? 12)%Z then "Morning"
  else if (hour <? 17)%Z then "Afternoon"
  else "Evening".

(** The category of the flash [add_data] shows for a status. *)
Definition flash_type (status : string) : string :=
  if status =? "Normal" then "success"
  else if str_in "Mild" status then "warning"
  else "danger".

(** The submitted reading; a hormone field is [None] when [float()] rejects
    its text. *)
Record ReadingForm := mkReadingForm {
  f_cortisol : option Q;
  f_estrogen : option Q;
  f_testosterone : option Q;
  f_date : string;
  f_time : string;
  f_time_of_day : string
}.

(** The flash of a stored reading: its category and, of its text, the part
    before the confidence figure. *)
Definition analysis_flash (status : string) : Flash :=
  ("Analysis complete! Status: " ++ status, flash_type status).

(** The POST branch of [add_data] for a logged-in user, with the model and
    scaler held in [ML_MODEL] and [ML_SCALER]. The [try] block has two
    handlers: [except ValueError], which also catches a [ValueError] raised
    inside the prediction, and [except Exception] for the rest (its flash is
    kept without the text of the exception). *)
Definition add_data_post {ext : External}
           (ML_MODEL : option Classifier) (ML_SCALER : option StandardScaler)
           (user : User) (form : ReadingForm) (records : Table HormoneRecord)
  : Gen (Response * list Flash * Table HormoneRecord) :=
  match f_cortisol form, f_estrogen form, f_testosterone form with
  | Some cortisol, Some estrogen, Some testosterone =>
      if Qle_bool cortisol 0 || Qle_bool estrogen 0 || Qle_bool testosterone 0 then
        ret (render_template "add_data.html",
             [("All hormone values must be positive.", "danger")], records)
      else if negb (nonempty (f_date form)) || negb (nonempty (f_time form)) then
        ret (render_template "add_data.html",
             [("Please select date and time.", "danger")], records)
      else
        prediction_result <-
          predict_status cortisol estrogen testosterone ML_MODEL ML_SCALER
                         (u_age user) (u_gender user) (f_time_of_day form) ;;
        match prediction_result with
        | Ok result =>
            let id := (last_id records + 1)%Z in
            ret (redirect "dashboard",
                 [analysis_flash (status result)],
                 mkTable (rows records ++
                          [mkHormoneRecord id (u_id user) cortisol estrogen testosterone
                             (f_date form) (f_time form) (f_time_of_day form)
                             (status result) (confidence result)
                             (title (insights result))])%list
                         id)
        | Raise ValueError =>
            ret (render_template "add_data.html",
                 [("Please enter valid numeric values.", "danger")], records)
        | Raise _ =>
            ret (render_template "add_data.html", [("Error", "danger")], records)
        end
  | _, _, _ =>
      ret (render_template "add_data.html",
           [("Please enter valid numeric values.", "danger")], records)
  end.

(** *** Well-formed tables *)

(** The constraints of the [users] table: emails and keys are unique, and no
    key is beyond the last one given out. *)
Definition users_sound (users : Table User) : Prop :=
  NoDup (map u_email (rows users)) /\
  NoDup (map u_id (rows users)) /\
  Forall (fun u => (u_id u <= last_id users)%Z) (rows users).

(** The same for the keys of [hormone_records]. *)
Definition records_sound (records : Table HormoneRecord) : Prop :=
  NoDup (map r_id (rows records)) /\
  Forall (fun r => (r_id r <= last_id records)%Z) (rows records).

(** The number of records with prediction [s], and the sum of a list of
    counts. *)
Definition occurrences (s : string) (records : list HormoneRecord) : nat :=
  List.length (filter (fun r => r_prediction r =? s) records).

Definition Zsum (l : list Z) : Z := fold_right Z.add 0%Z l.

(** What [add_data] checks of a reading before it stores it. *)
Definition reading_checked (r : HormoneRecord) : Prop :=
  0 < r_cortisol r /\ 0 < r_estrogen r /\ 0 < r_testosterone r /\
  r_date r <> "" /\ r_time r <> "".

(** Two rows of [users] that differ in the password at most. *)
Definition same_account (u u' : User) : Prop :=
  u_id u = u_id u' /\ u_name u = u_name u' /\ u_email u = u_email u' /\
  u_age u = u_age u' /\ u_gender u = u_gender u'.

End App.

(** * Properties *)

(** ** Float comparisons and rounding *)

Module PyFloatFacts.
Import PyFloat.

Lemma ltb_lt x y : ltb x y = true <-> x < y.
Proof.
  unfold ltb. rewrite negb_true_iff. split; intro H.
  - apply Qnot_le_lt. intro L. apply Qle_bool_iff in L. congruence.
  - destruct (Qle_bool y x) eqn:E; trivial.
    apply Qle_bool_iff in E. exfalso. revert E. now apply Qlt_not_le.
Qed.

Lemma ltb_ge x y : ltb x y = false <-> y <= x.
Proof.
  unfold ltb. rewrite negb_false_iff. apply Qle_bool_iff.
Qed.

Lemma gtb_gt x y : gtb x y = true <-> y < x.
Proof. apply ltb_lt. Qed.

Lemma gtb_le x y : gtb x y = false <-> x <= y.
Proof. apply ltb_ge. Qed.

End PyFloatFacts.

(** Case analysis on every float comparison in sight, leaving the order
    facts as hypotheses. *)
Ltac split_comparisons :=
  repeat match goal with
  | |- context [PyFloat.gtb ?x ?y] => change (PyFloat.gtb x y) with (PyFloat.ltb y x)
  | H : context [PyFloat.gtb ?x ?y] |- _ =>
      change (PyFloat.gtb x y) with (PyFloat.ltb y x) in H
  end;
  repeat match goal with
  | |- context [PyFloat.ltb ?x ?y] =>
      let E := fresh "E" in
      destruct (PyFloat.ltb x y) eqn:E;
      [ apply PyFloatFacts.ltb_lt in E | apply PyFloatFacts.ltb_ge in E ]
  end.

(** ** Reference model *)

Section ReferenceModel.

Variables (gender time_of_day : string).

Lemma band_points_range b x :
  band_points b x = 0%Z \/ band_points b x = 1%Z \/ band_points b x = 2%Z.
Proof.
  unfold band_points.
  destruct ((x <? severe_low b) || (x >? severe_high b)); auto.
  destruct ((x <? mild_low b) || (x >? mild_high b)); auto.
Qed.

(** Nothing is added exactly on the normal band. *)
Lemma band_points_normal b x :
  bands_ordered b ->
  (band_points b x = 0%Z <-> mild_low b <= x /\ x <= mild_high b).
Proof.
  intros (H1 & H2 & H3). unfold band_points.
  split_comparisons; cbn; split; intros; try discriminate; try easy;
    try (split; assumption); exfalso; lra.
Qed.

(** The three blocks are the band table read at the context's entry. *)
Lemma cortisol_evaluation_bands c score :
  cortisol_evaluation time_of_day c score
  = (score + band_points (cortisol_bands time_of_day) c)%Z.
Proof.
  unfold cortisol_evaluation, cortisol_bands, band_points.
  destruct (time_of_day =? "Morning"); [|destruct (time_of_day =? "Afternoon")];
    cbn [severe_low severe_high mild_low mild_high];
    repeat match goal with |- context [if ?b then _ else _] => destruct b end; lia.
Qed.

Lemma estrogen_evaluation_bands e score :
  estrogen_evaluation gender e score
  = (score + band_points (estrogen_bands gender) e)%Z.
Proof.
  unfold estrogen_evaluation, estrogen_bands, band_points.
  destruct (gender =? "Male");
    cbn [severe_low severe_high mild_low mild_high];
    repeat match goal with |- context [if ?b then _ else _] => destruct b end; lia.
Qed.

Lemma testosterone_evaluation_bands t score :
  testosterone_evaluation gender t score
  = (score + band_points (testosterone_bands gender) t)%Z.
Proof.
  unfold testosterone_evaluation, testosterone_bands, band_points.
  destruct (gender =? "Male");
    cbn [severe_low severe_high mild_low mild_high];
    repeat match goal with |- context [if ?b then _ else _] => destruct b end; lia.
Qed.

Lemma severity_score_bands c e t :
  severity_score c e t gender time_of_day
  = (band_points (cortisol_bands time_of_day) c
     + band_points (estrogen_bands gender) e
     + band_points (testosterone_bands gender) t)%Z.
Proof.
  unfold severity_score.
  rewrite testosterone_evaluation_bands, estrogen_evaluation_bands,
    cortisol_evaluation_bands.
  lia.
Qed.

Lemma cortisol_bands_ordered : bands_ordered (cortisol_bands time_of_day).
Proof.
  unfold cortisol_bands, bands_ordered.
  destruct (time_of_day =? "Morning"); [|destruct (time_of_day =? "Afternoon")];
    cbn; repeat split; lra.
Qed.

Lemma estrogen_bands_ordered : bands_ordered (estrogen_bands gender).
Proof.
  unfold estrogen_bands, bands_ordered.
  destruct (gender =? "Male"); cbn; repeat split; lra.
Qed.

Lemma testosterone_bands_ordered : bands_ordered (testosterone_bands gender).
Proof.
  unfold testosterone_bands, bands_ordered.
  destruct (gender =? "Male"); cbn; repeat split; lra.
Qed.

(** Moving further outside the normal band never lowers the points of a
    hormone. *)
Lemma band_points_further_outside b x x' :
  bands_ordered b ->
  further_outside (mild_low b) (mild_high b) x x' ->
  (band_points b x <= band_points b x')%Z.
Proof.
  intros (H1 & H2 & H3) [[Ha Hb] | [Ha Hb]]; unfold band_points;
    split_comparisons; cbn; try lia; exfalso; lra.
Qed.

Lemma status_of_score_levels score : In (status_of_score score) STATUS_LEVELS.
Proof.
  unfold status_of_score, STATUS_LEVELS.
  destruct (5 <=? score)%Z; [cbn; tauto|].
  destruct (3 <=? score)%Z; [cbn; tauto|].
  destruct (1 <=? score)%Z; cbn; tauto.
Qed.

Lemma severity_score_range c e t :
  (0 <= severity_score c e t gender time_of_day <= 6)%Z.
Proof.
  rewrite severity_score_bands.
  destruct (band_points_range (cortisol_bands time_of_day) c) as [-> | [-> | ->]];
  destruct (band_points_range (estrogen_bands gender) e) as [-> | [-> | ->]];
  destruct (band_points_range (testosterone_bands gender) t) as [-> | [-> | ->]];
  lia.
Qed.

End ReferenceModel.

Lemma classify_status_levels c e t gender time_of_day :
  In (classify_status c e t gender time_of_day) STATUS_LEVELS.
Proof. apply status_of_score_levels. Qed.

(** C2. For a gender of Male/Female and a time of day of
    Morning/Afternoon/Evening, each hormone contributes 0, 1 or 2 points
    read off the band table of its context, [classify_status] maps the total
    by the cut points 5, 3 and 1 (total >= 5 Severe, 3 <= total < 5
    Moderate, 1 <= total < 3 Mild, total 0 Normal), and the label is one of
    the four of [STATUS_LEVELS]. *)
Theorem classify_status_score_policy (c e t : Q) (gender time_of_day : string) :
  In gender ["Male"; "Female"] ->
  In time_of_day ["Morning"; "Afternoon"; "Evening"] ->
  let pc := cortisol_evaluation time_of_day c 0 in
  let pe := estrogen_evaluation gender e 0 in
  let pt := testosterone_evaluation gender t 0 in
  let score := severity_score c e t gender time_of_day in
  let label := classify_status c e t gender time_of_day in
  In pc [0; 1; 2]%Z /\ In pe [0; 1; 2]%Z /\ In pt [0; 1; 2]%Z /\
  pc = band_points (cortisol_bands time_of_day) c /\
  pe = band_points (estrogen_bands gender) e /\
  pt = band_points (testosterone_bands gender) t /\
  score = (pc + pe + pt)%Z /\
  ((5 <= score)%Z -> label = "Severe Imbalance") /\
  ((3 <= score < 5)%Z -> label = "Moderate Imbalance") /\
  ((1 <= score < 3)%Z -> label = "Mild Imbalance") /\
  (score = 0%Z -> label = "Normal") /\
  In label STATUS_LEVELS.
Proof.
  intros _ _ pc pe pt score label.
  assert (Hc : pc = band_points (cortisol_bands time_of_day) c)
    by (unfold pc; now rewrite cortisol_evaluation_bands).
  assert (He : pe = band_points (estrogen_bands gender) e)
    by (unfold pe; now rewrite estrogen_evaluation_bands).
  assert (Ht : pt = band_points (testosterone_bands gender) t)
    by (unfold pt; now rewrite testosterone_evaluation_bands).
  assert (Hs : score = (pc + pe + pt)%Z)
    by (unfold score; rewrite severity_score_bands; congruence).
  repeat split; trivial.
  - rewrite Hc. destruct (band_points_range (cortisol_bands time_of_day) c)
      as [-> | [-> | ->]]; cbn; tauto.
  - rewrite He. destruct (band_points_range (estrogen_bands gender) e)
      as [-> | [-> | ->]]; cbn; tauto.
  - rewrite Ht. destruct (band_points_range (testosterone_bands gender) t)
      as [-> | [-> | ->]]; cbn; tauto.
  - intro H. unfold label, classify_status, status_of_score. fold score.
    destruct (Z.leb_spec 5 score); [reflexivity | lia].
  - intro H. unfold label, classify_status, status_of_score. fold score.
    destruct (Z.leb_spec 5 score); [lia|].
    destruct (Z.leb_spec 3 score); [reflexivity | lia].
  - intro H. unfold label, classify_status, status_of_score. fold score.
    destruct (Z.leb_spec 5 score); [lia|].
    destruct (Z.leb_spec 3 score); [lia|].
    destruct (Z.leb_spec 1 score); [reflexivity | lia].
  - intro H. unfold label, classify_status, status_of_score. fold score.
    rewrite H. reflexivity.
  - apply classify_status_levels.
Qed.

Lemma classify_status_score_policy_witness :
  let score := severity_score 5.0 3.0 100.0 "Male" "Morning" in
  let label := classify_status 5.0 3.0 100.0 "Male" "Morning" in
  score = 0%Z /\ label = "Normal" /\ In label STATUS_LEVELS.
Proof.
  pose proof (classify_status_score_policy 5.0 3.0 100.0 "Male" "Morning") as H.
  cbv zeta in H.
  destruct H as (_ & _ & _ & _ & _ & _ & Hs & _ & _ & _ & Hn & Hl).
  - cbn. tauto.
  - cbn. tauto.
  - split; [reflexivity|]. split; [apply Hn; reflexivity | exact Hl].
Defined.

(** C3, as stated, fails: on cortisol 12.0, estrogen 2.0, testosterone 40.0,
    Male, Morning the score does not reach 3 and the label is neither
    Moderate nor Severe. *)
Lemma example_male_morning_not_moderate :
  ~ ((3 <= severity_score 12.0 2.0 40.0 "Male" "Morning")%Z /\
     (classify_status 12.0 2.0 40.0 "Male" "Morning" = "Moderate Imbalance" \/
      classify_status 12.0 2.0 40.0 "Male" "Morning" = "Severe Imbalance")).
Proof.
  intros [H _]. vm_compute in H. apply H. reflexivity.
Qed.

(** C3, amended. On cortisol 12.0, estrogen 2.0, testosterone 40.0, Male,
    Morning: cortisol adds 1 (12.0 is above 10.0 and not above 12.0),
    estrogen adds 0, testosterone adds 1, so the score is exactly 2 and
    [classify_status] returns Mild Imbalance, in particular not Normal. *)
Theorem example_male_morning_mild :
  cortisol_evaluation "Morning" 12.0 0 = 1%Z /\
  estrogen_evaluation "Male" 2.0 0 = 0%Z /\
  testosterone_evaluation "Male" 40.0 0 = 1%Z /\
  severity_score 12.0 2.0 40.0 "Male" "Morning" = 2%Z /\
  classify_status 12.0 2.0 40.0 "Male" "Morning" = "Mild Imbalance" /\
  classify_status 12.0 2.0 40.0 "Male" "Morning" <> "Normal".
Proof.
  repeat split; try reflexivity.
  vm_compute. discriminate.
Qed.

(** C5. With gender and time of day fixed and two hormones unchanged, moving
    the third strictly further outside its normal band, below it or above
    it, never lowers the severity score. *)
Theorem severity_score_monotone (gender time_of_day : string) (r r' : Reading) :
  moved_further_out gender time_of_day r r' ->
  (score_of gender time_of_day r <= score_of gender time_of_day r')%Z.
Proof.
  intros [c c' e t H | c e e' t H | c e t t' H]; cbn [score_of];
    rewrite !severity_score_bands.
  - pose proof (band_points_further_outside _ _ _
                  (cortisol_bands_ordered time_of_day) H). lia.
  - pose proof (band_points_further_outside _ _ _
                  (estrogen_bands_ordered gender) H). lia.
  - pose proof (band_points_further_outside _ _ _
                  (testosterone_bands_ordered gender) H). lia.
Qed.

Lemma severity_score_monotone_witness :
  moved_further_out "Male" "Morning" (3.5, 2.0, 100.0) (2.5, 2.0, 100.0) /\
  Z.le (score_of "Male" "Morning" (3.5, 2.0, 100.0))
       (score_of "Male" "Morning" (2.5, 2.0, 100.0)).
Proof.
  assert (H : moved_further_out "Male" "Morning" (3.5, 2.0, 100.0) (2.5, 2.0, 100.0)).
  { apply move_cortisol. left. cbn. split; reflexivity. }
  split; [exact H | exact (severity_score_monotone _ _ _ _ H)].
Defined.

(** The same holds of the label: a worse reading never gets a milder one
    (labels compared by their position in [STATUS_LEVELS]). *)
Lemma status_of_score_monotone s s' :
  (s <= s')%Z ->
  (index_of (status_of_score s) STATUS_LEVELS
   <= index_of (status_of_score s') STATUS_LEVELS)%nat.
Proof.
  intro H. unfold status_of_score.
  destruct (Z.leb_spec 5 s), (Z.leb_spec 5 s'); try lia; cbn; try lia;
  destruct (Z.leb_spec 3 s), (Z.leb_spec 3 s'); try lia; cbn; try lia;
  destruct (Z.leb_spec 1 s), (Z.leb_spec 1 s'); try lia; cbn; lia.
Qed.

(** ** Per-hormone analysis *)

(** C10. Outside Morning (Afternoon or Evening) the cortisol entry of
    [analyze_hormones] is Normal or High and never Low: every value up to
    the high threshold of the time of day (4.0, 2.0) is reported Normal,
    however low, also where the scoring rule counts it as out of band; a
    Low cortisol entry arises in the Morning branch only. *)
Theorem afternoon_evening_cortisol_never_low
        (c e t : Q) (gender time_of_day : string) :
  time_of_day = "Afternoon" \/ time_of_day = "Evening" ->
  let st := entry_status (an_cortisol (analyze_hormones c e t gender time_of_day)) in
  (st = "Normal" \/ st = "High") /\
  st <> "Low" /\
  (c <= (if time_of_day =? "Afternoon" then 4.0 else 2.0) -> st = "Normal") /\
  (c < severe_low (cortisol_bands time_of_day) ->
   st = "Normal" /\ cortisol_evaluation time_of_day c 0 = 2%Z) /\
  (forall c0 tod, entry_status (analyze_cortisol c0 tod) = "Low" -> tod = "Morning").
Proof.
  intros Htod st.
  assert (Hm : (time_of_day =? "Morning") = false)
    by (destruct Htod as [-> | ->]; reflexivity).
  assert (Hst : st = if c >? (if time_of_day =? "Afternoon" then 4.0 else 2.0)
                     then "High" else "Normal").
  { unfold st, analyze_hormones, analyze_cortisol; cbn [an_cortisol].
    rewrite Hm. cbv zeta.
    destruct (c >? (if time_of_day =? "Afternoon" then 4.0 else 2.0)); reflexivity. }
  repeat split.
  - rewrite Hst. destruct (c >? _); auto.
  - rewrite Hst. destruct (c >? _); discriminate.
  - intro H. rewrite Hst.
    destruct (c >? _) eqn:E; trivial.
    apply PyFloatFacts.gtb_gt in E. exfalso. lra.
  - rewrite Hst. destruct (c >? _) eqn:E; trivial.
    apply PyFloatFacts.gtb_gt in E. exfalso.
    destruct Htod as [-> | ->]; cbn in *; lra.
  - rewrite cortisol_evaluation_bands. unfold band_points.
    apply PyFloatFacts.ltb_lt in H. rewrite H. reflexivity.
  - intros c0 tod. unfold analyze_cortisol.
    destruct (String.eqb_spec tod "Morning"); trivial.
    cbv zeta. destruct (c0 >? _); cbn; discriminate.
Qed.

Lemma afternoon_evening_cortisol_never_low_witness :
  entry_status (an_cortisol (analyze_hormones 0.1 2.0 100.0 "Male" "Evening")) = "Normal" /\
  cortisol_evaluation "Evening" 0.1 0 = 2%Z.
Proof.
  destruct (afternoon_evening_cortisol_never_low 0.1 2.0 100.0 "Male" "Evening")
    as (_ & _ & _ & H & _).
  - right. reflexivity.
  - apply H. reflexivity.
Defined.

(** ** The generator *)

Lemma bind_run {A B} (m : Gen A) (k : A -> Gen B) w :
  bind m k w = k (fst (m w)) (snd (m w)).
Proof. unfold bind. destruct (m w); reflexivity. Qed.

Section MonadFacts.

Context {A B : Type}.

Lemma forM_cons (a : A) l (body : A -> Gen B) w :
  forM (a :: l) body w
  = (fst (body a w) :: fst (forM l body (snd (body a w))),
     snd (forM l body (snd (body a w)))).
Proof.
  cbn [forM]. rewrite bind_run, bind_run. unfold ret. reflexivity.
Qed.

Lemma forM_length l (body : A -> Gen B) w :
  List.length (fst (forM l body w)) = List.length l.
Proof.
  revert w. induction l as [|a l IH]; intro w; [reflexivity|].
  rewrite forM_cons. cbn. now rewrite IH.
Qed.

(** Every element a loop returns is returned by its body, at some element
    of the list and from some world. *)
Lemma forM_In l (body : A -> Gen B) w b :
  In b (fst (forM l body w)) ->
  exists a w0, In a l /\ b = fst (body a w0).
Proof.
  revert w. induction l as [|a l IH]; intro w; [intros []|].
  rewrite forM_cons. cbn [fst In]. intros [<- | H].
  - exists a, w. split; [now left | reflexivity].
  - destruct (IH _ H) as (a' & w0 & Ha & Hb).
    exists a', w0. split; [now right | exact Hb].
Qed.

Lemma replicateM_length n (m : Gen A) w :
  List.length (fst (replicateM n m w)) = n.
Proof.
  revert w. induction n as [|n IH]; intro w; [reflexivity|].
  cbn [replicateM]. rewrite bind_run, bind_run. cbn. now rewrite IH.
Qed.

End MonadFacts.

Lemma map_nth_seq {A} (d : A) (l : list A) :
  map (fun j => nth j l d) (seq 0 (List.length l)) = l.
Proof.
  induction l as [|a l IH]; [reflexivity|].
  cbn [List.length seq map nth]. f_equal.
  rewrite <- seq_shift, map_map. exact IH.
Qed.

Section GeneratorFacts.

Context {ext : External} {laws : ExternalLaws ext}.

Lemma df_shuffle_permutation seed data :
  Permutation (df_shuffle seed data) data.
Proof.
  unfold df_shuffle.
  rewrite <- (map_nth_seq default data) at 2.
  apply Permutation_map, sample_order_permutation.
Qed.

Lemma sample_row_labelled ages genders times conditions i w :
  labelled_before_noise ages genders times conditions i w
                        (fst (sample_row ages genders times conditions i w)).
Proof.
  unfold labelled_before_noise, pre_noise, measurement_noise, sample_row.
  repeat (rewrite bind_run; cbv zeta).
  cbn [ret fst snd row_gender row_time_of_day row_status
       row_cortisol row_estrogen row_testosterone].
  repeat split; reflexivity.
Qed.

Lemma sample_row_status_level ages genders times conditions i w :
  In (row_status (fst (sample_row ages genders times conditions i w))) STATUS_LEVELS.
Proof.
  unfold sample_row. repeat (rewrite bind_run; cbv zeta).
  cbn [ret fst row_status]. apply classify_status_levels.
Qed.

(** The frame is the loop run on the arrays of [sample_context], from the
    world [sample_context] leaves, and shuffled. *)
Lemma generate_realistic_dataset_context n seed w :
  generate_realistic_dataset n seed w
  = let '(ages, genders, times, conditions) := fst (sample_context n seed w) in
    let w0 := snd (sample_context n seed w) in
    (df_shuffle seed
       (fst (forM (seq 0 n) (sample_row ages genders times conditions) w0)),
     snd (forM (seq 0 n) (sample_row ages genders times conditions) w0)).
Proof.
  unfold generate_realistic_dataset, sample_context.
  repeat (rewrite bind_run; cbv zeta). reflexivity.
Qed.

(** Every element a loop over [seq s n] returns is returned by its body at
    some index, from the world the iterations before it leave. *)
Lemma forM_seq_In {B} (body : nat -> Gen B) n s w b :
  In b (fst (forM (seq s n) body w)) ->
  exists i, (i < n)%nat /\
            b = fst (body (s + i)%nat (snd (forM (seq s i) body w))).
Proof.
  revert s w. induction n as [|n IH]; intros s w; [intros []|].
  cbn [seq]. rewrite forM_cons. cbn [fst In]. intros [<- | H].
  - exists O. split; [lia|]. rewrite Nat.add_0_r. reflexivity.
  - destruct (IH _ _ H) as (i & Hi & ->).
    exists (S i). split; [lia|]. cbn [seq]. rewrite forM_cons. cbn [snd].
    now rewrite Nat.add_succ_r.
Qed.



(** C1, amended. Every row of the generated frame is one of the
    [n_samples] samples of the run, and carries the label that
    [classify_status] gives to the pre-noise hormone values drawn for that
    sample: the outputs of [generate_cortisol], [generate_estrogen] and
    [generate_testosterone], called in the state the earlier iterations of
    the loop leave, for the sample's gender and time of day. The features
    the row stores are those values with the noise drawn next added,
    floored at 0.1 and rounded to two decimals. *)
Theorem dataset_labelled_before_noise n seed w row :
  In row (fst (generate_realistic_dataset n seed w)) ->
  let '(ages, genders, times, conditions) := fst (sample_context n seed w) in
  let w0 := snd (sample_context n seed w) in
  exists i,
    (i < n)%nat /\
    labelled_before_noise
      ages genders times conditions i
      (snd (forM (seq 0 i) (sample_row ages genders times conditions) w0)) row.
Proof.
  rewrite generate_realistic_dataset_context.
  destruct (fst (sample_context n seed w)) as [[[ages genders] times] conditions].
  cbv zeta. cbn [fst]. intro H.
  apply (Permutation_in _ (df_shuffle_permutation _ _)) in H.
  destruct (forM_seq_In _ _ _ _ _ H) as (i & Hi & ->).
  exists i. split; [exact Hi|]. cbn [Nat.add]. apply sample_row_labelled.
Qed.


End GeneratorFacts.

(** *** Running the generator on tabulated libraries *)

Module TabulatedFacts.
Import Tabulated.

Lemma first_class_total k : Qsum (1 :: repeat 0 k) == 1.
Proof.
  cbn [Qsum fold_right]. induction k as [|k IH]; cbn [repeat fold_right].
  - reflexivity.
  - rewrite Qplus_0_l. exact IH.
Qed.

Lemma n_classes_pos y : y <> [] -> (0 < n_classes y)%nat.
Proof.
  unfold n_classes. destruct y as [|a y]; [congruence|]. intros _.
  destruct (nodup Nat.eq_dec (a :: y)) eqn:E; [|cbn; lia].
  exfalso. assert (H : In a (nodup Nat.eq_dec (a :: y)))
    by (apply nodup_In; now left).
  rewrite E in H. exact H.
Qed.

#[global] Instance libraries_laws np py : ExternalLaws (libraries np py).
Proof.
  split; cbn; intros.
  - apply Permutation_refl.
  - rewrite repeat_length. destruct X as [|x X]; [congruence|].
    now inversion H0.
  - unfold n_classes. destruct (List.length (nodup Nat.eq_dec y)); cbn;
      [reflexivity | now rewrite repeat_length].
  - now apply n_classes_pos.
  - destruct (List.length (nodup Nat.eq_dec y)); constructor.
    + discriminate.
    + apply Forall_forall. intros q Hq. apply repeat_spec in Hq. subst q.
      apply Qle_refl.
  - pose proof (n_classes_pos y H) as Hp. unfold n_classes in Hp.
    destruct (List.length (nodup Nat.eq_dec y)); [lia|].
    apply first_class_total.
Qed.

(** One sample: age 35, Male, Morning, Healthy; cortisol drawn at 9.94,
    just inside the normal band, and measured one noise deviation up. *)
Definition one_sample : External :=
  libraries [0; 0.1; 0.1; 0.1; 0.99; 0.5; 0.5; 1; 0; 0] [10%Z].

End TabulatedFacts.

(** C1, as stated, fails: a generated row whose stored label is Normal
    while [classify_status] of the features the row stores (cortisol 10.44
    after noise) is Mild Imbalance. *)
Lemma stored_label_differs_from_stored_features :
  let row := hd default (fst (generate_realistic_dataset
                                (ext := TabulatedFacts.one_sample) 1 42
                                (Tabulated.world 1000 Tabulated.no_files))) in
  row_status row = "Normal" /\
  label_of_stored_features row = "Mild Imbalance" /\
  row_status row <> label_of_stored_features row.
Proof.
  vm_compute. repeat split. discriminate.
Qed.

Lemma dataset_labelled_before_noise_witness :
  let w := Tabulated.world 1000 Tabulated.no_files in
  let row := hd default (fst (generate_realistic_dataset
                                (ext := TabulatedFacts.one_sample) 1 42 w)) in
  let '(ages, genders, times, conditions) :=
    fst (sample_context (ext := TabulatedFacts.one_sample) 1 42 w) in
  let w0 := snd (sample_context (ext := TabulatedFacts.one_sample) 1 42 w) in
  exists i,
    (i < 1)%nat /\
    labelled_before_noise
      ages genders times conditions i
      (snd (forM (seq 0 i) (sample_row ages genders times conditions) w0)) row.
Proof.
  apply (dataset_labelled_before_noise
           (ext := TabulatedFacts.one_sample) 1 42
           (Tabulated.world 1000 Tabulated.no_files)).
  vm_compute. left. reflexivity.
Defined.

(** C4 fails on the code: the same sample count and seed, run on two
    different days, give frames that differ in their [sample_date] column. *)
Theorem dataset_depends_on_the_day :
  let run today := fst (generate_realistic_dataset
                          (ext := TabulatedFacts.one_sample) 1 42
                          (Tabulated.world today Tabulated.no_files)) in
  map row_sample_date (run 1000%Z) = [990%Z] /\
  map row_sample_date (run 1001%Z) = [991%Z] /\
  run 1000%Z <> run 1001%Z.
Proof.
  vm_compute. repeat split. discriminate.
Qed.

(** *** What the clock can and cannot change *)

Section ClockIndependence.

Lemma related_ret {A B} (R : A -> B -> Prop) a b :
  R a b -> related R (ret a) (ret b).
Proof. intros H w1 w2 Hw. split; [exact H | exact Hw]. Qed.

Lemma related_bind {A1 A2 B1 B2} (R : A1 -> A2 -> Prop) (S : B1 -> B2 -> Prop)
      (m1 : Gen A1) (m2 : Gen A2) (k1 : A1 -> Gen B1) (k2 : A2 -> Gen B2) :
  related R m1 m2 ->
  (forall a1 a2, R a1 a2 -> related S (k1 a1) (k2 a2)) ->
  related S (bind m1 k1) (bind m2 k2).
Proof.
  intros Hm Hk w1 w2 Hw. rewrite !bind_run.
  destruct (Hm w1 w2 Hw) as [Ha Hw']. exact (Hk _ _ Ha _ _ Hw').
Qed.

Lemma np_next_related : related eq np_random.next np_random.next.
Proof.
  intros w1 w2 (H1 & H2 & H3 & H4). unfold np_random.next, same_generators.
  cbn. rewrite H1, H2. repeat split; congruence.
Qed.

Lemma py_next_related : related eq random.next random.next.
Proof.
  intros w1 w2 (H1 & H2 & H3 & H4). unfold random.next, same_generators.
  cbn. rewrite H3, H4. repeat split; congruence.
Qed.

(** The day read from the clock is the one value that may differ. *)
Lemma now_related : related (fun _ _ => True) datetime.now datetime.now.
Proof.
  intros w1 w2 Hw. split; [exact I | exact Hw].
Qed.

End ClockIndependence.

Create HintDb related.
#[export] Hint Resolve np_next_related py_next_related now_related : related.

(** Relates two runs of the same monadic program, statement by statement. *)
Ltac related_solve :=
  lazymatch goal with
  | |- related _ (ret _) (ret _) =>
      first [ apply (related_ret eq); reflexivity | apply related_ret ]
  | |- related _ (bind _ _) (bind _ _) =>
      eapply related_bind; [ related_solve | intros ? ? ?; subst; related_solve ]
  | |- related _ (if ?b then _ else _) (if ?b then _ else _) =>
      destruct b; related_solve
  | |- _ => solve [eauto with related]
  end.

Section ClockIndependenceOfTheGenerator.

Lemma uniform_related lo hi :
  related eq (np_random.uniform lo hi) (np_random.uniform lo hi).
Proof. unfold np_random.uniform. related_solve. Qed.

Lemma normal_related loc scale :
  related eq (np_random.normal loc scale) (np_random.normal loc scale).
Proof. unfold np_random.normal. related_solve. Qed.

Lemma choice_p_related {A} `{Default A} (a : list A) p :
  related eq (np_random.choice_p a p) (np_random.choice_p a p).
Proof. unfold np_random.choice_p. related_solve. Qed.

Lemma randint_related a b :
  related eq (random.randint a b) (random.randint a b).
Proof. unfold random.randint. related_solve. Qed.

Hint Resolve uniform_related normal_related choice_p_related randint_related
  : related.

Lemma generate_cortisol_related tod cond age :
  related eq (generate_cortisol tod cond age) (generate_cortisol tod cond age).
Proof.
  unfold generate_cortisol, np_random.choice.
  destruct (tod =? "Morning"); [|destruct (tod =? "Afternoon")]; related_solve.
Qed.

Lemma generate_estrogen_related g age cond :
  related eq (generate_estrogen g age cond) (generate_estrogen g age cond).
Proof. unfold generate_estrogen. related_solve. Qed.

Lemma generate_testosterone_related g age cond :
  related eq (generate_testosterone g age cond) (generate_testosterone g age cond).
Proof. unfold generate_testosterone. related_solve. Qed.

Hint Resolve generate_cortisol_related generate_estrogen_related
     generate_testosterone_related : related.

Lemma sample_row_related ages genders times conditions i :
  related same_but_date (sample_row ages genders times conditions i)
                        (sample_row ages genders times conditions i).
Proof.
  unfold sample_row. cbv zeta. related_solve. reflexivity.
Qed.

Lemma replicateM_related {A} (m : Gen A) n :
  related eq m m -> related eq (replicateM n m) (replicateM n m).
Proof.
  intro Hm. induction n as [|n IH]; cbn [replicateM]; related_solve.
Qed.

Lemma forM_related {A B} (R : B -> B -> Prop) (body : A -> Gen B) l :
  (forall a, related R (body a) (body a)) ->
  related (Forall2 R) (forM l body) (forM l body).
Proof.
  intro Hb. induction l as [|a l IH]; cbn [forM].
  - apply related_ret. constructor.
  - eapply related_bind; [apply Hb | intros b1 b2 Hb12].
    eapply related_bind; [exact IH | intros l1 l2 Hl].
    apply related_ret. now constructor.
Qed.

Hint Resolve sample_row_related replicateM_related forM_related : related.

Lemma same_but_date_nth l1 l2 j :
  Forall2 same_but_date l1 l2 ->
  same_but_date (nth j l1 default) (nth j l2 default).
Proof.
  intro H. revert j. induction H as [|r1 r2 l1 l2 Hr _ IH]; intro j.
  - destruct j; reflexivity.
  - destruct j; [exact Hr | apply IH].
Qed.

Context {ext : External}.

Lemma df_shuffle_same_but_date seed l1 l2 :
  Forall2 same_but_date l1 l2 ->
  Forall2 same_but_date (df_shuffle seed l1) (df_shuffle seed l2).
Proof.
  intro H. unfold df_shuffle. rewrite (Forall2_length H).
  induction (sample_order seed (List.length l2)) as [|j js IH]; cbn [map].
  - constructor.
  - constructor; [now apply same_but_date_nth | exact IH].
Qed.

(** Whatever the worlds two runs start from (the states of the generators
    before seeding, the clocks, the files), the same sample count and seed
    give frames that agree row by row on every column but [sample_date]. *)
Lemma dataset_reproducible_but_for_dates n seed w1 w2 :
  Forall2 same_but_date (fst (generate_realistic_dataset n seed w1))
                        (fst (generate_realistic_dataset n seed w2)).
Proof.
  unfold generate_realistic_dataset.
  rewrite (bind_run _ _ w1), (bind_run _ _ w2).
  rewrite (bind_run _ _ (snd (np_random.seed _ _ w1))),
          (bind_run _ _ (snd (np_random.seed _ _ w2))).
  match goal with
  | |- Forall2 _ (fst (?m ?a)) (fst (?m ?b)) =>
      assert (Hrel : related (Forall2 same_but_date) m m);
      [ | apply Hrel; cbn; repeat split ]
  end.
  cbv zeta. related_solve.
  now apply df_shuffle_same_but_date.
Qed.

End ClockIndependenceOfTheGenerator.

(** ** Rounding *)

Module RoundFacts.
Import PyFloat.

Lemma round_half_even_error y :
  - (1 # 2) <= inject_Z (round_half_even y) - y <= 1 # 2.
Proof.
  unfold round_half_even.
  pose proof (Qfloor_le y) as Hlo. pose proof (Qlt_floor y) as Hhi.
  rewrite inject_Z_plus in Hhi. change (inject_Z 1) with 1 in Hhi.
  set (f := Qfloor y) in *.
  destruct (ltb (y - inject_Z f) (1 # 2)) eqn:E1.
  - apply PyFloatFacts.ltb_lt in E1. lra.
  - apply PyFloatFacts.ltb_ge in E1.
    destruct (ltb (1 # 2) (y - inject_Z f)) eqn:E2.
    + rewrite inject_Z_plus. change (inject_Z 1) with 1. lra.
    + apply PyFloatFacts.ltb_ge in E2.
      destruct (Z.even f); [lra|].
      rewrite inject_Z_plus. change (inject_Z 1) with 1. lra.
Qed.

Lemma round_half_even_lower y n :
  inject_Z n <= y -> (n <= round_half_even y)%Z.
Proof.
  intro H. unfold round_half_even.
  assert (Hf : (n <= Qfloor y)%Z).
  { rewrite <- (Qfloor_Z n). now apply Qfloor_resp_le. }
  destruct (ltb _ _); [exact Hf|].
  destruct (ltb _ _); [lia|].
  destruct (Z.even _); lia.
Qed.

Lemma round_half_even_upper y n :
  y <= inject_Z n -> (round_half_even y <= n)%Z.
Proof.
  intro H. unfold round_half_even.
  pose proof (Qfloor_le y) as Hlo.
  assert (Hf : (Qfloor y <= n)%Z).
  { rewrite <- (Qfloor_Z n). now apply Qfloor_resp_le. }
  set (f := Qfloor y) in *.
  destruct (ltb (y - inject_Z f) (1 # 2)) eqn:E1; [exact Hf|].
  apply PyFloatFacts.ltb_ge in E1.
  assert (Hlt : (f < n)%Z).
  { rewrite Zlt_Qlt. lra. }
  destruct (ltb _ _); [lia|].
  destruct (Z.even _); lia.
Qed.

(** Rounding to one decimal moves a value by at most 0.05. *)
Lemma round1_error x : - (1 # 20) <= round x 1 - x <= 1 # 20.
Proof.
  unfold round. change (inject_Z (10 ^ Z.of_nat 1)) with (inject_Z 10).
  pose proof (round_half_even_error (x * inject_Z 10)) as H.
  set (k := inject_Z (round_half_even (x * inject_Z 10))) in *.
  change (inject_Z 10) with 10 in *.
  assert (Hd : k / 10 == k * (1 # 10)) by (unfold Qdiv; reflexivity).
  rewrite Hd. lra.
Qed.

(** A percentage stays a percentage. *)
Lemma round1_percentage x : 0 <= x <= 100 -> 0 <= round x 1 <= 100.
Proof.
  intros [H0 H1]. unfold round.
  change (inject_Z (10 ^ Z.of_nat 1)) with (inject_Z 10).
  assert (Hl : (0 <= round_half_even (x * inject_Z 10))%Z).
  { apply round_half_even_lower. change (inject_Z 0) with 0.
    change (inject_Z 10) with 10. lra. }
  assert (Hu : (round_half_even (x * inject_Z 10) <= 1000)%Z).
  { apply round_half_even_upper. change (inject_Z 1000) with 1000.
    change (inject_Z 10) with 10. lra. }
  set (k := round_half_even (x * inject_Z 10)) in *.
  rewrite Zle_Qle in Hl, Hu.
  change (inject_Z 0) with 0 in Hl. change (inject_Z 1000) with 1000 in Hu.
  change (inject_Z 10) with 10.
  assert (Hd : inject_Z k / 10 == inject_Z k * (1 # 10))
    by (unfold Qdiv; reflexivity).
  rewrite Hd. lra.
Qed.

End RoundFacts.

(** ** Dictionaries, sums and maxima *)

Module dictFacts.

Lemma set_fresh {V} k (v : V) d :
  ~ In k (map fst d) -> dict.set k v d = (d ++ [(k, v)])%list.
Proof.
  induction d as [|[k' v'] d IH]; intro H; [reflexivity|].
  cbn [dict.set]. destruct (String.eqb_spec k' k) as [->|_].
  - exfalso. apply H. now left.
  - cbn. f_equal. apply IH. intro Hin. apply H. now right.
Qed.

Lemma of_items_acc {V} (items acc : list (string * V)) :
  NoDup (map fst (acc ++ items)%list) ->
  fold_left (fun d kv => dict.set (fst kv) (snd kv) d) items acc = (acc ++ items)%list.
Proof.
  revert acc. induction items as [|[k v] items IH]; intros acc H.
  - now rewrite app_nil_r.
  - cbn [fold_left fst snd]. rewrite set_fresh.
    + rewrite IH; rewrite <- app_assoc; [reflexivity | exact H].
    + rewrite map_app in H. apply NoDup_remove_2 in H.
      intro Hin. apply H. apply in_or_app. now left.
Qed.

(** A comprehension over distinct keys keeps every item, in order. *)
Lemma of_items_distinct {V} (items : list (string * V)) :
  NoDup (map fst items) -> dict.of_items items = items.
Proof. intro H. unfold dict.of_items. now rewrite of_items_acc. Qed.

End dictFacts.

Lemma map_fst_combine {A B} (l : list A) (l' : list B) :
  List.length l = List.length l' -> map fst (combine l l') = l.
Proof.
  revert l'. induction l as [|a l IH]; intros [|b l'] H; try discriminate;
    [reflexivity|]. cbn. f_equal. apply IH. now injection H.
Qed.

Lemma map_snd_combine {A B} (l : list A) (l' : list B) :
  List.length l = List.length l' -> map snd (combine l l') = l'.
Proof.
  revert l'. induction l as [|a l IH]; intros [|b l'] H; try discriminate;
    [reflexivity|]. cbn. f_equal. apply IH. now injection H.
Qed.

Lemma Qsum_nonneg l : Forall (Qle 0) l -> 0 <= Qsum l.
Proof.
  unfold Qsum. induction 1 as [|x l Hx _ IH]; cbn [fold_right];
    [apply Qle_refl | lra].
Qed.

Lemma Qsum_bounds_each l p : Forall (Qle 0) l -> In p l -> p <= Qsum l.
Proof.
  induction 1 as [|x l Hx Hl IH]; intro Hp; [destruct Hp|].
  destruct Hp as [Hp | Hp]; change (Qsum (x :: l)) with (x + Qsum l).
  - subst. pose proof (Qsum_nonneg l Hl). lra.
  - specialize (IH Hp). lra.
Qed.

(** Rounding each of [n] percentages moves their sum by at most [n] times
    0.05. *)
Lemma Qsum_rounded_percentages l :
  let rounded := map (fun p => PyFloat.round (p * 100) 1) l in
  let n := inject_Z (Z.of_nat (List.length l)) in
  - (n * (1 # 20)) <= Qsum rounded - 100 * Qsum l <= n * (1 # 20).
Proof.
  induction l as [|p l IH]; cbv zeta in *.
  - split; vm_compute; discriminate.
  - cbn [map List.length].
    change (Qsum (p :: l)) with (p + Qsum l).
    match goal with
    | |- context [Qsum (?a :: ?r)] => change (Qsum (a :: r)) with (a + Qsum r)
    end.
    rewrite Nat2Z.inj_succ, <- Z.add_1_r, inject_Z_plus.
    change (inject_Z 1) with 1.
    pose proof (RoundFacts.round1_error (p * 100)). lra.
Qed.

Lemma fold_left_max_spec r x :
  let top := fold_left PyFloat.max r x in
  In top (x :: r) /\ Forall (fun p => p <= top) (x :: r).
Proof.
  revert x. induction r as [|y r IH]; intro x; cbv zeta.
  - cbn. split; [now left | constructor; [apply Qle_refl | constructor]].
  - cbn [fold_left]. destruct (IH (PyFloat.max x y)) as [Hin Hall].
    inversion Hall as [|? ? Hm Hr]; subst.
    assert (Hx : x <= PyFloat.max x y /\ y <= PyFloat.max x y).
    { unfold PyFloat.max. destruct (PyFloat.gtb y x) eqn:E.
      - apply PyFloatFacts.gtb_gt in E. split; [lra | apply Qle_refl].
      - apply PyFloatFacts.gtb_le in E. split; [apply Qle_refl | exact E]. }
    split.
    + destruct Hin as [Hin | Hin]; [|right; now right].
      rewrite <- Hin. unfold PyFloat.max.
      destruct (PyFloat.gtb y x); [right; now left | now left].
    + constructor; [|constructor]; trivial;
        eapply Qle_trans; try exact Hm; tauto.
Qed.

(** [max(l)] is an element of [l] that no element exceeds. *)
Lemma py_max_spec l :
  l <> [] ->
  exists top, py_max l = Ok top /\ In top l /\ Forall (fun p => p <= top) l.
Proof.
  destruct l as [|x r]; [congruence|]. intros _.
  exists (fold_left PyFloat.max r x). split; [reflexivity|].
  apply fold_left_max_spec.
Qed.

(** ** The predictor *)

Section PredictorFacts.

Context {ext : External}.
Variables (model : Classifier) (scaler : option StandardScaler).
Variables (cortisol estrogen testosterone : Q) (age : Z).
Variables (gender time_of_day : string).

Let raw := predict_features age cortisol estrogen testosterone gender time_of_day.

(** What [predict_status] returns once the (scaled) features [feats] reach
    a classifier that answers with one probability per label. *)
Lemma predict_with_contract feats labels :
  match scaler with Some s => transform s raw | None => Ok raw end = Ok feats ->
  classes_labels_ model = Some labels ->
  NoDup labels ->
  (List.length labels <= 10)%nat ->
  List.length (predict_proba model feats) = List.length labels ->
  Forall (Qle 0) (predict_proba model feats) ->
  Qsum (predict_proba model feats) == 1 ->
  (predict model feats < List.length labels)%nat ->
  exists r top,
    predict_with model scaler cortisol estrogen testosterone age gender time_of_day
    = Ok r /\
    nth_error labels (predict model feats) = Some (status r) /\
    map fst (probabilities r) = labels /\
    dict.values (probabilities r)
    = map (fun p => PyFloat.round (p * 100) 1) (predict_proba model feats) /\
    py_max (predict_proba model feats) = Ok top /\
    In top (predict_proba model feats) /\
    Forall (fun p => p <= top) (predict_proba model feats) /\
    confidence r = PyFloat.round (top * 100) 1 /\
    0 <= confidence r <= 100 /\
    Forall (fun p => 0 <= p <= 100) (dict.values (probabilities r)) /\
    Qabs (Qsum (dict.values (probabilities r)) - 100) <= 0.5.
Proof.
  intros Hfeats Hlabels Hnodup Hten Hlen Hpos Hsum Hidx.
  set (probs := predict_proba model feats) in *.
  assert (Hne : probs <> []).
  { intro E. rewrite E in Hsum. vm_compute in Hsum. discriminate. }
  destruct (py_max_spec probs Hne) as (top & Hmax & Htop & Hall).
  destruct (nth_error labels (predict model feats)) as [label|] eqn:Hnth;
    [|apply nth_error_None in Hnth; lia].
  assert (Hunit : forall p, In p probs -> 0 <= p * 100 <= 100).
  { intros p Hp. pose proof (Qsum_bounds_each probs p Hpos Hp).
    rewrite Forall_forall in Hpos. specialize (Hpos p Hp). lra. }
  set (items := map (fun lp : string * Q => (fst lp, PyFloat.round (snd lp * 100) 1))
                    (combine labels probs)).
  assert (Hkeys : map fst items = labels).
  { unfold items. rewrite map_map. cbn [fst].
    change (fun x : string * Q => fst x) with (@fst string Q).
    now apply map_fst_combine. }
  assert (Hvals : map snd items = map (fun p => PyFloat.round (p * 100) 1) probs).
  { unfold items. rewrite map_map. cbn [snd].
    rewrite <- (map_snd_combine labels probs) at 2 by now symmetry.
    now rewrite map_map. }
  assert (Hdict : dict.of_items items = items).
  { apply dictFacts.of_items_distinct. now rewrite Hkeys. }
  eexists. exists top. split.
  { unfold predict_with. fold raw. rewrite Hfeats. cbn [bindR].
    fold probs. rewrite Hmax. cbn [bindR]. rewrite Hlabels.
    unfold getitem. rewrite Hnth. cbn [bindR]. fold items. rewrite Hdict.
    reflexivity. }
  cbn [status confidence probabilities]. unfold dict.values. rewrite Hvals.
  repeat split; trivial.
  - apply RoundFacts.round1_percentage. now apply Hunit.
  - apply RoundFacts.round1_percentage. now apply Hunit.
  - apply Forall_forall. intros q Hq. apply in_map_iff in Hq.
    destruct Hq as (p & <- & Hp). apply RoundFacts.round1_percentage.
    now apply Hunit.
  - pose proof (Qsum_rounded_percentages probs) as Hr. cbv zeta in Hr.
    assert (Hn : inject_Z (Z.of_nat (List.length probs)) <= 10).
    { change 10 with (inject_Z 10). rewrite <- Zle_Qle. lia. }
    apply Qabs_Qle_condition. lra.
Qed.

(** C9. When the classifier answers the query with one probability per
    label of the artifact (at most the four status labels, each once),
    non-negative and adding up to 1, [predict_status] returns a result
    whose [probabilities] entries all lie in [[0, 100]] and add up to 100
    within 0.5, and whose [confidence] is the largest class probability
    times 100, rounded to one decimal. *)
Theorem predict_probability_contract feats labels :
  match scaler with Some s => transform s raw | None => Ok raw end = Ok feats ->
  classes_labels_ model = Some labels ->
  NoDup labels ->
  incl labels STATUS_LEVELS ->
  List.length (predict_proba model feats) = List.length labels ->
  Forall (Qle 0) (predict_proba model feats) ->
  Qsum (predict_proba model feats) == 1 ->
  (predict model feats < List.length labels)%nat ->
  forall w, exists r top,
    fst (predict_status cortisol estrogen testosterone (Some model) scaler
                        age gender time_of_day w) = Ok r /\
    Forall (fun p => 0 <= p <= 100) (dict.values (probabilities r)) /\
    Qabs (Qsum (dict.values (probabilities r)) - 100) <= 0.5 /\
    In top (predict_proba model feats) /\
    Forall (fun p => p <= top) (predict_proba model feats) /\
    confidence r = PyFloat.round (top * 100) 1.
Proof.
  intros Hfeats Hlabels Hnodup Hincl Hlen Hpos Hsum Hidx w.
  assert (Hten : (List.length labels <= 10)%nat).
  { pose proof (NoDup_incl_length Hnodup Hincl) as H. cbn in H. lia. }
  destruct (predict_with_contract feats labels Hfeats Hlabels Hnodup Hten
              Hlen Hpos Hsum Hidx)
    as (r & top & Hr & _ & _ & _ & _ & Htop & Hall & Hconf & _ & Hrange & Htotal).
  exists r, top. unfold predict_status. rewrite bind_run. cbn.
  repeat split; trivial.
Qed.

End PredictorFacts.

Lemma STATUS_LEVELS_distinct : NoDup STATUS_LEVELS.
Proof.
  unfold STATUS_LEVELS.
  repeat constructor; cbn; intuition discriminate.
Qed.

Lemma predict_probability_contract_witness :
  let model := Tabulated.constant_model 0 [0.625; 0.125; 0.125; 0.125] in
  exists r top,
    fst (predict_status (ext := Tabulated.libraries [] [])
           5.0 3.0 100.0 (Some model) None 35 "Male" "Morning"
           (Tabulated.world 1000 Tabulated.no_files)) = Ok r /\
    Forall (fun p => 0 <= p <= 100) (dict.values (probabilities r)) /\
    Qabs (Qsum (dict.values (probabilities r)) - 100) <= 0.5 /\
    In top [0.625; 0.125; 0.125; 0.125] /\
    Forall (fun p => p <= top) [0.625; 0.125; 0.125; 0.125] /\
    confidence r = PyFloat.round (top * 100) 1.
Proof.
  intro model.
  apply (predict_probability_contract (ext := Tabulated.libraries [] [])
           model None 5.0 3.0 100.0 35 "Male" "Morning"
           (predict_features 35 5.0 3.0 100.0 "Male" "Morning") STATUS_LEVELS).
  - reflexivity.
  - reflexivity.
  - exact STATUS_LEVELS_distinct.
  - apply incl_refl.
  - reflexivity.
  - repeat constructor; discriminate.
  - reflexivity.
  - cbn. lia.
Defined.

Section ScalerFacts.

Context {ext : External} {laws : ExternalLaws ext}.
Variables (model : Classifier).
Variables (cortisol estrogen testosterone : Q) (age : Z).
Variables (gender time_of_day : string).

Let raw := predict_features age cortisol estrogen testosterone gender time_of_day.

Lemma predict_features_length : List.length raw = 6%nat.
Proof. reflexivity. Qed.

(** A model on disk is loaded with whatever scaler file is there, or with
    none. *)
Lemma load_model_from_disk w :
  MODEL_PATH (disk w) = Some model ->
  load_model w = ((model, SCALER_PATH (disk w)), w).
Proof.
  intro H. unfold load_model. rewrite bind_run. cbn. rewrite H. reflexivity.
Qed.

Lemma predict_with_unscaled labels :
  classes_labels_ model = Some labels ->
  (predict model raw < List.length labels)%nat ->
  predict_proba model raw <> [] ->
  exists r,
    predict_with model None cortisol estrogen testosterone age gender time_of_day
    = Ok r /\
    nth_error labels (predict model raw) = Some (status r).
Proof.
  intros Hlabels Hidx Hne.
  destruct (py_max_spec _ Hne) as (top & Hmax & _).
  destruct (nth_error labels (predict model raw)) as [label|] eqn:Hnth;
    [|apply nth_error_None in Hnth; lia].
  eexists. split.
  - unfold predict_with. fold raw. cbn [bindR]. rewrite Hmax. cbn [bindR].
    rewrite Hlabels. unfold getitem. rewrite Hnth. cbn [bindR]. reflexivity.
  - reflexivity.
Qed.

Lemma predict_with_mismatched_scaler s :
  List.length (mean_ s) <> 6%nat ->
  predict_with model (Some s) cortisol estrogen testosterone age gender time_of_day
  = Raise ValueError.
Proof.
  intro H. unfold predict_with, transform. fold raw.
  rewrite predict_features_length.
  destruct (Nat.eqb_spec 6 (List.length (mean_ s))) as [E|_]; [congruence|].
  reflexivity.
Qed.

(** Any scaler that expects six features is applied, and the classifier
    labels what it returns. *)
Lemma predict_with_six_wide_scaler s labels :
  List.length (mean_ s) = 6%nat ->
  classes_labels_ model = Some labels ->
  exists feats,
    transform s raw = Ok feats /\
    ((predict model feats < List.length labels)%nat ->
     predict_proba model feats <> [] ->
     exists r,
       predict_with model (Some s) cortisol estrogen testosterone
                    age gender time_of_day = Ok r /\
       nth_error labels (predict model feats) = Some (status r)).
Proof.
  intros Hs Hlabels.
  assert (Ht : transform s raw
               = Ok (map (fun xms => (fst xms - fst (snd xms)) / snd (snd xms))
                         (combine raw (combine (mean_ s) (scale_ s))))).
  { unfold transform. rewrite predict_features_length, Hs. reflexivity. }
  eexists. split; [exact Ht|]. intros Hidx Hne.
  destruct (py_max_spec _ Hne) as (top & Hmax & _).
  destruct (nth_error labels _) as [label|] eqn:Hnth;
    [|apply nth_error_None in Hnth; lia].
  eexists. split.
  - unfold predict_with. fold raw. rewrite Ht. cbn [bindR]. rewrite Hmax.
    cbn [bindR]. rewrite Hlabels. unfold getitem. rewrite Hnth. cbn [bindR].
    reflexivity.
  - reflexivity.
Qed.

(** A scaler fitted on the six columns taken in any order expects six
    features. *)
Lemma scaler_fitted_in_order_width cols df :
  Permutation cols feature_cols -> df <> [] ->
  List.length (mean_ (scaler_fitted_in_order cols df)) = 6%nat.
Proof.
  intros Hp Hne. unfold scaler_fitted_in_order.
  apply scaler_fit_features.
  - destruct df; [congruence | discriminate].
  - apply Forall_forall. intros x Hx. apply in_map_iff in Hx.
    destruct Hx as (r & <- & _). rewrite length_map.
    apply (Permutation_length Hp).
Qed.

(** C6, amended. With a model file and no scaler file on disk, a
    prediction does not fail: [load_model] hands back no scaler,
    [predict_status] skips scaling and labels the unscaled feature vector.
    With a scaler file fitted on a number of features other than the six
    the predictor builds, the call fails with [ValueError]. A disagreement
    in feature order alone is not detected: the only check is on the
    number of features, so a scaler file fitted on the six columns in any
    other order is applied position by position and the classifier labels
    the result. *)
Theorem missing_scaler_is_skipped labels w :
  MODEL_PATH (disk w) = Some model ->
  classes_labels_ model = Some labels ->
  (SCALER_PATH (disk w) = None ->
   (predict model raw < List.length labels)%nat ->
   predict_proba model raw <> [] ->
   exists r,
     fst (predict_status cortisol estrogen testosterone None None
                         age gender time_of_day w) = Ok r /\
     nth_error labels (predict model raw) = Some (status r)) /\
  (forall s,
     SCALER_PATH (disk w) = Some s ->
     List.length (mean_ s) <> 6%nat ->
     fst (predict_status cortisol estrogen testosterone None None
                         age gender time_of_day w) = Raise ValueError) /\
  (forall cols df,
     Permutation cols feature_cols -> df <> [] ->
     SCALER_PATH (disk w) = Some (scaler_fitted_in_order cols df) ->
     exists feats,
       transform (scaler_fitted_in_order cols df) raw = Ok feats /\
       ((predict model feats < List.length labels)%nat ->
        predict_proba model feats <> [] ->
        exists r,
          fst (predict_status cortisol estrogen testosterone None None
                              age gender time_of_day w) = Ok r /\
          nth_error labels (predict model feats) = Some (status r))).
Proof.
  intros Hmodel Hlabels.
  assert (Hrun : fst (predict_status cortisol estrogen testosterone None None
                                     age gender time_of_day w)
                 = predict_with model (SCALER_PATH (disk w)) cortisol estrogen
                                testosterone age gender time_of_day).
  { unfold predict_status. rewrite bind_run, load_model_from_disk by exact Hmodel.
    reflexivity. }
  rewrite Hrun. split; [|split].
  - intros -> Hidx Hne. now apply predict_with_unscaled.
  - intros s -> Hs. now apply predict_with_mismatched_scaler.
  - intros cols df Hp Hne ->.
    apply predict_with_six_wide_scaler; [|exact Hlabels].
    now apply scaler_fitted_in_order_width.
Qed.

End ScalerFacts.

(** C6, as stated, fails on both counts: with a model file and no scaler
    file on disk the prediction call returns a label; and so it does with
    a scaler file whose statistics are those of the columns in the order
    testosterone, estrogen, cortisol, age, time, gender. *)
Lemma prediction_without_scaler_returns_label :
  let model := Tabulated.constant_model 0 [1; 0; 0; 0] in
  let reordered := mkScaler [100; 3; 12; 35; 1; 0.5] [40; 1; 4; 12; 1; 0.5] in
  (exists r,
     fst (predict_status (ext := Tabulated.libraries [] [])
            5.0 3.0 100.0 None None 35 "Male" "Morning"
            (Tabulated.world 1000 (mkDisk None (Some model) None None))) = Ok r /\
     status r = "Normal") /\
  (exists r,
     fst (predict_status (ext := Tabulated.libraries [] [])
            5.0 3.0 100.0 None None 35 "Male" "Morning"
            (Tabulated.world 1000 (mkDisk None (Some model) (Some reordered) None)))
     = Ok r /\
     status r = "Normal").
Proof.
  split; eexists; split; vm_compute; reflexivity.
Qed.

Lemma missing_scaler_is_skipped_witness :
  let model := Tabulated.constant_model 0 [1; 0; 0; 0] in
  let files := mkDisk None (Some model) None None in
  exists r,
    fst (predict_status (ext := Tabulated.libraries [] [])
           5.0 3.0 100.0 None None 35 "Male" "Morning"
           (Tabulated.world 1000 files)) = Ok r /\
    nth_error STATUS_LEVELS 0 = Some (status r).
Proof.
  intros model files.
  destruct (missing_scaler_is_skipped (ext := Tabulated.libraries [] [])
              model 5.0 3.0 100.0 35 "Male" "Morning" STATUS_LEVELS
              (Tabulated.world 1000 files)) as (H & _ & _).
  - reflexivity.
  - reflexivity.
  - apply H.
    + reflexivity.
    + cbn. lia.
    + discriminate.
Defined.

(** ** Feature encoding *)

(** The code [predict_status] gives a time of day, spelled out. *)
Lemma predict_time_encoded cortisol estrogen testosterone age gender :
  nth 5 (predict_features age cortisol estrogen testosterone gender "Morning") 0 = 0 /\
  nth 5 (predict_features age cortisol estrogen testosterone gender "Afternoon") 0 = 1 /\
  nth 5 (predict_features age cortisol estrogen testosterone gender "Evening") 0 = 2.
Proof. repeat split; reflexivity. Qed.

(** C8. On a row whose time of day is Morning, Afternoon or Evening, the
    line of the training matrix [train_model] builds is the feature vector
    [predict_status] builds from the same fields: six entries in the order
    age, cortisol, estrogen, testosterone, gender_encoded, time_encoded,
    with gender_encoded 1 for Male and 0 for anything else, and time_encoded
    0, 1, 2 for Morning, Afternoon, Evening. *)
Theorem train_and_predict_encodings_agree (r : Row) :
  In (row_time_of_day r) ["Morning"; "Afternoon"; "Evening"] ->
  let x := predict_features (row_age r) (row_cortisol r) (row_estrogen r)
                            (row_testosterone r) (row_gender r) (row_time_of_day r) in
  train_features r = map Num x /\
  feature_cols = ["age"; "cortisol"; "estrogen"; "testosterone";
                  "gender_encoded"; "time_encoded"] /\
  List.length x = 6%nat /\ List.length (train_features r) = 6%nat /\
  x = [inject_Z (row_age r); row_cortisol r; row_estrogen r; row_testosterone r;
       if row_gender r =? "Male" then 1 else 0;
       if row_time_of_day r =? "Morning" then 0
       else if row_time_of_day r =? "Afternoon" then 1 else 2] /\
  (nth 4 x 0 = 1 <-> row_gender r = "Male") /\
  (nth 4 x 0 = 0 <-> row_gender r <> "Male").
Proof.
  intros Htod x. destruct r as [a g c e t tod d h s].
  cbn [row_age row_gender row_cortisol row_estrogen row_testosterone
       row_time_of_day] in *.
  assert (Hgender : (nth 4 x 0 = 1 <-> g = "Male") /\ (nth 4 x 0 = 0 <-> g <> "Male")).
  { unfold x, predict_features. cbn [nth].
    destruct (String.eqb_spec g "Male"); split; split; intro H;
      try discriminate; congruence. }
  destruct Htod as [<- | [<- | [<- | []]]];
    (split; [unfold train_features; cbn; unfold train_gender_encoded; cbn;
             destruct (g =? "Male"); reflexivity|]);
    repeat split; try reflexivity; apply Hgender.
Qed.

Lemma train_and_predict_encodings_agree_witness :
  let r := mkRow 35 "Female" 3.0 6.0 35.0 "Afternoon" 990 "Healthy" "Normal" in
  train_features r = map Num [35; 3.0; 6.0; 35.0; 0; 1].
Proof.
  intro r.
  destruct (train_and_predict_encodings_agree r) as (H & _).
  - cbn. tauto.
  - exact H.
Defined.

(** Off the three recognised times of day the two encodings part: training
    gets NaN where prediction gets the Morning code. *)
Lemma unrecognised_time_of_day_encodings :
  let r := mkRow 35 "Male" 5.0 3.0 100.0 "Night" 990 "Healthy" "Normal" in
  nth 5 (train_features r) (Num 0) = NaN /\
  nth 5 (predict_features 35 5.0 3.0 100.0 "Male" "Night") 1 = 0.
Proof. split; reflexivity. Qed.

(** ** Label encoding *)

Section LabelEncoderFacts.

Lemma insert_sorted_permutation s l :
  Permutation (insert_sorted s l) (s :: l).
Proof.
  induction l as [|x l IH]; cbn [insert_sorted]; [reflexivity|].
  destruct (String.leb s x); [reflexivity|].
  rewrite IH. apply perm_swap.
Qed.

Lemma np_unique_permutation y :
  Permutation (np_unique y) (nodup string_dec y).
Proof.
  unfold np_unique.
  induction (nodup string_dec y) as [|s l IH]; cbn [fold_right]; [reflexivity|].
  rewrite insert_sorted_permutation. now constructor.
Qed.

Lemma np_unique_In y s : In s (np_unique y) <-> In s y.
Proof.
  split; intro H.
  - apply (nodup_In string_dec).
    exact (Permutation_in _ (np_unique_permutation y) H).
  - apply (nodup_In string_dec) in H.
    exact (Permutation_in _ (Permutation_sym (np_unique_permutation y)) H).
Qed.

Lemma np_unique_distinct y : NoDup (np_unique y).
Proof.
  apply (Permutation_NoDup (l := nodup string_dec y)).
  - symmetry. apply np_unique_permutation.
  - apply NoDup_nodup.
Qed.


Lemma index_of_nth s l : In s l -> nth_error l (index_of s l) = Some s.
Proof.
  induction l as [|x l IH]; intros []; cbn [index_of].
  - subst. now rewrite String.eqb_refl.
  - destruct (String.eqb_spec x s); [now subst | now apply IH].
Qed.




End LabelEncoderFacts.

(** ** Cold start *)

Section ColdStart.

Context {ext : External} {laws : ExternalLaws ext}.


(** What [train_model] returns and what it leaves on disk. *)
Lemma train_model_run df optimize w :
  let X := map train_features df in
  let y := map row_status df in
  let scaler := StandardScaler_fit X in
  let le := LabelEncoder_fit y in
  let forest := RandomForest_fit optimize (5 <=? min_class_count y)%nat scaler X
                                 (LabelEncoder_transform le y) in
  let model := mkClassifier (forest_predict forest) (forest_predict_proba forest)
                            (Some (classes_ le)) (Some feature_cols) in
  fst (train_model df optimize w) = (model, scaler, le) /\
  disk (snd (train_model df optimize w))
  = mkDisk (DATASET_PATH (disk w)) (Some model) (Some scaler) (Some le).
Proof. split; reflexivity. Qed.


Lemma load_model_cold w :
  MODEL_PATH (disk w) = None ->
  load_model w
  = train_on_generated (generate_realistic_dataset 2000 default_seed w).
Proof.
  intro Hmissing. unfold load_model. rewrite bind_run.
  cbn [joblib.get_disk fst snd]. rewrite Hmissing. rewrite bind_run.
  generalize (generate_realistic_dataset 2000 default_seed w).
  intros [df w1]. reflexivity.
Qed.



End ColdStart.


(** * Further properties of the pipeline *)

(** ** Ranges of the generated columns *)

Lemma searchsorted_In {A} (u acc : Q) (a : list A) p (last : A) :
  In (np_random.searchsorted u acc a p last) (last :: a).
Proof.
  revert acc p last. induction a as [|x a IH]; intros acc p last.
  - destruct p; now left.
  - destruct p as [|q p]; [now left|]. cbn [np_random.searchsorted].
    destruct (u <? acc + q); [right; now left|].
    destruct (IH (acc + q) p x) as [<- | H]; right; [now left | now right].
Qed.

(** A weighted choice among a non-empty list with a non-empty weight list
    returns one of the listed values. *)
Lemma choice_p_In {A} `{Default A} (x : A) a q p w :
  In (fst (np_random.choice_p (x :: a) (q :: p) w)) (x :: a).
Proof.
  unfold np_random.choice_p. rewrite bind_run. cbn [ret fst].
  cbn [np_random.searchsorted].
  destruct (_ <? _); [now left|]. apply searchsorted_In.
Qed.

Lemma replicateM_Forall {A} (P : A -> Prop) (m : Gen A) n w :
  (forall w0, P (fst (m w0))) -> Forall P (fst (replicateM n m w)).
Proof.
  intro Hm. revert w. induction n as [|n IH]; intro w; cbn [replicateM].
  - constructor.
  - rewrite bind_run, bind_run. cbn [ret fst]. constructor; [apply Hm | apply IH].
Qed.

Lemma clip_range lo hi x : lo <= hi -> lo <= PyFloat.clip lo hi x <= hi.
Proof.
  intro H. unfold PyFloat.clip.
  destruct (x <? lo) eqn:E1; [split; [apply Qle_refl | exact H]|].
  apply PyFloatFacts.ltb_ge in E1.
  destruct (x >? hi) eqn:E2; [split; [exact H | apply Qle_refl]|].
  apply PyFloatFacts.gtb_le in E2. split; assumption.
Qed.

(** Truncation of a non-negative float is its floor. *)
Lemma trunc_floor x : 0 <= x -> PyFloat.trunc x = Qfloor x.
Proof.
  destruct x as [n d]. unfold Qle; cbn. intro H. unfold PyFloat.trunc; cbn.
  apply Z.quot_div_nonneg; lia.
Qed.

Lemma trunc_range (lo hi : Z) x :
  (0 <= lo)%Z -> inject_Z lo <= x <= inject_Z hi ->
  (lo <= PyFloat.trunc x <= hi)%Z.
Proof.
  intros Hlo [H1 H2]. rewrite trunc_floor.
  - rewrite <- (Qfloor_Z lo), <- (Qfloor_Z hi) at 1.
    split; now apply Qfloor_resp_le.
  - rewrite Zle_Qle in Hlo. change (inject_Z 0) with 0 in Hlo. lra.
Qed.

Lemma round2_floor x : 0.1 <= x -> floored_two_decimals (PyFloat.round x 2).
Proof.
  intro H. unfold floored_two_decimals, PyFloat.round.
  change (inject_Z (10 ^ Z.of_nat 2)) with (inject_Z 100).
  split; [|eexists; reflexivity].
  assert (Hk : (10 <= PyFloat.round_half_even (x * inject_Z 100))%Z).
  { apply RoundFacts.round_half_even_lower.
    change (inject_Z 10) with 10. change (inject_Z 100) with 100. lra. }
  set (k := PyFloat.round_half_even (x * inject_Z 100)) in *.
  rewrite Zle_Qle in Hk. change (inject_Z 10) with 10 in Hk.
  change (inject_Z 100) with 100.
  assert (Hd : inject_Z k / 100 == inject_Z k * (1 # 100))
    by (unfold Qdiv; reflexivity).
  rewrite Hd. lra.
Qed.

Lemma max_floor x : 0.1 <= PyFloat.max 0.1 x.
Proof.
  unfold PyFloat.max. destruct (x >? 0.1) eqn:E; [|apply Qle_refl].
  apply PyFloatFacts.gtb_gt in E. lra.
Qed.

Section SampleRowFacts.

Variables (ages : list Z) (genders times conditions : list string).
Variables (i : nat) (w : World).

Let row := fst (sample_row ages genders times conditions i w).

(** The columns of a row the loop body copies from the four arrays. *)
Lemma sample_row_context :
  row_age row = nth i ages default /\
  row_gender row = nth i genders default /\
  row_time_of_day row = nth i times default /\
  row_health_condition row = nth i conditions default.
Proof.
  unfold row, sample_row. repeat (rewrite bind_run; cbv zeta).
  cbn [ret fst row_age row_gender row_time_of_day row_health_condition].
  repeat split; reflexivity.
Qed.

Lemma sample_row_floored :
  floored_two_decimals (row_cortisol row) /\
  floored_two_decimals (row_estrogen row) /\
  floored_two_decimals (row_testosterone row).
Proof.
  unfold row, sample_row. repeat (rewrite bind_run; cbv zeta).
  cbn [ret fst row_cortisol row_estrogen row_testosterone].
  repeat split; apply round2_floor, max_floor.
Qed.

End SampleRowFacts.

Section GeneratedRanges.

Context {ext : External} {laws : ExternalLaws ext}.

(** The arrays the loop indexes: [n_samples] entries each, drawn from the
    stated ranges. *)
Lemma generate_realistic_dataset_arrays n seed w :
  exists ages genders times conditions w0,
    List.length ages = n /\ List.length genders = n /\
    List.length times = n /\ List.length conditions = n /\
    Forall (fun a => (18 <= a <= 70)%Z) ages /\
    Forall (fun g => In g ["Male"; "Female"]) genders /\
    Forall (fun t => In t ["Morning"; "Afternoon"; "Evening"]) times /\
    Forall (fun c => In c ["Healthy"; "Stressed"; "PCOS"; "Thyroid";
                           "Adrenal"; "Menopause"; "Low_T"]) conditions /\
    fst (generate_realistic_dataset n seed w)
    = df_shuffle seed
        (fst (forM (seq 0 n) (sample_row ages genders times conditions) w0)).
Proof.
  unfold generate_realistic_dataset.
  repeat (rewrite bind_run; cbv zeta).
  unfold ret; cbn [fst]. do 5 eexists.
  repeat match goal with |- _ /\ _ => split end; [..|reflexivity].
  - rewrite length_map. apply replicateM_length.
  - apply replicateM_length.
  - apply replicateM_length.
  - apply replicateM_length.
  - apply Forall_map, Forall_forall. intros a _.
    apply trunc_range; [lia|].
    change (inject_Z 18) with 18. change (inject_Z 70) with 70.
    apply clip_range. lra.
  - apply replicateM_Forall. intro w0. apply choice_p_In.
  - apply replicateM_Forall. intro w0. apply choice_p_In.
  - apply replicateM_Forall. intro w0. apply choice_p_In.
Qed.

Lemma Forall_nth_default {A} (P : A -> Prop) (l : list A) (d : A) k :
  Forall P l -> (k < List.length l)%nat -> P (nth k l d).
Proof.
  intros H Hk. rewrite Forall_forall in H. apply H. now apply nth_In.
Qed.

(** X1. A frame generated for [n_samples] samples has exactly [n_samples]
    rows, whatever the seed and the state the call starts from (zero rows
    for zero samples). *)
Theorem generated_frame_has_n_rows n seed w :
  List.length (fst (generate_realistic_dataset n seed w)) = n.
Proof.
  destruct (generate_realistic_dataset_arrays n seed w)
    as (ages & genders & times & conditions & w0 & _ & _ & _ & _ & _ & _ & _ & _ & ->).
  rewrite (Permutation_length (df_shuffle_permutation _ _)).
  now rewrite forM_length, length_seq.
Qed.

(** X2. Every row of a generated frame has an age between 18 and 70, a
    gender of Male or Female, a time of day of Morning, Afternoon or
    Evening, one of the seven health conditions, and one of the four status
    labels. *)
Theorem generated_rows_in_range n seed w row :
  In row (fst (generate_realistic_dataset n seed w)) -> row_in_range row.
Proof.
  destruct (generate_realistic_dataset_arrays n seed w)
    as (ages & genders & times & conditions & w0
        & La & Lg & Lt & Lc & Ha & Hg & Ht & Hc & ->).
  intro H. apply (Permutation_in _ (df_shuffle_permutation _ _)) in H.
  destruct (forM_In _ _ _ _ H) as (i & w1 & Hi & ->).
  apply in_seq in Hi.
  pose proof (sample_row_status_level ages genders times conditions i w1) as Hs.
  unfold row_in_range.
  destruct (sample_row_context ages genders times conditions i w1)
    as (-> & -> & -> & ->).
  repeat match goal with |- _ /\ _ => split end.
  - apply (Forall_nth_default _ _ _ _ Ha). lia.
  - apply (Forall_nth_default _ _ _ _ Ha). lia.
  - apply (Forall_nth_default (fun g => In g ["Male"; "Female"]) _ _ _ Hg). lia.
  - apply (Forall_nth_default
             (fun t => In t ["Morning"; "Afternoon"; "Evening"]) _ _ _ Ht). lia.
  - apply (Forall_nth_default
             (fun c => In c ["Healthy"; "Stressed"; "PCOS"; "Thyroid";
                             "Adrenal"; "Menopause"; "Low_T"]) _ _ _ Hc). lia.
  - exact Hs.
Qed.

(** X3. The three hormone values a generated row stores are at least 0.1
    (never zero or negative, whatever the noise) and have at most two
    decimals. *)
Theorem generated_hormones_floored n seed w row :
  In row (fst (generate_realistic_dataset n seed w)) ->
  floored_two_decimals (row_cortisol row) /\
  floored_two_decimals (row_estrogen row) /\
  floored_two_decimals (row_testosterone row).
Proof.
  destruct (generate_realistic_dataset_arrays n seed w)
    as (ages & genders & times & conditions & w0 & _ & _ & _ & _ & _ & _ & _ & _ & ->).
  intro H. apply (Permutation_in _ (df_shuffle_permutation _ _)) in H.
  destruct (forM_In _ _ _ _ H) as (i & w1 & _ & ->).
  apply sample_row_floored.
Qed.

End GeneratedRanges.

Lemma generated_frame_has_n_rows_witness :
  List.length (fst (generate_realistic_dataset
                      (ext := TabulatedFacts.one_sample) 1 42
                      (Tabulated.world 1000 Tabulated.no_files))) = 1%nat.
Proof.
  apply (generated_frame_has_n_rows (ext := TabulatedFacts.one_sample)).
Defined.

Lemma generated_rows_in_range_witness :
  row_in_range
    (hd default (fst (generate_realistic_dataset
                        (ext := TabulatedFacts.one_sample) 1 42
                        (Tabulated.world 1000 Tabulated.no_files)))).
Proof.
  apply (generated_rows_in_range
           (ext := TabulatedFacts.one_sample) 1 42
           (Tabulated.world 1000 Tabulated.no_files)).
  vm_compute. left. reflexivity.
Defined.

Lemma generated_hormones_floored_witness :
  let row := hd default (fst (generate_realistic_dataset
                                (ext := TabulatedFacts.one_sample) 1 42
                                (Tabulated.world 1000 Tabulated.no_files))) in
  floored_two_decimals (row_cortisol row) /\
  floored_two_decimals (row_estrogen row) /\
  floored_two_decimals (row_testosterone row).
Proof.
  apply (generated_hormones_floored
           (ext := TabulatedFacts.one_sample) 1 42
           (Tabulated.world 1000 Tabulated.no_files)).
  vm_compute. left. reflexivity.
Defined.

(** ** What a run reads and what it leaves behind *)

Lemma steps_ret {A} (a : A) : steps 0 0 (ret a).
Proof. intro w. cbn. repeat split; lia. Qed.

Lemma steps_bind {A B} cp pp cp' pp' (m : Gen A) (k : A -> Gen B) :
  steps cp pp m -> (forall a, steps cp' pp' (k a)) ->
  steps (cp + cp') (pp + pp') (bind m k).
Proof.
  intros Hm Hk w. rewrite bind_run.
  destruct (Hm w) as (H1 & H2 & H3 & H4 & H5 & H6).
  destruct (Hk (fst (m w)) (snd (m w))) as (K1 & K2 & K3 & K4 & K5 & K6).
  repeat split; try congruence; lia.
Qed.

Lemma steps_eq {A} cp pp cp' pp' (m : Gen A) :
  steps cp pp m -> cp = cp' -> pp = pp' -> steps cp' pp' m.
Proof. now intros H <- <-. Qed.

Lemma steps_if {A} cp pp (b : bool) (m1 m2 : Gen A) :
  steps cp pp m1 -> steps cp pp m2 -> steps cp pp (if b then m1 else m2).
Proof. now destruct b. Qed.

Lemma np_next_steps : steps 0 0 np_random.next.
Proof. intro w. cbn. repeat split; lia. Qed.

Lemma py_next_steps : steps 0 1 random.next.
Proof. intro w. cbn. repeat split; lia. Qed.

Lemma now_steps : steps 1 0 datetime.now.
Proof. intro w. cbn. repeat split; lia. Qed.

Create HintDb steps.
#[export] Hint Resolve np_next_steps py_next_steps now_steps : steps.

(** Counts the clock readings and [random] draws of a monadic program,
    statement by statement. *)
Ltac steps_solve :=
  eapply steps_eq;
  [ lazymatch goal with
    | |- steps _ _ (ret _) => apply steps_ret
    | |- steps _ _ (bind _ _) =>
        eapply steps_bind; [ steps_solve | intro; steps_solve ]
    | |- steps _ _ (if _ then _ else _) =>
        eapply steps_if; steps_solve
    | |- _ => solve [eauto with steps]
    end
  | reflexivity | reflexivity ].

Section Footprint.

Lemma uniform_steps lo hi : steps 0 0 (np_random.uniform lo hi).
Proof. unfold np_random.uniform. steps_solve. Qed.

Lemma normal_steps loc scale : steps 0 0 (np_random.normal loc scale).
Proof. unfold np_random.normal. steps_solve. Qed.

Lemma choice_p_steps {A} `{Default A} (a : list A) p :
  steps 0 0 (np_random.choice_p a p).
Proof. unfold np_random.choice_p. steps_solve. Qed.

Lemma randint_steps a b : steps 0 1 (random.randint a b).
Proof. unfold random.randint. steps_solve. Qed.

Hint Resolve uniform_steps normal_steps choice_p_steps randint_steps : steps.

Lemma generate_cortisol_steps tod cond age :
  steps 0 0 (generate_cortisol tod cond age).
Proof.
  unfold generate_cortisol, np_random.choice.
  destruct (tod =? "Morning"); [|destruct (tod =? "Afternoon")]; steps_solve.
Qed.

Lemma generate_estrogen_steps g age cond :
  steps 0 0 (generate_estrogen g age cond).
Proof. unfold generate_estrogen. steps_solve. Qed.

Lemma generate_testosterone_steps g age cond :
  steps 0 0 (generate_testosterone g age cond).
Proof. unfold generate_testosterone. steps_solve. Qed.

Hint Resolve generate_cortisol_steps generate_estrogen_steps
     generate_testosterone_steps : steps.

(** One row costs one clock reading and one [random] draw. *)
Lemma sample_row_steps ages genders times conditions i :
  steps 1 1 (sample_row ages genders times conditions i).
Proof. unfold sample_row. cbv zeta. steps_solve. Qed.

Lemma replicateM_steps {A} (m : Gen A) n :
  steps 0 0 m -> steps 0 0 (replicateM n m).
Proof.
  intro Hm. induction n as [|n IH]; cbn [replicateM]; steps_solve.
Qed.

Lemma forM_steps {A B} (body : A -> Gen B) l :
  (forall a, steps 1 1 (body a)) ->
  steps (List.length l) (List.length l) (forM l body).
Proof.
  intro Hb. induction l as [|a l IH]; cbn [forM List.length].
  - apply steps_ret.
  - eapply steps_eq.
    + eapply steps_bind; [apply Hb | intro b].
      eapply steps_bind; [exact IH | intro bs; apply steps_ret].
    + lia.
    + lia.
Qed.

(** Every element a loop returns comes from a run of its body that starts
    after fewer clock readings than the loop has iterations. *)
Lemma forM_In_steps {A B} (body : A -> Gen B) l w b :
  (forall a, steps 1 1 (body a)) ->
  In b (fst (forM l body w)) ->
  exists a w0,
    In a l /\ b = fst (body a w0) /\ clock w0 = clock w /\
    (clock_pos w <= clock_pos w0 < clock_pos w + List.length l)%nat.
Proof.
  intro Hb. revert w. induction l as [|a l IH]; intro w; [intros []|].
  rewrite forM_cons. cbn [fst In List.length]. intros [<- | H].
  - exists a, w. repeat split; [now left | lia | lia].
  - destruct (IH _ H) as (a' & w0 & Ha & Hb' & Hc & Hp).
    destruct (Hb a w) as (K1 & K2 & _).
    exists a', w0. repeat split; [now right | exact Hb' | congruence | lia | lia].
Qed.

(** The date of a row is the day its clock reading shows, less a whole
    number of days between 0 and 730. *)
Lemma sample_row_date ages genders times conditions i w :
  let row := fst (sample_row ages genders times conditions i w) in
  (clock w (clock_pos w) - 730 <= row_sample_date row <= clock w (clock_pos w))%Z.
Proof.
  cbv zeta. unfold sample_row.
  rewrite bind_run.
  destruct (generate_cortisol_steps (nth i times default) (nth i conditions default)
              (nth i ages default) w) as (C1 & C2 & _).
  set (w1 := snd (generate_cortisol _ _ _ w)) in *.
  rewrite bind_run.
  destruct (generate_estrogen_steps (nth i genders default) (nth i ages default)
              (nth i conditions default) w1) as (E1 & E2 & _).
  set (w2 := snd (generate_estrogen _ _ _ w1)) in *.
  rewrite bind_run.
  destruct (generate_testosterone_steps (nth i genders default) (nth i ages default)
              (nth i conditions default) w2) as (T1 & T2 & _).
  set (w3 := snd (generate_testosterone _ _ _ w2)) in *.
  cbn. rewrite T1, E1, C1, T2, E2, C2, !Nat.add_0_r.
  pose proof (Z.mod_pos_bound (py_stream w3 (py_pos w3)) 731). lia.
Qed.

Context {ext : External} {laws : ExternalLaws ext}.

(** The run up to the loop: both generators are on the streams of the seed,
    the [random] module at its start; the clock and the disk are as the
    call found them. *)
Lemma generate_realistic_dataset_loop n seed w :
  exists ages genders times conditions w0,
    clock w0 = clock w /\ clock_pos w0 = clock_pos w /\
    py_stream w0 = python_mt19937 seed /\ py_pos w0 = 0%nat /\
    np_stream w0 = numpy_mt19937 seed /\ disk w0 = disk w /\
    generate_realistic_dataset n seed w
    = (df_shuffle seed
         (fst (forM (seq 0 n) (sample_row ages genders times conditions) w0)),
       snd (forM (seq 0 n) (sample_row ages genders times conditions) w0)).
Proof.
  unfold generate_realistic_dataset.
  rewrite (bind_run _ _ w), (bind_run (random.seed _ _)).
  set (ws := snd (random.seed _ _ _)).
  assert (Hs : clock ws = clock w /\ clock_pos ws = clock_pos w /\
               py_stream ws = python_mt19937 seed /\ py_pos ws = 0%nat /\
               np_stream ws = numpy_mt19937 seed /\ disk ws = disk w)
    by (repeat split; reflexivity).
  clearbody ws. destruct Hs as (S1 & S2 & S3 & S4 & S5 & S6).
  rewrite bind_run. cbv zeta.
  destruct (replicateM_steps _ n (normal_steps 35 12) ws)
    as (A1 & A2 & A3 & A4 & A5 & A6).
  set (wa := snd (replicateM n (np_random.normal 35 12) ws)) in *.
  rewrite bind_run.
  destruct (replicateM_steps _ n
              (choice_p_steps ["Male"; "Female"] [0.48; 0.52]) wa)
    as (G1 & G2 & G3 & G4 & G5 & G6).
  set (wg := snd (replicateM n (np_random.choice_p _ _) wa)) in *.
  rewrite bind_run.
  destruct (replicateM_steps _ n
              (choice_p_steps ["Morning"; "Afternoon"; "Evening"] [0.5; 0.3; 0.2]) wg)
    as (T1 & T2 & T3 & T4 & T5 & T6).
  set (wt := snd (replicateM n (np_random.choice_p _ _) wg)) in *.
  rewrite bind_run.
  destruct (replicateM_steps _ n
              (choice_p_steps
                 ["Healthy"; "Stressed"; "PCOS"; "Thyroid"; "Adrenal"; "Menopause"; "Low_T"]
                 [0.45; 0.20; 0.08; 0.07; 0.05; 0.08; 0.07]) wt)
    as (C1 & C2 & C3 & C4 & C5 & C6).
  set (wc := snd (replicateM n (np_random.choice_p _ _) wt)) in *.
  rewrite bind_run. unfold ret.
  do 4 eexists. exists wc.
  repeat match goal with |- _ /\ _ => split end; [..|reflexivity];
    try congruence; lia.
Qed.

(** X4. Every sample date of a generated frame lies within the 730 days up
    to one of the [n_samples] clock readings the call makes, and never
    after it: no row is dated in the future. *)
Theorem generated_dates_within_two_years n seed w row :
  In row (fst (generate_realistic_dataset n seed w)) ->
  exists k,
    (clock_pos w <= k < clock_pos w + n)%nat /\
    (clock w k - 730 <= row_sample_date row <= clock w k)%Z.
Proof.
  destruct (generate_realistic_dataset_loop n seed w)
    as (ages & genders & times & conditions & w0 & Hc & Hp & _ & _ & _ & _ & ->).
  cbn [fst]. intro H.
  apply (Permutation_in _ (df_shuffle_permutation _ _)) in H.
  destruct (forM_In_steps _ _ _ _ (sample_row_steps ages genders times conditions) H)
    as (i & w1 & _ & -> & Hc1 & Hp1).
  rewrite length_seq in Hp1.
  exists (clock_pos w1). split; [lia|].
  rewrite <- Hc, <- Hc1.
  apply (sample_row_date ages genders times conditions i w1).
Qed.

(** X5. A call of the generator leaves both global generators on the
    streams of its seed (whatever state they were in), makes exactly
    [n_samples] clock readings and [n_samples] draws from the [random]
    module, and does not touch the files. *)
Theorem generator_footprint n seed w :
  let w' := snd (generate_realistic_dataset n seed w) in
  np_stream w' = numpy_mt19937 seed /\
  py_stream w' = python_mt19937 seed /\
  py_pos w' = n /\
  clock w' = clock w /\
  clock_pos w' = (clock_pos w + n)%nat /\
  disk w' = disk w.
Proof.
  destruct (generate_realistic_dataset_loop n seed w)
    as (ages & genders & times & conditions & w0
        & Hc & Hp & Hps & Hpp & Hns & Hd & ->).
  cbn [snd].
  destruct (forM_steps _ (seq 0 n) (sample_row_steps ages genders times conditions) w0)
    as (F1 & F2 & F3 & F4 & F5 & F6).
  rewrite length_seq in F2, F4.
  repeat split; try congruence; lia.
Qed.

End Footprint.

Lemma generated_dates_within_two_years_witness :
  let w := Tabulated.world 1000 Tabulated.no_files in
  exists k,
    (clock_pos w <= k < clock_pos w + 1)%nat /\
    (clock w k - 730
     <= row_sample_date
          (hd default (fst (generate_realistic_dataset
                              (ext := TabulatedFacts.one_sample) 1 42 w)))
     <= clock w k)%Z.
Proof.
  intro w.
  apply (generated_dates_within_two_years
           (ext := TabulatedFacts.one_sample) 1 42 w).
  vm_compute. left. reflexivity.
Defined.

(** ** Runs on the same days *)

Lemma agree_ret {A} (a : A) : agree (ret a) (ret a).
Proof. intros w1 w2 Hw. split; [reflexivity | exact Hw]. Qed.

Lemma agree_bind {A B} (m1 m2 : Gen A) (k1 k2 : A -> Gen B) :
  agree m1 m2 -> (forall a, agree (k1 a) (k2 a)) ->
  agree (bind m1 k1) (bind m2 k2).
Proof.
  intros Hm Hk w1 w2 Hw. rewrite !bind_run.
  destruct (Hm w1 w2 Hw) as [Ha Hw']. rewrite Ha. exact (Hk _ _ _ Hw').
Qed.

Lemma np_next_agree : agree np_random.next np_random.next.
Proof.
  intros w1 w2 ((H1 & H2 & H3 & H4) & H5 & H6).
  unfold np_random.next, same_inputs, same_generators. cbn.
  rewrite H1, H2. repeat split; congruence.
Qed.

Lemma py_next_agree : agree random.next random.next.
Proof.
  intros w1 w2 ((H1 & H2 & H3 & H4) & H5 & H6).
  unfold random.next, same_inputs, same_generators. cbn.
  rewrite H3, H4. repeat split; congruence.
Qed.

Lemma now_agree : agree datetime.now datetime.now.
Proof.
  intros w1 w2 ((H1 & H2 & H3 & H4) & H5 & H6).
  unfold datetime.now, same_inputs, same_generators. cbn.
  rewrite H5, H6. repeat split; congruence.
Qed.

Create HintDb agree.
#[export] Hint Resolve np_next_agree py_next_agree now_agree : agree.

(** Runs the same monadic program twice, statement by statement. *)
Ltac agree_solve :=
  lazymatch goal with
  | |- agree (ret _) (ret _) => apply agree_ret
  | |- agree (bind _ _) (bind _ _) =>
      apply agree_bind; [ agree_solve | intro; agree_solve ]
  | |- agree (if ?b then _ else _) (if ?b then _ else _) =>
      destruct b; agree_solve
  | |- _ => solve [eauto with agree]
  end.

Section SameDayRuns.

Lemma uniform_agree lo hi :
  agree (np_random.uniform lo hi) (np_random.uniform lo hi).
Proof. unfold np_random.uniform. agree_solve. Qed.

Lemma normal_agree loc scale :
  agree (np_random.normal loc scale) (np_random.normal loc scale).
Proof. unfold np_random.normal. agree_solve. Qed.

Lemma choice_p_agree {A} `{Default A} (a : list A) p :
  agree (np_random.choice_p a p) (np_random.choice_p a p).
Proof. unfold np_random.choice_p. agree_solve. Qed.

Lemma randint_agree a b : agree (random.randint a b) (random.randint a b).
Proof. unfold random.randint. agree_solve. Qed.

Hint Resolve uniform_agree normal_agree choice_p_agree randint_agree : agree.

Lemma generate_cortisol_agree tod cond age :
  agree (generate_cortisol tod cond age) (generate_cortisol tod cond age).
Proof.
  unfold generate_cortisol, np_random.choice.
  destruct (tod =? "Morning"); [|destruct (tod =? "Afternoon")]; agree_solve.
Qed.

Lemma generate_estrogen_agree g age cond :
  agree (generate_estrogen g age cond) (generate_estrogen g age cond).
Proof. unfold generate_estrogen. agree_solve. Qed.

Lemma generate_testosterone_agree g age cond :
  agree (generate_testosterone g age cond) (generate_testosterone g age cond).
Proof. unfold generate_testosterone. agree_solve. Qed.

Hint Resolve generate_cortisol_agree generate_estrogen_agree
     generate_testosterone_agree : agree.

Lemma sample_row_agree ages genders times conditions i :
  agree (sample_row ages genders times conditions i)
        (sample_row ages genders times conditions i).
Proof. unfold sample_row. cbv zeta. agree_solve. Qed.

Lemma replicateM_agree {A} (m : Gen A) n :
  agree m m -> agree (replicateM n m) (replicateM n m).
Proof.
  intro Hm. induction n as [|n IH]; cbn [replicateM]; agree_solve.
Qed.

Lemma forM_agree {A B} (body : A -> Gen B) l :
  (forall a, agree (body a) (body a)) -> agree (forM l body) (forM l body).
Proof.
  intro Hb. induction l as [|a l IH]; cbn [forM]; agree_solve.
Qed.

Hint Resolve sample_row_agree replicateM_agree forM_agree : agree.

Context {ext : External}.

(** X6. Two calls with the same sample count and seed whose clock readings
    show the same days return identical frames, every column included,
    whatever the earlier state of the generators and of the files. *)
Theorem dataset_reproducible_on_same_days n seed w1 w2 :
  clock w1 = clock w2 -> clock_pos w1 = clock_pos w2 ->
  fst (generate_realistic_dataset n seed w1)
  = fst (generate_realistic_dataset n seed w2).
Proof.
  intros Hc Hp. unfold generate_realistic_dataset.
  rewrite (bind_run _ _ w1), (bind_run _ _ w2).
  rewrite (bind_run _ _ (snd (np_random.seed _ _ w1))),
          (bind_run _ _ (snd (np_random.seed _ _ w2))).
  match goal with
  | |- fst (?m ?a) = fst (?m ?b) =>
      assert (Hrel : agree m m);
      [ | apply Hrel; cbn; repeat split; assumption ]
  end.
  cbv zeta. agree_solve.
Qed.

(** X7. Two calls with the same sample count and seed return frames that
    agree, row by row, on every column but [sample_date], whatever the
    clocks, the earlier state of the generators and the files. *)
Theorem dataset_reproducible_up_to_dates n seed w1 w2 :
  Forall2 same_but_date (fst (generate_realistic_dataset n seed w1))
                        (fst (generate_realistic_dataset n seed w2)).
Proof. apply dataset_reproducible_but_for_dates. Qed.

End SameDayRuns.

Lemma dataset_reproducible_on_same_days_witness :
  let files := mkDisk None (Some (Tabulated.constant_model 0 [1; 0; 0; 0])) None None in
  fst (generate_realistic_dataset (ext := TabulatedFacts.one_sample) 1 42
         (Tabulated.world 1000 Tabulated.no_files))
  = fst (generate_realistic_dataset (ext := TabulatedFacts.one_sample) 1 42
           (mkWorld (fun _ => 0.5) 7 (fun _ => 3%Z) 9 (fun _ => 1000%Z) 0 files)).
Proof.
  intro files.
  apply (dataset_reproducible_on_same_days (ext := TabulatedFacts.one_sample));
    reflexivity.
Defined.

(** ** More on the reference model *)

(** X8. With gender and time of day fixed, moving one hormone strictly
    further outside its normal band never yields a milder label: the
    position of the label in Normal < Mild < Moderate < Severe does not
    decrease. *)
Theorem classify_status_label_monotone (gender time_of_day : string)
        (c e t c' e' t' : Q) :
  moved_further_out gender time_of_day (c, e, t) (c', e', t') ->
  (index_of (classify_status c e t gender time_of_day) STATUS_LEVELS
   <= index_of (classify_status c' e' t' gender time_of_day) STATUS_LEVELS)%nat.
Proof.
  intro H. unfold classify_status. apply status_of_score_monotone.
  inversion H as [? ? ? ? Hm | ? ? ? ? Hm | ? ? ? ? Hm]; subst;
    rewrite !severity_score_bands.
  - pose proof (band_points_further_outside _ _ _
                  (cortisol_bands_ordered time_of_day) Hm). lia.
  - pose proof (band_points_further_outside _ _ _
                  (estrogen_bands_ordered gender) Hm). lia.
  - pose proof (band_points_further_outside _ _ _
                  (testosterone_bands_ordered gender) Hm). lia.
Qed.

Lemma classify_status_label_monotone_witness :
  (index_of (classify_status 11.0 2.0 100.0 "Male" "Morning") STATUS_LEVELS
   <= index_of (classify_status 13.0 2.0 100.0 "Male" "Morning") STATUS_LEVELS)%nat.
Proof.
  apply classify_status_label_monotone.
  apply move_cortisol. right. cbn. split; reflexivity.
Defined.

(** X9. [classify_status] accepts any text for gender and time of day: a
    gender other than Male is scored on the Female bands and a time of day
    other than Morning or Afternoon on the Evening bands; the score is
    always between 0 and 6 and the label one of the four. *)
Theorem classify_status_on_any_text (c e t : Q) (gender time_of_day : string) :
  let gender' := if gender =? "Male" then "Male" else "Female" in
  let time' := if time_of_day =? "Morning" then "Morning"
               else if time_of_day =? "Afternoon" then "Afternoon" else "Evening" in
  severity_score c e t gender time_of_day = severity_score c e t gender' time' /\
  classify_status c e t gender time_of_day = classify_status c e t gender' time' /\
  (0 <= severity_score c e t gender time_of_day <= 6)%Z /\
  In (classify_status c e t gender time_of_day) STATUS_LEVELS.
Proof.
  cbv zeta.
  assert (H : severity_score c e t gender time_of_day
              = severity_score c e t (if gender =? "Male" then "Male" else "Female")
                  (if time_of_day =? "Morning" then "Morning"
                   else if time_of_day =? "Afternoon" then "Afternoon" else "Evening")).
  { unfold severity_score, cortisol_evaluation, estrogen_evaluation,
      testosterone_evaluation.
    destruct (gender =? "Male"); destruct (time_of_day =? "Morning");
      try destruct (time_of_day =? "Afternoon"); reflexivity. }
  repeat split.
  - exact H.
  - unfold classify_status. now rewrite H.
  - apply severity_score_range.
  - apply severity_score_range.
  - apply classify_status_levels.
Qed.

Lemma status_of_score_normal s :
  (0 <= s)%Z -> (status_of_score s = "Normal" <-> s = 0%Z).
Proof.
  intro H. unfold status_of_score.
  destruct (Z.leb_spec 5 s); [split; [discriminate | lia]|].
  destruct (Z.leb_spec 3 s); [split; [discriminate | lia]|].
  destruct (Z.leb_spec 1 s); [split; [discriminate | lia]|].
  split; [lia | reflexivity].
Qed.

(** X10. The label is Normal exactly when each of the three hormones lies
    within its normal band, bounds included, for the gender and time of day
    at hand. *)
Theorem normal_iff_all_in_band (c e t : Q) (gender time_of_day : string) :
  classify_status c e t gender time_of_day = "Normal" <->
  (mild_low (cortisol_bands time_of_day) <= c <= mild_high (cortisol_bands time_of_day)) /\
  (mild_low (estrogen_bands gender) <= e <= mild_high (estrogen_bands gender)) /\
  (mild_low (testosterone_bands gender) <= t <= mild_high (testosterone_bands gender)).
Proof.
  unfold classify_status.
  rewrite status_of_score_normal by apply severity_score_range.
  rewrite severity_score_bands.
  rewrite <- (band_points_normal _ _ (cortisol_bands_ordered time_of_day)),
          <- (band_points_normal _ _ (estrogen_bands_ordered gender)),
          <- (band_points_normal _ _ (testosterone_bands_ordered gender)).
  destruct (band_points_range (cortisol_bands time_of_day) c) as [-> | [-> | ->]];
  destruct (band_points_range (estrogen_bands gender) e) as [-> | [-> | ->]];
  destruct (band_points_range (testosterone_bands gender) t) as [-> | [-> | ->]];
  split; intro H; try discriminate; try (repeat split; reflexivity);
    destruct H as (H1 & H2 & H3); discriminate.
Qed.

(** ** The per-hormone analysis against the scoring rule *)

Section AnalysisFacts.

Variables (gender time_of_day : string).

Lemma analyze_estrogen_bands e :
  let st := entry_status (analyze_estrogen e gender) in
  let b := estrogen_bands gender in
  (st = "Low" <-> e < mild_low b) /\
  (st = "High" <-> mild_high b < e /\ ~ e < mild_low b) /\
  (st = "Normal" <-> band_points b e = 0%Z) /\
  entry_level (analyze_estrogen e gender) = e.
Proof.
  cbv zeta.
  rewrite (band_points_normal _ _ (estrogen_bands_ordered gender)).
  unfold analyze_estrogen, estrogen_bands.
  destruct (gender =? "Male"); cbn [mild_low mild_high];
    split_comparisons; cbn; repeat split; intros;
      try discriminate; try reflexivity; try lra;
      try (match goal with H : _ /\ _ |- _ => destruct H end; lra).
Qed.

Lemma analyze_testosterone_bands t :
  let st := entry_status (analyze_testosterone t gender) in
  let b := testosterone_bands gender in
  (st = "Low" <-> t < mild_low b) /\
  (st = "High" <-> mild_high b < t /\ ~ t < mild_low b) /\
  (st = "Normal" <-> band_points b t = 0%Z) /\
  entry_level (analyze_testosterone t gender) = t.
Proof.
  cbv zeta.
  rewrite (band_points_normal _ _ (testosterone_bands_ordered gender)).
  unfold analyze_testosterone, testosterone_bands.
  destruct (gender =? "Male"); cbn [mild_low mild_high];
    split_comparisons; cbn; repeat split; intros;
      try discriminate; try reflexivity; try lra;
      try (match goal with H : _ /\ _ |- _ => destruct H end; lra).
Qed.

Lemma analyze_cortisol_in_band c :
  band_points (cortisol_bands time_of_day) c = 0%Z ->
  entry_status (analyze_cortisol c time_of_day) = "Normal".
Proof.
  rewrite (band_points_normal _ _ (cortisol_bands_ordered time_of_day)).
  unfold analyze_cortisol, cortisol_bands.
  destruct (time_of_day =? "Morning"); [|destruct (time_of_day =? "Afternoon")];
    cbn [mild_low mild_high]; cbv zeta; intros [H1 H2];
    split_comparisons; cbn; try reflexivity; exfalso; lra.
Qed.

(** X11. For estrogen and for testosterone the analysis and the scoring
    rule draw the same line: the entry is Low exactly below the normal
    band, High exactly above it, and Normal exactly when the hormone adds
    nothing to the score; the entry repeats the value it was given. *)
Theorem sex_hormone_analysis_matches_bands (c e t : Q) :
  let a := analyze_hormones c e t gender time_of_day in
  (entry_status (an_estrogen a) = "Low" <-> e < mild_low (estrogen_bands gender)) /\
  (entry_status (an_estrogen a) = "High" <->
   mild_high (estrogen_bands gender) < e /\ ~ e < mild_low (estrogen_bands gender)) /\
  (entry_status (an_estrogen a) = "Normal" <->
   estrogen_evaluation gender e 0 = 0%Z) /\
  (entry_status (an_testosterone a) = "Low" <-> t < mild_low (testosterone_bands gender)) /\
  (entry_status (an_testosterone a) = "High" <->
   mild_high (testosterone_bands gender) < t /\ ~ t < mild_low (testosterone_bands gender)) /\
  (entry_status (an_testosterone a) = "Normal" <->
   testosterone_evaluation gender t 0 = 0%Z) /\
  entry_level (an_estrogen a) = e /\ entry_level (an_testosterone a) = t.
Proof.
  cbv zeta. unfold analyze_hormones. cbn [an_estrogen an_testosterone].
  rewrite estrogen_evaluation_bands, testosterone_evaluation_bands.
  destruct (analyze_estrogen_bands e) as (E1 & E2 & E3 & E4).
  destruct (analyze_testosterone_bands t) as (T1 & T2 & T3 & T4).
  cbv zeta in *. rewrite !Z.add_0_l. repeat split; tauto.
Qed.

(** X12. Whenever [classify_status] says Normal, all three entries of
    [analyze_hormones] for the same reading say Normal. *)
Theorem normal_label_has_normal_analysis (c e t : Q) :
  classify_status c e t gender time_of_day = "Normal" ->
  let a := analyze_hormones c e t gender time_of_day in
  entry_status (an_cortisol a) = "Normal" /\
  entry_status (an_estrogen a) = "Normal" /\
  entry_status (an_testosterone a) = "Normal".
Proof.
  unfold classify_status.
  rewrite status_of_score_normal by apply severity_score_range.
  rewrite severity_score_bands. intro H. cbv zeta.
  unfold analyze_hormones. cbn [an_cortisol an_estrogen an_testosterone].
  destruct (analyze_estrogen_bands e) as (_ & _ & E3 & _).
  destruct (analyze_testosterone_bands t) as (_ & _ & T3 & _).
  cbv zeta in *.
  destruct (band_points_range (cortisol_bands time_of_day) c) as [Hc | [Hc | Hc]];
  destruct (band_points_range (estrogen_bands gender) e) as [He | [He | He]];
  destruct (band_points_range (testosterone_bands gender) t) as [Ht | [Ht | Ht]];
  rewrite Hc, He, Ht in H; try discriminate.
  repeat split; [now apply analyze_cortisol_in_band | now apply E3 | now apply T3].
Qed.

End AnalysisFacts.

Lemma normal_label_has_normal_analysis_witness :
  let a := analyze_hormones 5.0 3.0 100.0 "Male" "Morning" in
  entry_status (an_cortisol a) = "Normal" /\
  entry_status (an_estrogen a) = "Normal" /\
  entry_status (an_testosterone a) = "Normal".
Proof.
  apply normal_label_has_normal_analysis. reflexivity.
Defined.

(** The converse fails for cortisol: a morning value of 3.5 is reported
    Normal by the analysis while the scoring rule counts it. *)
Lemma normal_analysis_without_normal_label :
  entry_status (analyze_cortisol 3.5 "Morning") = "Normal" /\
  classify_status 3.5 3.0 100.0 "Male" "Morning" = "Mild Imbalance".
Proof. split; reflexivity. Qed.

(** ** Recommendations *)

(** X13. [get_health_insights] looks the label up and falls back on the
    Normal bundle: a status outside the four labels gets the Normal
    recommendations (urgency low), and each of the four labels gets a bundle
    of its own, told apart by its urgency. The hormone values and the gender
    play no part. *)
Theorem insights_fallback (status : string) (c e t : Q) (gender : string) :
  (~ In status STATUS_LEVELS ->
   get_health_insights status c e t gender
   = get_health_insights "Normal" 0 0 0 "") /\
  (In status STATUS_LEVELS ->
   dict.lookup insights_table status = Some (get_health_insights status c e t gender)) /\
  urgency (get_health_insights "Normal" c e t gender) = "low" /\
  urgency (get_health_insights "Mild Imbalance" c e t gender) = "moderate" /\
  urgency (get_health_insights "Moderate Imbalance" c e t gender) = "high" /\
  urgency (get_health_insights "Severe Imbalance" c e t gender) = "urgent".
Proof.
  split; [|split; [|repeat split]].
  - intro H. unfold get_health_insights, dict.get, insights_table.
    cbn [dict.lookup].
    destruct (String.eqb_spec "Normal" status) as [<-|_];
      [exfalso; apply H; cbn; tauto|].
    destruct (String.eqb_spec "Mild Imbalance" status) as [<-|_];
      [exfalso; apply H; cbn; tauto|].
    destruct (String.eqb_spec "Moderate Imbalance" status) as [<-|_];
      [exfalso; apply H; cbn; tauto|].
    destruct (String.eqb_spec "Severe Imbalance" status) as [<-|_];
      [exfalso; apply H; cbn; tauto|].
    reflexivity.
  - intros [<- | [<- | [<- | [<- | []]]]]; reflexivity.
Qed.

Lemma insights_fallback_witness :
  get_health_insights "Unknown" 5.0 3.0 100.0 "Male"
  = get_health_insights "Normal" 0 0 0 "".
Proof.
  apply (insights_fallback "Unknown" 5.0 3.0 100.0 "Male").
  cbn. intros [H | [H | [H | [H | []]]]]; discriminate.
Defined.

(** ** Edge behaviour of the predictor *)

Section PredictorEdges.

Context {ext : External}.
Variables (cortisol estrogen testosterone : Q) (age : Z).
Variables (gender time_of_day : string).

(** X14. A classifier that lacks the [classes_labels_] attribute never
    yields a prediction: the fallback on [STATUS_LEVELS] picks a label, but
    building the probabilities reads the attribute all the same, so the
    call ends in an exception whatever the classifier answers. *)
Theorem predict_without_labels_fails model scaler w :
  classes_labels_ model = None ->
  exists err,
    fst (predict_status cortisol estrogen testosterone (Some model) scaler
                        age gender time_of_day w) = Raise err.
Proof.
  intro H. unfold predict_status. rewrite bind_run. cbn [ret fst snd].
  unfold predict_with. rewrite H.
  destruct (match scaler with Some s => transform s _ | None => Ok _ end)
    as [feats|err]; cbn [bindR]; [|eauto].
  destruct (py_max _) as [top|err]; cbn [bindR]; [|eauto].
  destruct (getitem _ _) as [label|err]; cbn [bindR]; eauto.
Qed.

(** X15. An unrecognised time of day is not handled alike everywhere: the
    feature vector encodes it as Morning, while the per-hormone analysis
    and the scoring rule treat it as Evening. *)
Theorem unrecognised_time_of_day_defaults :
  ~ In time_of_day ["Morning"; "Afternoon"; "Evening"] ->
  predict_features age cortisol estrogen testosterone gender time_of_day
  = predict_features age cortisol estrogen testosterone gender "Morning" /\
  entry_status (an_cortisol (analyze_hormones cortisol estrogen testosterone
                                              gender time_of_day))
  = entry_status (an_cortisol (analyze_hormones cortisol estrogen testosterone
                                                gender "Evening")) /\
  classify_status cortisol estrogen testosterone gender time_of_day
  = classify_status cortisol estrogen testosterone gender "Evening".
Proof.
  intro H.
  assert (Hm : (time_of_day =? "Morning") = false)
    by (apply String.eqb_neq; intro E; apply H; rewrite E; cbn; tauto).
  assert (Ha : (time_of_day =? "Afternoon") = false)
    by (apply String.eqb_neq; intro E; apply H; rewrite E; cbn; tauto).
  assert (He : (time_of_day =? "Evening") = false)
    by (apply String.eqb_neq; intro E; apply H; rewrite E; cbn; tauto).
  repeat split.
  - unfold predict_features, dict.get, time_mapping. cbn [dict.lookup].
    rewrite (String.eqb_sym "Morning" time_of_day), Hm.
    rewrite (String.eqb_sym "Afternoon" time_of_day), Ha.
    rewrite (String.eqb_sym "Evening" time_of_day), He. reflexivity.
  - unfold analyze_hormones. cbn [an_cortisol]. unfold analyze_cortisol.
    rewrite Hm, Ha. cbn. destruct (cortisol >? 2.0); reflexivity.
  - unfold classify_status, severity_score, cortisol_evaluation.
    rewrite Hm, Ha. reflexivity.
Qed.

End PredictorEdges.

Lemma predict_without_labels_fails_witness :
  exists err,
    fst (predict_status (ext := Tabulated.libraries [] [])
           5.0 3.0 100.0
           (Some (mkClassifier (fun _ => O) (fun _ => [1; 0; 0; 0]) None None)) None
           35 "Male" "Morning" (Tabulated.world 1000 Tabulated.no_files)) = Raise err.
Proof.
  apply (predict_without_labels_fails (ext := Tabulated.libraries [] [])).
  reflexivity.
Defined.

Lemma unrecognised_time_of_day_defaults_witness :
  predict_features 35 1.0 3.0 100.0 "Male" "Night"
  = predict_features 35 1.0 3.0 100.0 "Male" "Morning" /\
  classify_status 1.0 3.0 100.0 "Male" "Night"
  = classify_status 1.0 3.0 100.0 "Male" "Evening".
Proof.
  destruct (unrecognised_time_of_day_defaults 1.0 3.0 100.0 35 "Male" "Night")
    as (H1 & _ & H3).
  - cbn. intros [H | [H | [H | []]]]; discriminate.
  - split; [exact H1 | exact H3].
Defined.

(** ** Persistence of the artifact *)

Section Persistence.

Context {ext : External}.

(** X16. What [train_model] saves is what [load_model] reads back: after a
    training run, loading returns the very model and scaler the run
    returned, leaves the world as it is, and a prediction without a model
    at hand uses exactly those two. *)
Theorem train_then_load df optimize w
        cortisol estrogen testosterone age gender time_of_day :
  let trained := train_model df optimize w in
  let model := fst (fst (fst trained)) in
  let scaler := snd (fst (fst trained)) in
  load_model (snd trained) = ((model, Some scaler), snd trained) /\
  predict_status cortisol estrogen testosterone None None
                 age gender time_of_day (snd trained)
  = (predict_with model (Some scaler) cortisol estrogen testosterone
                  age gender time_of_day, snd trained).
Proof.
  cbv zeta.
  destruct (train_model_run df optimize w) as [Hrun Hdisk]. cbv zeta in Hrun, Hdisk.
  assert (Hload : load_model (snd (train_model df optimize w))
                  = ((fst (fst (fst (train_model df optimize w))),
                      Some (snd (fst (fst (train_model df optimize w))))),
                     snd (train_model df optimize w))).
  { rewrite (load_model_from_disk (fst (fst (fst (train_model df optimize w))))).
    - rewrite Hdisk. rewrite Hrun. reflexivity.
    - rewrite Hdisk. rewrite Hrun. reflexivity. }
  split; [exact Hload|].
  unfold predict_status. rewrite bind_run, Hload. reflexivity.
Qed.

Lemma train_on_generated_reload (p : list Row * World) :
  load_model (snd (train_on_generated p)) = train_on_generated p.
Proof.
  destruct p as [df w1]. unfold train_on_generated. cbn [fst snd].
  set (w2 := snd (to_csv df w1)). clearbody w2.
  destruct (train_model_run df true w2) as [Hrun Hdisk]. cbv zeta in Hrun, Hdisk.
  rewrite (load_model_from_disk (fst (fst (fst (train_model df true w2))))).
  - rewrite Hdisk. rewrite Hrun. reflexivity.
  - rewrite Hdisk. rewrite Hrun. reflexivity.
Qed.

(** X17. After a cold start the next load is warm: with no model file at
    first, loading a second time returns the same model and scaler as the
    first load did and changes nothing, neither the files nor the state of
    the generators (no second training run). *)
Theorem second_load_is_warm w :
  MODEL_PATH (disk w) = None ->
  load_model (snd (load_model w)) = load_model w.
Proof.
  intro H. rewrite (load_model_cold w H).
  generalize (generate_realistic_dataset 2000 default_seed w). intro p.
  apply train_on_generated_reload.
Qed.

(** A model file on disk is never replaced by loading: a warm load changes
    nothing at all. *)
Lemma warm_load_changes_nothing w model :
  MODEL_PATH (disk w) = Some model -> snd (load_model w) = w.
Proof. intro H. now rewrite (load_model_from_disk model). Qed.

End Persistence.

Lemma second_load_is_warm_witness :
  let w := Tabulated.world 1000 Tabulated.no_files in
  let load := load_model (ext := Tabulated.libraries [] []) in
  load (snd (load w)) = load w.
Proof.
  intros w load. apply (second_load_is_warm (ext := Tabulated.libraries [] [])).
  reflexivity.
Defined.

(** ** The label ordering of a trained model *)

Lemma insert_sorted_Sorted s l :
  Sorted string_le l -> Sorted string_le (insert_sorted s l).
Proof.
  induction 1 as [|x l Hl IH Hx]; cbn [insert_sorted].
  - repeat constructor.
  - destruct (String.leb s x) eqn:E.
    + constructor; [now constructor | now constructor].
    + assert (Hxs : string_le x s).
      { destruct (String.leb_total s x) as [H | H]; [congruence | exact H]. }
      constructor; [exact IH|].
      destruct l as [|y l]; cbn [insert_sorted].
      * now constructor.
      * destruct (String.leb s y); constructor; trivial.
        now inversion Hx.
Qed.

Lemma np_unique_Sorted y : Sorted string_le (np_unique y).
Proof.
  unfold np_unique.
  induction (nodup string_dec y) as [|s l IH]; cbn [fold_right].
  - constructor.
  - now apply insert_sorted_Sorted.
Qed.

(** Indexing the classes with the code of a label gives the label back. *)
Lemma LabelEncoder_round_trip y :
  let le := LabelEncoder_fit y in
  map (fun i => nth i (classes_ le) "") (LabelEncoder_transform le y) = y.
Proof.
  cbv zeta. unfold LabelEncoder_transform, LabelEncoder_fit. cbn [classes_].
  rewrite map_map.
  transitivity (map (fun s : string => s) y); [|apply map_id].
  apply map_ext_in. intros s Hs.
  apply nth_error_nth, index_of_nth, np_unique_In, Hs.
Qed.

(** X18. The model [train_model] returns carries the feature order of the
    training matrix and, as its label ordering, the distinct status values
    of the frame in increasing (alphabetical) order; the integer codes the
    forest is fitted on index that ordering back to the labels of the
    rows. *)
Theorem trained_model_label_ordering {ext : External} df optimize w :
  let model := fst (fst (fst (train_model df optimize w))) in
  let y := map row_status df in
  exists labels,
    classes_labels_ model = Some labels /\
    feature_names_ model = Some feature_cols /\
    NoDup labels /\ Sorted string_le labels /\
    (forall s, In s labels <-> exists r, In r df /\ row_status r = s) /\
    map (fun i => nth i labels "") (LabelEncoder_transform (LabelEncoder_fit y) y) = y.
Proof.
  cbv zeta. destruct (train_model_run df optimize w) as [-> _].
  cbn [fst classes_labels_ feature_names_].
  exists (np_unique (map row_status df)). repeat split.
  - apply np_unique_distinct.
  - apply np_unique_Sorted.
  - intro H. apply (proj1 (np_unique_In _ _)) in H.
    apply in_map_iff in H. destruct H as (r & Hr & Hin). now exists r.
  - intros (r & Hin & <-). apply np_unique_In. now apply in_map.
  - apply LabelEncoder_round_trip.
Qed.

(** For the four status labels the ordering is alphabetical, not the order
    of [STATUS_LEVELS]. *)
Lemma np_unique_STATUS_LEVELS :
  np_unique STATUS_LEVELS
  = ["Mild Imbalance"; "Moderate Imbalance"; "Normal"; "Severe Imbalance"].
Proof. reflexivity. Qed.

(** ** The training matrix of a generated frame *)

Lemma train_features_recognised (r : Row) :
  In (row_time_of_day r) ["Morning"; "Afternoon"; "Evening"] ->
  train_features r
  = map Num (predict_features (row_age r) (row_cortisol r) (row_estrogen r)
                              (row_testosterone r) (row_gender r) (row_time_of_day r)).
Proof.
  destruct r as [a g c e t tod d h s]. cbn [row_time_of_day].
  intros [<- | [<- | [<- | []]]];
    unfold train_features; cbn; unfold train_gender_encoded; cbn;
    destruct (g =? "Male"); reflexivity.
Qed.

(** X19. Every row of a generated frame is encoded for training without a
    NaN: its line of the training matrix is the six-entry feature vector the
    predictor would build from the same fields. *)
Theorem generated_rows_encode_without_nan
        {ext : External} {laws : ExternalLaws ext} n seed w row :
  In row (fst (generate_realistic_dataset n seed w)) ->
  train_features row
  = map Num (predict_features (row_age row) (row_cortisol row) (row_estrogen row)
                              (row_testosterone row) (row_gender row)
                              (row_time_of_day row)) /\
  ~ In NaN (train_features row) /\
  List.length (train_features row) = 6%nat.
Proof.
  destruct (generate_realistic_dataset_arrays n seed w)
    as (ages & genders & times & conditions & w0
        & _ & _ & Lt & _ & _ & _ & Ht & _ & ->).
  intro H. apply (Permutation_in _ (df_shuffle_permutation _ _)) in H.
  destruct (forM_In _ _ _ _ H) as (i & w1 & Hi & ->).
  apply in_seq in Hi.
  assert (Htod : In (row_time_of_day (fst (sample_row ages genders times conditions i w1)))
                    ["Morning"; "Afternoon"; "Evening"]).
  { destruct (sample_row_context ages genders times conditions i w1)
      as (_ & _ & -> & _).
    apply (Forall_nth_default
             (fun t => In t ["Morning"; "Afternoon"; "Evening"]) _ _ _ Ht). lia. }
  split; [now apply train_features_recognised|].
  split; [|reflexivity].
  rewrite (train_features_recognised _ Htod). intro Hnan.
  apply in_map_iff in Hnan. destruct Hnan as (q & Hq & _). discriminate.
Qed.

Lemma generated_rows_encode_without_nan_witness :
  let row := hd default (fst (generate_realistic_dataset
                                (ext := TabulatedFacts.one_sample) 1 42
                                (Tabulated.world 1000 Tabulated.no_files))) in
  ~ In NaN (train_features row).
Proof.
  intro row.
  apply (generated_rows_encode_without_nan
           (ext := TabulatedFacts.one_sample) 1 42
           (Tabulated.world 1000 Tabulated.no_files)).
  vm_compute. left. reflexivity.
Defined.

(** * The web application *)

Module AppFacts.
Import App.

Lemma nonempty_spec s : nonempty s = true <-> s <> "".
Proof.
  unfold nonempty. destruct (String.eqb_spec s ""); cbn; split; congruence.
Qed.

Lemma long_password_nonempty p : (6 <= String.length p)%nat -> nonempty p = true.
Proof. destruct p; cbn; [lia | reflexivity]. Qed.

Lemma keep_or_add {A} (b : bool) (l : list A) (x : A) :
  (if b then l else (l ++ [x])%list) = [] <-> b = true /\ l = [].
Proof.
  destruct b; split.
  - now split.
  - now intros [_ ->].
  - intro H. now apply app_eq_nil in H.
  - now intros [H _].
Qed.

Lemma add_or_keep {A} (b : bool) (l : list A) (x : A) :
  (if b then (l ++ [x])%list else l) = [] <-> b = false /\ l = [].
Proof.
  destruct b; split.
  - intro H. now apply app_eq_nil in H.
  - now intros [H _].
  - now split.
  - now intros [_ ->].
Qed.

(** X20. The validation of [register] passes exactly when the name and the
    email are not empty, the two passwords are equal, the password has at
    least six characters, an age between 18 and 100 was parsed, and a gender
    was given. *)
Theorem registration_accepted_iff (name email password confirm_password : string)
        (age : option Z) (gender : string) :
  registration_errors name email password confirm_password age gender = [] <->
  name <> "" /\ email <> "" /\ password = confirm_password /\
  (6 <= String.length password)%nat /\
  (exists a, age = Some a /\ (18 <= a <= 100)%Z) /\
  gender <> "".
Proof.
  unfold registration_errors. cbv zeta.
  rewrite keep_or_add, nonempty_spec.
  assert (Hage : forall l : list string,
             match age with
             | Some a =>
                 if (a =? 0)%Z || (a <? 18)%Z || (100 <? a)%Z
                 then (l ++ ["Valid age (18-100) is required."])%list else l
             | None => (l ++ ["Valid age (18-100) is required."])%list
             end = [] <->
             (exists a, age = Some a /\ (18 <= a <= 100)%Z) /\ l = []).
  { intro l. destruct age as [a|].
    - rewrite add_or_keep, !orb_false_iff, Z.eqb_neq, !Z.ltb_ge.
      split.
      + intros [[[H0 H1] H2] Hl]. split; [|exact Hl]. exists a. split; [reflexivity | lia].
      + intros [(a' & Ha & Hr) Hl]. injection Ha as <-. repeat split; trivial; lia.
    - split.
      + intro H. now apply app_eq_nil in H.
      + intros [(a' & Ha & _) _]. discriminate. }
  rewrite Hage, add_or_keep, Nat.ltb_ge, !keep_or_add, !nonempty_spec, String.eqb_eq.
  split.
  - intros (Hg & Ha & Hlen & Heq & Hp & He & Hn & _). repeat split; trivial.
  - intros (Hn & He & Heq & Hlen & Ha & Hg). repeat split; trivial.
    intros ->. cbn in Hlen. lia.
Qed.

Lemma user_by_email_none users email :
  user_by_email users email = None ->
  ~ In email (map u_email (rows users)).
Proof.
  unfold user_by_email. intros H Hin. apply in_map_iff in Hin.
  destruct Hin as (u & Hu & Hin).
  pose proof (find_none _ _ H u Hin) as Hf. cbn in Hf.
  rewrite Hu, String.eqb_refl in Hf. discriminate.
Qed.

Lemma user_by_email_some users email u :
  user_by_email users email = Some u -> In u (rows users) /\ u_email u = email.
Proof.
  unfold user_by_email. intro H. apply find_some in H.
  destruct H as [Hin He]. split; [exact Hin | now apply String.eqb_eq].
Qed.

Lemma find_app_fresh {A} (p : A -> bool) l x :
  find p l = None -> p x = true -> find p (l ++ [x]) = Some x.
Proof.
  induction l as [|a l IH]; cbn; intros H Hx.
  - now rewrite Hx.
  - destruct (p a); [discriminate | now apply IH].
Qed.

Section Accounts.

Context {hashing : Hashing}.

(** The three ways a registration request ends. *)
Lemma register_cases form users :
  let name := strip (f_name form) in
  let email := lower (strip (f_email form)) in
  let errors := registration_errors name email (f_password form)
                                    (f_confirm_password form) (f_age form) (f_gender form) in
  (errors <> [] /\
   register POST form users
   = (render_template "register.html", map (fun e => (e, "danger")) errors, users)) \/
  (errors = [] /\ (exists u, user_by_email users email = Some u) /\
   register POST form users
   = (redirect "login", [("Email already registered.", "warning")], users)) \/
  (errors = [] /\ user_by_email users email = None /\
   register POST form users
   = (redirect "login", [("Registration successful! Please log in.", "success")],
      mkTable (rows users ++ [new_account form users]) (last_id users + 1)%Z)).
Proof.
  cbv zeta. unfold register, new_account.
  destruct (registration_errors _ _ _ _ _ _) as [|e errors].
  - destruct (user_by_email users _) as [u|].
    + right; left. repeat split; eauto.
    + right; right. repeat split.
  - left. split; [discriminate | reflexivity].
Qed.

(** X21. [register] keeps the [users] table well formed and never touches
    an existing account: emails and keys stay unique, the rows that were
    there stay as they were, and at most one row is added at the end, with
    the stripped name, the stripped and lower-cased email and the hash of
    the password, under a new key. *)
Theorem register_keeps_accounts method form users :
  users_sound users ->
  let users' := snd (register method form users) in
  users_sound users' /\
  (users' = users \/
   rows users' = (rows users ++ [new_account form users])%list /\
   last_id users' = (last_id users + 1)%Z).
Proof.
  intros (He & Hi & Hl). cbv zeta.
  destruct method; [cbn; split; [repeat split; trivial | now left]|].
  destruct (register_cases form users) as [[_ ->] | [(_ & _ & ->) | (_ & Hfresh & ->)]];
    cbn [snd]; try (split; [repeat split; trivial | now left]).
  split; [|right; split; reflexivity].
  unfold users_sound. cbn [rows last_id]. rewrite !map_app. cbn [map].
  repeat split.
  - apply NoDup_app; [exact He | repeat constructor; intros [] | ].
    intros x Hx [<- | []]. cbn in Hx. now apply (user_by_email_none _ _ Hfresh).
  - apply NoDup_app; [exact Hi | repeat constructor; intros [] | ].
    intros x Hx [<- | []]. cbn in Hx. apply in_map_iff in Hx.
    destruct Hx as (u & Hu & Hin). rewrite Forall_forall in Hl.
    specialize (Hl u Hin). lia.
  - apply Forall_app. split.
    + eapply Forall_impl; [|exact Hl]. cbn. intros; lia.
    + repeat constructor. cbn. lia.
Qed.

Context {hashing_laws : HashingLaws hashing}.

(** X22. An account just registered can log in: when the registration form
    is valid and its email is not taken, a login with the same email field
    and password against the new table succeeds and opens a session for the
    new account. *)
Theorem register_then_login form users session :
  registration_errors (strip (f_name form)) (lower (strip (f_email form)))
                      (f_password form) (f_confirm_password form)
                      (f_age form) (f_gender form) = [] ->
  user_by_email users (lower (strip (f_email form))) = None ->
  let users' := snd (register POST form users) in
  let '(response, _, session') :=
    login POST (f_email form) (f_password form) users' session in
  response = redirect "dashboard" /\
  user_id session' = Some (last_id users + 1)%Z /\
  user_gender session' = Some (f_gender form).
Proof.
  intros Hvalid Hfresh. cbv zeta.
  destruct (register_cases form users)
    as [[Hne _] | [(_ & (u & Hu) & _) | (_ & _ & ->)]];
    [cbv zeta in Hne; congruence | congruence |].
  cbn [snd].
  apply registration_accepted_iff in Hvalid.
  destruct Hvalid as (_ & He & _ & Hlen & _ & _).
  unfold login.
  rewrite (proj2 (nonempty_spec _) He), (long_password_nonempty _ Hlen).
  cbn [negb orb]. unfold user_by_email. cbn [rows].
  rewrite (find_app_fresh _ _ (new_account form users)).
  - cbn [new_account u_password u_id u_gender]. rewrite check_generated.
    repeat split.
  - exact Hfresh.
  - cbn. apply String.eqb_refl.
Qed.

(** X23. [login] fails closed: the session changes only when a row with
    the given (stripped, lower-cased) email exists and the password checks
    against its stored hash, and then the session is opened for that row;
    otherwise the login page is shown again and the session is untouched.
    An empty password never logs in. *)
Theorem login_fails_closed method email_field password users session :
  let '(response, _, session') := login method email_field password users session in
  (response = redirect "dashboard" /\
   method = POST /\ password <> "" /\
   exists u, In u (rows users) /\ u_email u = lower (strip email_field) /\
             check_password_hash (u_password u) password = true /\
             user_id session' = Some (u_id u)) \/
  (response = render_template "login.html" /\ session' = session).
Proof.
  unfold login. destruct method; [now right|].
  destruct (nonempty (lower (strip email_field))) eqn:He; [|now right].
  destruct (nonempty password) eqn:Hp; [|now right]. cbn [negb orb].
  destruct (user_by_email users _) as [u|] eqn:Hu; [|now right].
  destruct (check_password_hash (u_password u) password) eqn:Hc; [|now right].
  left. apply user_by_email_some in Hu. destruct Hu as [Hin Hemail].
  repeat split; [now apply nonempty_spec|].
  exists u. repeat split; trivial.
Qed.

Lemma find_map_invariant {A} (p : A -> bool) (f : A -> A) l :
  (forall x, p (f x) = p x) -> find p (map f l) = option_map f (find p l).
Proof.
  intro H. induction l as [|a l IH]; cbn; [reflexivity|].
  rewrite H. destruct (p a); [reflexivity | exact IH].
Qed.

(** X24. Resetting a password takes no proof of identity beyond the email:
    for any registered email, posting it to [forgot_password] and then
    posting a new password of six characters or more (twice) to
    [reset_password] replaces the stored hash, and a login with the email
    and the new password succeeds as that account, whatever the old
    password was. *)
Theorem password_reset_by_email_alone email_field new_password users session u :
  lower (strip email_field) <> "" ->
  user_by_email users (lower (strip email_field)) = Some u ->
  (6 <= String.length new_password)%nat ->
  let '(_, _, session1) := forgot_password POST email_field users session in
  let '(_, _, users2, session2) :=
    reset_password POST new_password new_password users session1 in
  let '(response, _, session3) :=
    login POST email_field new_password users2 session2 in
  response = redirect "dashboard" /\ user_id session3 = Some (u_id u).
Proof.
  intros He Hu Hlen. unfold forgot_password. rewrite Hu.
  unfold reset_password. cbn [reset_verified negb reset_user_id].
  destruct (Nat.ltb_spec (String.length new_password) 6); [lia|].
  rewrite String.eqb_refl. cbn [negb].
  unfold login.
  rewrite (proj2 (nonempty_spec _) He), (long_password_nonempty _ Hlen). cbn [negb orb].
  unfold user_by_email, set_password in *. cbn [rows].
  rewrite find_map_invariant.
  - rewrite Hu. cbn [option_map]. rewrite Z.eqb_refl.
    cbn [u_password u_id]. rewrite check_generated. split; reflexivity.
  - intro x. destruct (u_id x =? u_id u)%Z; reflexivity.
Qed.

(** X25. [reset_password] changes nothing unless the session went through
    [forgot_password], the request is a POST, the password has at least six
    characters and the two copies are equal; and when it does change the
    table, it changes stored passwords only: every account keeps its key,
    name, email, age and gender, in the same order. *)
Theorem reset_password_guarded method password confirm_password users session :
  let '(_, _, users', _) :=
    reset_password method password confirm_password users session in
  (users' <> users ->
   reset_verified session = true /\ method = POST /\
   (6 <= String.length password)%nat /\ password = confirm_password) /\
  Forall2 same_account (rows users) (rows users') /\
  last_id users' = last_id users.
Proof.
  assert (Hsame : forall l : list User, Forall2 same_account l l).
  { induction l; constructor; trivial. repeat split. }
  unfold reset_password.
  destruct (reset_verified session); cbn [negb];
    [|repeat split; trivial; congruence].
  destruct method; [repeat split; trivial; congruence|].
  destruct (Nat.ltb_spec (String.length password) 6);
    [repeat split; trivial; congruence|].
  destruct (String.eqb_spec password confirm_password); cbn [negb];
    [|repeat split; trivial; congruence].
  destruct (reset_user_id session) as [id|];
    [|repeat split; trivial; congruence].
  split; [intros _; repeat split; trivial|].
  unfold set_password. cbn [rows last_id]. split; [|reflexivity].
  induction (rows users) as [|a l IH]; cbn [map]; constructor; trivial.
  destruct (u_id a =? id)%Z; repeat split.
Qed.

End Accounts.

#[global] Instance plain_hashing_laws : HashingLaws plain_hashing.
Proof. split. intro p. cbn. apply String.eqb_refl. Qed.

Lemma register_keeps_accounts_witness :
  let users := mkTable [mkUser 1 "Ann" "ann@x.org" "plain$secret1" 30 "Female"] 1 in
  let form := mkRegisterForm " Bob " "Bob@X.org " "secret2" "secret2" (Some 41%Z) "Male" in
  let users' := snd (register (hashing := plain_hashing) POST form users) in
  users_sound users' /\
  (users' = users \/
   rows users' = (rows users ++ [new_account (hashing := plain_hashing) form users])%list /\
   last_id users' = 2%Z).
Proof.
  apply (register_keeps_accounts (hashing := plain_hashing) POST
           (mkRegisterForm " Bob " "Bob@X.org " "secret2" "secret2" (Some 41%Z) "Male")
           (mkTable [mkUser 1 "Ann" "ann@x.org" "plain$secret1" 30 "Female"] 1)).
  unfold users_sound. cbn. repeat split.
  - repeat constructor. intros [].
  - repeat constructor. intros [].
  - repeat constructor. cbn. lia.
Defined.

Lemma register_then_login_witness :
  let users := mkTable [mkUser 1 "Ann" "ann@x.org" "plain$secret1" 30 "Female"] 1 in
  let form := mkRegisterForm " Bob " "Bob@X.org " "secret2" "secret2" (Some 41%Z) "Male" in
  let users' := snd (register (hashing := plain_hashing) POST form users) in
  let '(response, _, session') :=
    login (hashing := plain_hashing) POST "Bob@X.org " "secret2" users' empty_session in
  response = redirect "dashboard" /\
  user_id session' = Some 2%Z /\
  user_gender session' = Some "Male".
Proof.
  apply (register_then_login (hashing := plain_hashing)
           (mkRegisterForm " Bob " "Bob@X.org " "secret2" "secret2" (Some 41%Z) "Male")
           (mkTable [mkUser 1 "Ann" "ann@x.org" "plain$secret1" 30 "Female"] 1)
           empty_session); reflexivity.
Defined.

Lemma password_reset_by_email_alone_witness :
  let users := mkTable [mkUser 1 "Ann" "ann@x.org" "plain$secret1" 30 "Female"] 1 in
  let '(_, _, session1) :=
    forgot_password POST " Ann@x.org" users empty_session in
  let '(_, _, users2, session2) :=
    reset_password (hashing := plain_hashing) POST "intruder" "intruder" users session1 in
  let '(response, _, session3) :=
    login (hashing := plain_hashing) POST " Ann@x.org" "intruder" users2 session2 in
  response = redirect "dashboard" /\ user_id session3 = Some 1%Z.
Proof.
  apply (password_reset_by_email_alone (hashing := plain_hashing)
           " Ann@x.org" "intruder"
           (mkTable [mkUser 1 "Ann" "ann@x.org" "plain$secret1" 30 "Female"] 1)
           empty_session
           (mkUser 1 "Ann" "ann@x.org" "plain$secret1" 30 "Female")).
  - vm_compute. discriminate.
  - reflexivity.
  - vm_compute. lia.
Defined.

(** ** Records *)

Lemma NoDup_map_eq {A B} (f : A -> B) l x y :
  NoDup (map f l) -> In x l -> In y l -> f x = f y -> x = y.
Proof.
  induction l as [|a l IH]; cbn; [tauto|].
  intros Hnd [-> | Hx] [-> | Hy] E; trivial.
  - inversion Hnd as [|? ? Hn _]. exfalso. apply Hn. rewrite E. now apply in_map.
  - inversion Hnd as [|? ? Hn _]. exfalso. apply Hn. rewrite <- E. now apply in_map.
  - inversion Hnd. now apply IH.
Qed.

Lemma NoDup_map_filter {A B} (f : A -> B) (p : A -> bool) l :
  NoDup (map f l) -> NoDup (map f (filter p l)).
Proof.
  induction l as [|a l IH]; cbn; [trivial|].
  intro H. inversion H as [|? ? Hn Hnd]. subst.
  destruct (p a); cbn; [|now apply IH].
  constructor; [|now apply IH].
  intro Hin. apply Hn. apply in_map_iff in Hin. destruct Hin as (x & Hx & Hin).
  apply filter_In in Hin. rewrite <- Hx. apply in_map. tauto.
Qed.

(** X26. [delete_record] deletes nothing that belongs to someone else: in
    a table with unique keys, a row that disappears has the key asked for
    and is owned by the user of the session; nothing is added or changed,
    the table stays well formed, and without a logged-in user nothing is
    deleted at all. *)
Theorem delete_record_only_own record_id session records :
  records_sound records ->
  let records' := snd (delete_record record_id session records) in
  (forall r, In r (rows records') -> In r (rows records)) /\
  (forall r, In r (rows records) -> ~ In r (rows records') ->
             r_id r = record_id /\ user_id session = Some (r_user_id r)) /\
  records_sound records'.
Proof.
  intros [Hnd Hl]. cbv zeta. unfold delete_record, login_required.
  destruct (user_id session) as [uid|]; cbn [snd];
    [|repeat split; trivial; tauto].
  destruct (record_by_id records record_id) as [record|] eqn:Hrec; cbn [snd];
    [|repeat split; trivial; tauto].
  destruct (Z.eqb_spec (r_user_id record) uid) as [Hown|]; cbn [snd];
    [|repeat split; trivial; tauto].
  unfold record_by_id in Hrec. apply find_some in Hrec.
  destruct Hrec as [Hin Hid]. apply Z.eqb_eq in Hid.
  cbn [rows last_id]. repeat split.
  - intros r Hr. apply filter_In in Hr. tauto.
  - destruct (Z.eqb_spec (r_id r) record_id) as [E|E]; trivial.
    exfalso. apply H0. apply filter_In. split; trivial.
    now apply negb_true_iff, Z.eqb_neq.
  - destruct (Z.eqb_spec (r_id r) record_id) as [E|E].
    + assert (r = record) as -> by (apply (NoDup_map_eq r_id (rows records)); congruence).
      now rewrite Hown.
    + exfalso. apply H0. apply filter_In. split; trivial.
      now apply negb_true_iff, Z.eqb_neq.
  - now apply NoDup_map_filter.
  - rewrite Forall_forall in *. intros r Hr. apply filter_In in Hr. apply Hl. tauto.
Qed.

Lemma delete_record_only_own_witness :
  let mine := mkHormoneRecord 1 7 5.0 3.0 100.0 "2024-01-01" "08:00" "Morning"
                              "Normal" 90 "ok" in
  let theirs := mkHormoneRecord 2 8 5.0 3.0 100.0 "2024-01-01" "08:00" "Morning"
                                "Normal" 90 "ok" in
  let session := mkSession (Some 7%Z) None None None None None false in
  let records' := snd (delete_record 2 session (mkTable [mine; theirs] 2)) in
  records_sound records' /\ rows records' = [mine; theirs].
Proof.
  destruct (delete_record_only_own 2
              (mkSession (Some 7%Z) None None None None None false)
              (mkTable [mkHormoneRecord 1 7 5.0 3.0 100.0 "2024-01-01" "08:00" "Morning"
                                        "Normal" 90 "ok";
                        mkHormoneRecord 2 8 5.0 3.0 100.0 "2024-01-01" "08:00" "Morning"
                                        "Normal" 90 "ok"] 2)) as (_ & _ & H).
  - split; cbn.
    + repeat constructor; cbn; [intros [H | []]; discriminate | intros []].
    + repeat constructor; cbn; lia.
  - split; [exact H | reflexivity].
Defined.

(** ** Statistics *)

Lemma filter_counts_disjoint {A} (p q : A -> bool) l :
  (forall x, p x = true -> q x = false) ->
  (List.length (filter p l) + List.length (filter q l) <= List.length l)%nat.
Proof.
  intro H. induction l as [|a l IH]; cbn; [lia|].
  destruct (p a) eqn:Hp; [rewrite (H a Hp)|destruct (q a)]; cbn; lia.
Qed.

Lemma filter_counts_cover {A} (p q : A -> bool) l :
  (forall x, p x = true -> q x = false) ->
  Forall (fun x => p x || q x = true) l ->
  (List.length (filter p l) + List.length (filter q l) = List.length l)%nat.
Proof.
  intros H Hl. induction Hl as [|a l Ha _ IH]; cbn; [lia|].
  destruct (p a) eqn:Hp; [rewrite (H a Hp)|cbn in Ha; rewrite Ha]; cbn; lia.
Qed.

Lemma normal_without_imbalance s :
  (s =? "Normal") = true -> str_in "Imbalance" s = false.
Proof. intro H. apply String.eqb_eq in H. now subst. Qed.

Lemma status_level_counted s :
  In s STATUS_LEVELS -> (s =? "Normal") || str_in "Imbalance" s = true.
Proof. intros [<- | [<- | [<- | [<- | []]]]]; reflexivity. Qed.

Lemma status_levels_partition records :
  Forall (fun r => In (r_prediction r) STATUS_LEVELS) records ->
  let stats := dashboard_stats records in
  (normal_count stats + imbalance_count stats = total_records stats)%nat.
Proof.
  intro H. cbn. apply filter_counts_cover.
  - intros r. apply normal_without_imbalance.
  - eapply Forall_impl; [|exact H]. intros r. apply status_level_counted.
Qed.

(** X27. The two counters of the dashboard never count a record twice, so
    together they stay within the total; and they account for every record
    when the stored predictions are among the four status levels. A
    prediction outside them, which a model trained on other labels would
    give, is counted by neither. *)
Theorem dashboard_counts_partition records :
  let stats := dashboard_stats records in
  (normal_count stats + imbalance_count stats <= total_records stats)%nat /\
  (Forall (fun r => In (r_prediction r) STATUS_LEVELS) records ->
   (normal_count stats + imbalance_count stats = total_records stats)%nat) /\
  (forall r, In r records ->
             r_prediction r <> "Normal" -> str_in "Imbalance" (r_prediction r) = false ->
             (normal_count stats + imbalance_count stats < total_records stats)%nat).
Proof.
  cbv zeta. split; [|split].
  - cbn. apply filter_counts_disjoint. intro r. apply normal_without_imbalance.
  - apply status_levels_partition.
  - cbn. induction records as [|a l IH]; cbn; [tauto|].
    intros r [-> | Hin] Hn Hi.
    + destruct (String.eqb_spec (r_prediction r) "Normal"); [congruence|].
      rewrite Hi.
      pose proof (filter_counts_disjoint
                    (fun r => r_prediction r =? "Normal")
                    (fun r => str_in "Imbalance" (r_prediction r)) l
                    (fun r => normal_without_imbalance (r_prediction r))).
      lia.
    + specialize (IH r Hin Hn Hi).
      destruct (r_prediction a =? "Normal") eqn:Ha.
      * rewrite (normal_without_imbalance _ Ha). cbn. lia.
      * destruct (str_in "Imbalance" (r_prediction a)); cbn; lia.
Qed.

Lemma dashboard_counts_partition_witness :
  let records := [mkHormoneRecord 1 7 5.0 3.0 100.0 "2024-01-01" "08:00" "Morning"
                                  "Normal" 90 "ok";
                  mkHormoneRecord 2 7 30.0 3.0 100.0 "2024-01-02" "08:00" "Morning"
                                  "Mild Imbalance" 80 "watch"] in
  let stats := dashboard_stats records in
  (normal_count stats + imbalance_count stats = total_records stats)%nat.
Proof.
  apply (dashboard_counts_partition
           [mkHormoneRecord 1 7 5.0 3.0 100.0 "2024-01-01" "08:00" "Morning"
                            "Normal" 90 "ok";
            mkHormoneRecord 2 7 30.0 3.0 100.0 "2024-01-02" "08:00" "Morning"
                            "Mild Imbalance" 80 "watch"]).
  repeat constructor; cbn; tauto.
Defined.

Lemma lookup_set {V} k (v : V) d k' :
  dict.lookup (dict.set k v d) k' = if k =? k' then Some v else dict.lookup d k'.
Proof.
  induction d as [|[k0 v0] d IH]; cbn [dict.set dict.lookup].
  - destruct (k =? k'); reflexivity.
  - destruct (String.eqb_spec k0 k) as [->|Hne]; cbn [dict.lookup].
    + destruct (k =? k'); reflexivity.
    + rewrite IH. destruct (String.eqb_spec k0 k') as [->|]; trivial.
      destruct (String.eqb_spec k k'); congruence.
Qed.

Lemma Zsum_increment d k :
  Zsum (dict.values (dict.set k (dict.get d k 0 + 1)%Z d)) = (Zsum (dict.values d) + 1)%Z.
Proof.
  unfold dict.values, dict.get.
  induction d as [|[k0 v0] d IH]; cbn [dict.set dict.lookup map snd Zsum fold_right].
  - lia.
  - destruct (k0 =? k); cbn [map snd fold_right].
    + lia.
    + unfold Zsum in IH. rewrite IH. lia.
Qed.

Lemma count_statuses_acc records d :
  let d' := fold_left (fun d r =>
                         let status := r_prediction r in
                         dict.set status (dict.get d status 0 + 1)%Z d) records d in
  (forall s, dict.get d' s 0%Z = (dict.get d s 0 + Z.of_nat (occurrences s records))%Z) /\
  (forall s, dict.lookup d' s = None <->
             dict.lookup d s = None /\ ~ In s (map r_prediction records)) /\
  Zsum (dict.values d') = (Zsum (dict.values d) + Z.of_nat (List.length records))%Z.
Proof.
  cbv zeta. revert d. induction records as [|r records IH]; intro d.
  - cbn [fold_left map In List.length]. unfold occurrences. cbn [filter List.length].
    repeat split; try tauto; intros; lia.
  - cbn [fold_left].
    destruct (IH (dict.set (r_prediction r) (dict.get d (r_prediction r) 0 + 1)%Z d))
      as (Hget & Hnone & Hsum).
    split; [|split; [intro s; split|]].
    + intro s. rewrite Hget. unfold dict.get at 1. rewrite lookup_set.
      unfold occurrences. cbn [filter].
      destruct (r_prediction r =? s) eqn:E.
      * apply String.eqb_eq in E. subst s. cbn [List.length]. lia.
      * fold (dict.get d s 0%Z). lia.
    + intro H. apply Hnone in H. rewrite lookup_set in H.
      destruct (String.eqb_spec (r_prediction r) s); [destruct H; discriminate|].
      cbn. tauto.
    + intros [Hd Hin]. apply Hnone. rewrite lookup_set.
      destruct (String.eqb_spec (r_prediction r) s) as [E|E].
      * exfalso. apply Hin. now left.
      * split; trivial. intro H. apply Hin. now right.
    + rewrite Hsum, Zsum_increment. cbn [List.length]. lia.
Qed.

(** X28. The distribution [api_stats] returns is a true count: looking a
    status up (with default 0) gives the number of records with that
    prediction, a status is a key exactly when some record has it, and the
    counts add up to [total_records]. The Normal count agrees with the one
    the dashboard shows for the same records. *)
Theorem api_stats_distribution records :
  let stats := api_stats records in
  api_total_records stats = List.length records /\
  (forall s, dict.get (status_distribution stats) s 0%Z
             = Z.of_nat (List.length (filter (fun r => r_prediction r =? s) records))) /\
  (forall s, dict.lookup (status_distribution stats) s = None <->
             ~ In s (map r_prediction records)) /\
  fold_right Z.add 0%Z (dict.values (status_distribution stats))
  = Z.of_nat (api_total_records stats) /\
  dict.get (status_distribution stats) "Normal" 0%Z
  = Z.of_nat (normal_count (dashboard_stats records)).
Proof.
  cbv zeta.
  assert (H : status_distribution (api_stats records) = count_statuses records
              /\ api_total_records (api_stats records) = List.length records)
    by (destruct records; split; reflexivity).
  destruct H as [-> ->].
  destruct (count_statuses_acc records []) as (Hget & Hnone & Hsum).
  fold (count_statuses records) in Hget, Hnone, Hsum.
  repeat split.
  - intro s. rewrite Hget. reflexivity.
  - intro H. apply Hnone in H. tauto.
  - intro H. apply Hnone. split; [reflexivity | exact H].
  - exact Hsum.
  - rewrite Hget. reflexivity.
Qed.

(** ** Stored readings *)

Section Readings.

Context {ext : External}.

Lemma Qle_bool_false x : Qle_bool x 0 = false -> 0 < x.
Proof.
  intro H. apply Qnot_le_lt. intro L. apply Qle_bool_iff in L. congruence.
Qed.

(** X29. [add_data] stores checked readings only, and only for the user who
    submits them: either the table is left as it was and the form is shown
    again, or exactly one row is appended under a new key, owned by that
    user, with three positive hormone values, a date and a time, and the
    request is redirected to the dashboard. The table stays well formed. *)
Theorem add_data_stores_checked_readings ML_MODEL ML_SCALER user form records w :
  records_sound records ->
  let '(response, _, records') :=
    fst (add_data_post ML_MODEL ML_SCALER user form records w) in
  records_sound records' /\
  ((response = render_template "add_data.html" /\ records' = records) \/
   (response = redirect "dashboard" /\
    exists r, rows records' = (rows records ++ [r])%list /\
              r_user_id r = u_id user /\ reading_checked r /\
              f_cortisol form = Some (r_cortisol r) /\
              f_estrogen form = Some (r_estrogen r) /\
              f_testosterone form = Some (r_testosterone r))).
Proof.
  intros Hs. unfold add_data_post.
  destruct (f_cortisol form) as [c|]; [|cbn; split; [exact Hs | now left]].
  destruct (f_estrogen form) as [e|]; [|cbn; split; [exact Hs | now left]].
  destruct (f_testosterone form) as [t|]; [|cbn; split; [exact Hs | now left]].
  destruct (Qle_bool c 0) eqn:Hc; [cbn; split; [exact Hs | now left]|].
  destruct (Qle_bool e 0) eqn:He; [cbn; split; [exact Hs | now left]|].
  destruct (Qle_bool t 0) eqn:Ht; [cbn; split; [exact Hs | now left]|].
  cbn [orb].
  destruct (nonempty (f_date form)) eqn:Hd; [|cbn; split; [exact Hs | now left]].
  destruct (nonempty (f_time form)) eqn:Hti; [|cbn; split; [exact Hs | now left]].
  cbn [negb orb]. rewrite bind_run.
  destruct (predict_status c e t ML_MODEL ML_SCALER (u_age user) (u_gender user)
                           (f_time_of_day form) w) as [[result|err] w'];
    cbn [fst snd]; [|destruct err; cbn; split; try exact Hs; now left].
  cbn [ret fst]. destruct Hs as [Hnd Hl]. split.
  - unfold records_sound. cbn [rows last_id]. rewrite map_app. cbn [map r_id]. split.
    + apply NoDup_app; [exact Hnd | repeat constructor; intros [] | ].
      intros x Hx [<- | []]. apply in_map_iff in Hx.
      destruct Hx as (r & Hr & Hin). rewrite Forall_forall in Hl.
      specialize (Hl r Hin). lia.
    + apply Forall_app. split.
      * eapply Forall_impl; [|exact Hl]. cbn. intros; lia.
      * repeat constructor. cbn. lia.
  - right. split; [reflexivity|]. eexists. cbn [rows]. split; [reflexivity|].
    cbn. unfold reading_checked. cbn.
    repeat split; try (now apply Qle_bool_false); now apply nonempty_spec.
Qed.

Lemma predict_with_status_label model scaler cortisol estrogen testosterone
      age gender time_of_day result :
  predict_with model scaler cortisol estrogen testosterone age gender time_of_day
  = Ok result ->
  exists labels, classes_labels_ model = Some labels /\ In (status result) labels.
Proof.
  unfold predict_with.
  destruct (match scaler with Some s => transform s _ | None => Ok _ end)
    as [feats|err]; cbn [bindR]; [|discriminate].
  destruct (py_max _) as [top|err]; cbn [bindR]; [|discriminate].
  destruct (classes_labels_ model) as [labels|].
  - unfold getitem. destruct (nth_error labels _) as [label|] eqn:Hn;
      cbn [bindR]; [|discriminate].
    intro H. injection H as <-. cbn [status]. exists labels. split; trivial.
    eapply nth_error_In; eassumption.
  - destruct (getitem _ _); cbn [bindR]; discriminate.
Qed.

(** X30. With a model whose labels are status levels, what [add_data]
    stores is what the dashboard counts: if every stored prediction is a
    status level before the request, so it is after it, and the Normal and
    Imbalance counters of the dashboard add up to the number of records. *)
Theorem add_data_then_dashboard model ML_SCALER user form records labels w :
  classes_labels_ model = Some labels ->
  incl labels STATUS_LEVELS ->
  Forall (fun r => In (r_prediction r) STATUS_LEVELS) (rows records) ->
  let '(_, _, records') :=
    fst (add_data_post (Some model) ML_SCALER user form records w) in
  Forall (fun r => In (r_prediction r) STATUS_LEVELS) (rows records') /\
  let stats := dashboard_stats (rows records') in
  (normal_count stats + imbalance_count stats = total_records stats)%nat.
Proof.
  intros Hlabels Hincl Hall.
  assert (Hgoal : forall records' : Table HormoneRecord,
            Forall (fun r => In (r_prediction r) STATUS_LEVELS) (rows records') ->
            Forall (fun r => In (r_prediction r) STATUS_LEVELS) (rows records') /\
            let stats := dashboard_stats (rows records') in
            (normal_count stats + imbalance_count stats = total_records stats)%nat)
    by (intros records' H; split; [exact H | now apply status_levels_partition]).
  unfold add_data_post.
  destruct (f_cortisol form) as [c|]; [|now apply Hgoal].
  destruct (f_estrogen form) as [e|]; [|now apply Hgoal].
  destruct (f_testosterone form) as [t|]; [|now apply Hgoal].
  destruct (_ || _ || _); [now apply Hgoal|].
  destruct (_ || _); [now apply Hgoal|].
  rewrite bind_run. unfold predict_status. rewrite bind_run. cbn [ret fst snd].
  destruct (predict_with model ML_SCALER c e t (u_age user) (u_gender user)
                         (f_time_of_day form)) as [result|err] eqn:Hp;
    [|destruct err; now apply Hgoal].
  apply Hgoal. cbn [rows]. apply Forall_app. split; [exact Hall|].
  constructor; [|constructor]. change (In (status result) STATUS_LEVELS).
  apply predict_with_status_label in Hp. destruct Hp as (labels' & Hl' & Hin).
  apply Hincl. congruence.
Qed.

End Readings.

Lemma add_data_stores_checked_readings_witness :
  let user := mkUser 7 "Ann" "ann@x.org" "plain$secret1" 30 "Female" in
  let form := mkReadingForm (Some 5.0) (Some 3.0) (Some 100.0)
                            "2024-01-01" "08:00" "Morning" in
  let '(response, _, records') :=
    fst (add_data_post (ext := Tabulated.libraries [] [])
           (Some (Tabulated.constant_model 0 [1; 0; 0; 0])) None
           user form (mkTable [] 0) (Tabulated.world 1000 Tabulated.no_files)) in
  response = redirect "dashboard" /\ List.length (rows records') = 1%nat.
Proof.
  pose proof (add_data_stores_checked_readings (ext := Tabulated.libraries [] [])
                (Some (Tabulated.constant_model 0 [1; 0; 0; 0])) None
                (mkUser 7 "Ann" "ann@x.org" "plain$secret1" 30 "Female")
                (mkReadingForm (Some 5.0) (Some 3.0) (Some 100.0)
                               "2024-01-01" "08:00" "Morning")
                (mkTable [] 0) (Tabulated.world 1000 Tabulated.no_files)) as H.
  cbn in H |- *.
  destruct H as [_ [[H _] | [H (r & Hr & _)]]].
  - split; constructor.
  - discriminate.
  - split; reflexivity.
Defined.

Lemma add_data_then_dashboard_witness :
  let user := mkUser 7 "Ann" "ann@x.org" "plain$secret1" 30 "Female" in
  let form := mkReadingForm (Some 5.0) (Some 3.0) (Some 100.0)
                            "2024-01-01" "08:00" "Morning" in
  let '(_, _, records') :=
    fst (add_data_post (ext := Tabulated.libraries [] [])
           (Some (Tabulated.constant_model 0 [1; 0; 0; 0])) None
           user form (mkTable [] 0) (Tabulated.world 1000 Tabulated.no_files)) in
  Forall (fun r => In (r_prediction r) STATUS_LEVELS) (rows records') /\
  let stats := dashboard_stats (rows records') in
  (normal_count stats + imbalance_count stats = total_records stats)%nat.
Proof.
  apply (add_data_then_dashboard (ext := Tabulated.libraries [] [])
           (Tabulated.constant_model 0 [1; 0; 0; 0]) None
           (mkUser 7 "Ann" "ann@x.org" "plain$secret1" 30 "Female")
           (mkReadingForm (Some 5.0) (Some 3.0) (Some 100.0)
                          "2024-01-01" "08:00" "Morning")
           (mkTable [] 0) STATUS_LEVELS (Tabulated.world 1000 Tabulated.no_files)).
  - reflexivity.
  - apply incl_refl.
  - constructor.
Defined.

End AppFacts.
